(** * Project Product Planning & Costing Management: a shallow embedding

    The add-on is Odoo glue code.  The development below embeds the parts of
    it that carry logic:

    - [ProjectDefinition]: the project record, its date constraint, its
      [create]/[write] overrides and the automatic lifecycle state machine
      ([models/project_definition.py]);
    - [MaterialProductionPlanning]: the material requirement calculation
      ([models/material_production_planning.py]);
    - [WorkOrderCreationWizard]: production order creation with its quantity
      guard ([wizards/work_order_creation_wizard.py]);
    - [ProjectEstimationImportWizard]: the cost estimation import
      ([wizards/project_estimation_import_wizard.py]);
    - [WorkOrderExecution]: automatic material issuing
      ([models/work_order_execution.py]).

    Conventions.  A table of the ORM is a list of records and the id of a
    record is its position in the table; ids are therefore always "truthy",
    as Odoo's positive ids are.  A Python float is a double; a finite
    double is a rational number and is represented by it in [Q], with the
    comparisons of the rationals.  Where the behaviour of the code rests on
    the rounding of a sum, a difference, a product or a quotient, the
    arithmetic is a parameter ([Py.float_ops]) and the properties hold for
    every choice of it.  Python strings are represented by their bytes; the
    methods [strip], [lower] and [upper] of [str] depend on the Unicode
    tables and are a parameter ([Py.str_methods]) of the code that calls
    them.  A Python exception is a value of [exn]; a method that may raise lives in the
    state-and-exception monad [M]; an unhandled exception rolls the
    request's transaction back ([transaction]). *)

From Stdlib Require Import ZArith QArith Qminmax List String Ascii Bool Lia DecimalString Lqa.
From stdpp Require Import base list.
Import ListNotations.

Open Scope string_scope.
Open Scope list_scope.
Open Scope nat_scope.

(* ===================================================================== *)
(** * Python values and builtins *)
(* ===================================================================== *)

Module Py.

(** [str.isspace] on the ASCII range: TAB..CR, FS..US and the blank. *)
Definition is_space (c : ascii) : bool :=
  let n := nat_of_ascii c in
  ((9 <=? n) && (n <=? 13)) || ((28 <=? n) && (n <=? 32)).

Fixpoint lstrip (s : string) : string :=
  match s with
  | EmptyString => EmptyString
  | String c s' => if is_space c then lstrip s' else s
  end.

Definition reverse (s : string) : string :=
  string_of_list_ascii (rev (list_ascii_of_string s)).

Definition rstrip (s : string) : string := reverse (lstrip (reverse s)).

(** [s.strip()] *)
Definition strip (s : string) : string := rstrip (lstrip s).

Definition lower_char (c : ascii) : ascii :=
  let n := nat_of_ascii c in
  if (65 <=? n) && (n <=? 90) then ascii_of_nat (n + 32) else c.

Definition upper_char (c : ascii) : ascii :=
  let n := nat_of_ascii c in
  if (97 <=? n) && (n <=? 122) then ascii_of_nat (n - 32) else c.

Fixpoint map_chars (f : ascii -> ascii) (s : string) : string :=
  match s with
  | EmptyString => EmptyString
  | String c s' => String (f c) (map_chars f s')
  end.

(** [s.lower()] and [s.upper()] *)
Definition lower : string -> string := map_chars lower_char.
Definition upper : string -> string := map_chars upper_char.

(** Truth value of a string: the empty string is false. *)
Definition truthy (s : string) : bool := negb (s =? "")%string.

(** [sub in s] *)
Fixpoint contains (sub s : string) : bool :=
  if String.prefix sub s then true
  else match s with
       | EmptyString => false
       | String _ s' => contains sub s'
       end.

(** [str(n)] for a non-negative integer and for an integer. *)
Definition str_of_nat (n : nat) : string :=
  NilEmpty.string_of_uint (Nat.to_uint n).
Definition str_of_Z (z : Z) : string :=
  NilZero.string_of_int (Z.to_int z).

(** The double quote character, code 34. *)
Definition dquote : string := String (ascii_of_nat 34) EmptyString.

(** The line feed. *)
Definition nl : string := String (ascii_of_nat 10) EmptyString.

(** Comparisons of floats. *)
Definition gt (a b : Q) : bool := negb (Qle_bool a b).
Definition lt (a b : Q) : bool := negb (Qle_bool b a).
Definition le (a b : Q) : bool := Qle_bool a b.
Definition ge (a b : Q) : bool := Qle_bool b a.

(** [max(0, x)]: the first argument is kept unless the second is
    strictly greater. *)
Definition max0 (x : Q) : Q := if gt x 0 then x else 0%Q.

(** [sum(l)]: left to right, from the integer 0. *)
Definition sum (l : list Q) : Q := fold_left Qplus l 0%Q.

(** The arithmetic of floats.  A float is an IEEE 754 double; a finite
    double is a rational number and is represented by that number, so the
    comparisons above are those of the machine.  The operations of the
    machine round their results ([0.1 + 0.2] is not [0.3]), and [sum] adds
    with the rounding of the interpreter at hand.  Code whose behaviour
    rests on the value of a sum, a difference, a product or a quotient
    takes the operations as a parameter; what is proved of it holds for
    every choice of them, that of the machine included. *)
Record float_ops : Type := FloatOps {
  add : Q -> Q -> Q;
  sub : Q -> Q -> Q;
  mul : Q -> Q -> Q;
  div : Q -> Q -> Q;
  fsum : list Q -> Q
}.

(** The operations without rounding.  They are those of the machine on
    numbers such as small integers and their halves, where the exact result
    is a double again. *)
Definition exact_ops : float_ops := FloatOps Qplus Qminus Qmult Qdiv sum.

(** The methods of [str] that depend on the Unicode tables: [s.strip()]
    removes the characters for which [str.isspace] holds, the no-break
    space U+00A0 among them, [s.lower()] and [s.upper()] follow the case
    mappings of Unicode.  Code that calls them takes them as a parameter;
    what is proved of it holds for every choice of them. *)
Record str_methods : Type := StrMethods {
  str_strip : string -> string;
  str_lower : string -> string;
  str_upper : string -> string
}.

(** The methods on text of the ASCII range, where they are the functions
    [strip], [lower] and [upper] above. *)
Definition ascii_methods : str_methods := StrMethods strip lower upper.

End Py.

(* ===================================================================== *)
(** * Exceptions and results *)
(* ===================================================================== *)

Inductive exn : Type :=
| UserError (msg : string)
| ValidationError (msg : string)
| MissingError
| IntegrityError
| IndexError
| ValueError
| TypeError
| OtherError (msg : string).

(** [str(e)] *)
Definition exn_str (e : exn) : string :=
  match e with
  | UserError msg | ValidationError msg | OtherError msg => msg
  | MissingError => "Record does not exist or has been deleted."
  | IntegrityError => "null value violates not-null constraint"
  | IndexError => "tuple index out of range"
  | ValueError => "could not convert string to float"
  | TypeError => "float() argument must be a string or a real number"
  end.

Inductive result (A : Type) : Type :=
| Ok (a : A)
| Raise (e : exn).
Arguments Ok {A} a.
Arguments Raise {A} e.

(* ===================================================================== *)
(** * The data model: one record type per ORM model *)
(* ===================================================================== *)

(** [datetime.date]; the order of dates is the order of (year, month, day). *)
Record date : Type := Date { year : nat; month : nat; day : nat }.

Definition date_ltb (a b : date) : bool :=
  (year a <? year b)
  || ((year a =? year b)
      && ((month a <? month b)
          || ((month a =? month b) && (day a <? day b)))).

Definition date_leb (a b : date) : bool := negb (date_ltb b a).

(** [res.partner] *)
Module Partner.
Record t : Type := Make { name : string; customer_rank : Z }.
End Partner.

(** [product.product], as far as the add-on reads it. *)
Module Product.
Record t : Type := Make {
  name : string;
  default_code : option string;   (* False or a string *)
  uom_id : nat;
  qty_available : Q;
  outgoing_qty : Q
}.
End Product.

(** [mrp.bom.line] and [mrp.bom] *)
Module BomLine.
Record t : Type := Make { product_id : nat; product_qty : Q }.
End BomLine.

Module Bom.
Record t : Type := Make {
  code : option string;
  product_id : nat;               (* the product the BOM makes *)
  bom_line_ids : list BomLine.t
}.
End Bom.

(** [mail.message], as posted by [message_post]. *)
Module Message.
Record t : Type := Make {
  body : string;
  subject : option string;
  subtype_xmlid : option string
}.
End Message.

(** [project.product.line]; the totals are computed fields. *)
Module ProductLine.
Record t : Type := Make {
  sequence : Z;
  product_id : nat;
  quantity : Q;
  weight : Q;
  cost_price : Q;
  sale_price : Q
}.
Definition total_cost (l : t) : Q := (quantity l * cost_price l)%Q.
Definition total_sale (l : t) : Q := (quantity l * sale_price l)%Q.
Definition profit (l : t) : Q := (total_sale l - total_cost l)%Q.
End ProductLine.

(** [project.definition] *)
Module Project.
Inductive state_t : Type :=
| draft | pricing | planning | processing | done | cancelled.

Definition state_eqb (a b : state_t) : bool :=
  match a, b with
  | draft, draft | pricing, pricing | planning, planning
  | processing, processing | done, done | cancelled, cancelled => true
  | _, _ => false
  end.

Record t : Type := Make {
  name : string;
  project_name : string;
  partner_id : nat;
  start_date : option date;       (* False or a date *)
  end_date : option date;
  state : state_t;
  product_line_ids : list ProductLine.t;   (* ordered by sequence, id *)
  notes : option string;
  auto_update_state : bool;
  message_ids : list Message.t    (* the chatter, oldest first *)
}.
End Project.

(** [project.product.pricing] *)
Module Pricing.
Inductive state_t : Type := draft | confirmed | approved | cancelled.
Record t : Type := Make { project_id : nat; state : state_t }.
End Pricing.

(** [material.planning.component] and [material.requirement.line] *)
Module Component.
Record t : Type := Make {
  component_id : nat;
  quantity : Q;
  weight : Q;
  cost_price : Q;
  bom_id : option nat             (* False or a BOM *)
}.
End Component.

Module Requirement.
Record t : Type := Make {
  component_id : nat;
  material_id : nat;
  required_qty : Q;
  available_qty : Q;
  shortage_qty : Q
}.
End Requirement.

(** [material.production.planning] *)
Module Planning.
Inductive state_t : Type :=
| draft | components_loaded | material_planned | work_orders_created
| done | cancelled.

Record t : Type := Make {
  name : string;
  project_id : nat;
  product_id : nat;
  quantity : Q;
  state : state_t;
  component_line_ids : list Component.t;
  material_requirement_ids : list Requirement.t;
  production_order_ids : list nat
}.
End Planning.

(** [work.order.execution] *)
Module Execution.
Inductive state_t : Type := draft | loaded | in_progress | done | cancelled.
Record t : Type := Make { project_id : nat; state : state_t }.
End Execution.

(** [mrp.production] *)
Module Production.
Inductive state_t : Type :=
| draft | confirmed | progress | to_close | done | cancel.

Record t : Type := Make {
  product_id : nat;
  product_qty : Q;
  product_uom_id : nat;
  bom_id : option nat;
  origin : option string;
  state : state_t
}.
End Production.

(** [project.cost.estimation] *)
Module Estimation.
Inductive state_t : Type := draft | in_progress | completed | cancelled.
Record t : Type := Make {
  name : string;
  project_id : nat;
  excel_file : option string;
  excel_filename : option string;
  last_update_date : option Z;      (* seconds since the epoch *)
  state : state_t
}.
End Estimation.

(** The database of one request. *)
Record db : Type := Db {
  projects : list Project.t;
  partners : list Partner.t;
  pricings : list Pricing.t;
  plannings : list Planning.t;
  executions : list Execution.t;
  productions : list Production.t;
  estimations : list Estimation.t;
  product : nat -> Product.t;
  bom : nat -> Bom.t;
  (* [ir.sequence] by code: prefix and next number, when the sequence exists *)
  ir_sequence : string -> option (string * nat)
}.

Definition set_projects (ps : list Project.t) (d : db) : db :=
  Db ps (partners d) (pricings d) (plannings d) (executions d)
     (productions d) (estimations d) (product d) (bom d) (ir_sequence d).

Definition set_partners (ps : list Partner.t) (d : db) : db :=
  Db (projects d) ps (pricings d) (plannings d) (executions d)
     (productions d) (estimations d) (product d) (bom d) (ir_sequence d).

Definition set_plannings (ps : list Planning.t) (d : db) : db :=
  Db (projects d) (partners d) (pricings d) ps (executions d)
     (productions d) (estimations d) (product d) (bom d) (ir_sequence d).

Definition set_productions (ps : list Production.t) (d : db) : db :=
  Db (projects d) (partners d) (pricings d) (plannings d) (executions d)
     ps (estimations d) (product d) (bom d) (ir_sequence d).

Definition set_estimations (es : list Estimation.t) (d : db) : db :=
  Db (projects d) (partners d) (pricings d) (plannings d) (executions d)
     (productions d) es (product d) (bom d) (ir_sequence d).

Definition set_ir_sequence (f : string -> option (string * nat)) (d : db) : db :=
  Db (projects d) (partners d) (pricings d) (plannings d) (executions d)
     (productions d) (estimations d) (product d) (bom d) f.

(* ===================================================================== *)
(** * The state-and-exception monad of a request *)
(* ===================================================================== *)

Definition M (A : Type) : Type := db -> result (A * db).

Definition ret {A} (a : A) : M A := fun d => Ok (a, d).

Definition bind {A B} (m : M A) (k : A -> M B) : M B :=
  fun d => match m d with
           | Ok (a, d') => k a d'
           | Raise e => Raise e
           end.

Definition raise {A} (e : exn) : M A := fun _ => Raise e.

Definition get : M db := fun d => Ok (d, d).
Definition modify (f : db -> db) : M unit := fun d => Ok (tt, f d).

Notation "'do' x <- m ; k" := (bind m (fun x => k))
  (at level 10, x name, m at level 100, k at level 200).
Notation "'run' m ; k" := (bind m (fun _ => k))
  (at level 10, m at level 100, k at level 200).

(** One request: the transaction commits on return and rolls back on an
    unhandled exception. *)
Definition transaction {A} (m : M A) (d : db) : db * result A :=
  match m d with
  | Ok (a, d') => (d', Ok a)
  | Raise e => (d, Raise e)
  end.

(** [self.env['ir.sequence'].next_by_code(code)]: False when there is no
    such sequence. *)
Definition next_by_code (code : string) : M (option string) := fun d =>
  match ir_sequence d code with
  | None => Ok (None, d)
  | Some (prefix, n) =>
      Ok (Some (prefix ++ Py.str_of_nat n)%string,
          set_ir_sequence
            (fun c => if (c =? code)%string then Some (prefix, S n)
                      else ir_sequence d c) d)
  end.

(** [for x in xs: body(x)] *)
Fixpoint for_each {A} (xs : list A) (body : A -> M unit) : M unit :=
  match xs with
  | [] => ret tt
  | x :: xs' => run body x; for_each xs' body
  end.

(* ===================================================================== *)
(** * models/project_definition.py *)
(* ===================================================================== *)

Module ProjectDefinition.

Import Project.

(** The [vals] dictionary of [create] and [write]: a key is absent ([None])
    or bound to a value. *)
Record vals : Type := Vals {
  v_name : option string;
  v_project_name : option string;
  v_partner_id : option nat;
  v_start_date : option (option date);
  v_end_date : option (option date);
  v_state : option state_t;
  v_notes : option (option string);
  v_auto_update_state : option bool
}.

Definition no_vals : vals := Vals None None None None None None None None.

(** [{'state': s}] *)
Definition vals_state (s : state_t) : vals :=
  Vals None None None None None (Some s) None None.

(** The record after the fields bound in [v] are assigned. *)
Definition apply_vals (v : vals) (p : t) : t :=
  Make (default (name p) (v_name v))
       (default (project_name p) (v_project_name v))
       (default (partner_id p) (v_partner_id v))
       (default (start_date p) (v_start_date v))
       (default (end_date p) (v_end_date v))
       (default (state p) (v_state v))
       (product_line_ids p)
       (default (notes p) (v_notes v))
       (default (auto_update_state p) (v_auto_update_state v))
       (message_ids p).

Definition set_product_line_ids (ls : list ProductLine.t) (p : t) : t :=
  Make (name p) (project_name p) (partner_id p) (start_date p) (end_date p)
       (state p) ls (notes p) (auto_update_state p) (message_ids p).

Definition add_message (m : Message.t) (p : t) : t :=
  Make (name p) (project_name p) (partner_id p) (start_date p) (end_date p)
       (state p) (product_line_ids p) (notes p) (auto_update_state p)
       (message_ids p ++ [m]).

(** [@api.constrains('start_date', 'end_date')  def _check_dates(self)] *)
Definition _check_dates (record : t) : result unit :=
  match end_date record, start_date record with
  | Some e, Some s =>
      if date_ltb e s
      then Raise (ValidationError "End date cannot be before start date!")
      else Ok tt
  | _, _ => Ok tt
  end.

(** The constraint is run when one of its fields is written. *)
Definition constrains_dates (v : vals) : bool :=
  match v_start_date v, v_end_date v with
  | None, None => false
  | _, _ => true
  end.

(** [self.browse(id)] followed by a field read. *)
Definition browse (self : nat) : M t := fun d =>
  match projects d !! self with
  | Some p => Ok (p, d)
  | None => Raise MissingError
  end.

Definition store (self : nat) (p : t) : M unit :=
  modify (fun d => set_projects (<[self := p]> (projects d)) d).

(** [models.Model.write]: assign the fields, run the constraints of the
    written fields, keep the required dates set. *)
Definition orm_write (self : nat) (v : vals) : M unit :=
  do p <- browse self;
  let p' := apply_vals v p in
  run store self p';
  run (if constrains_dates v
       then (fun d => match _check_dates p' with
                      | Ok _ => Ok (tt, d)
                      | Raise e => Raise e
                      end)
       else ret tt);
  match v_start_date v, v_end_date v with
  | Some None, _ | _, Some None => raise IntegrityError
  | _, _ => ret tt
  end.

(** The part [create] and [write] share: a partner that is not yet a
    customer is marked as one. *)
Definition mark_customer (v : vals) : M unit :=
  match v_partner_id v with
  | Some pid => fun d =>
      match partners d !! pid with
      | None => Raise MissingError
      | Some partner =>
          if (Partner.customer_rank partner =? 0)%Z
          then Ok (tt, set_partners
                         (<[pid := Partner.Make (Partner.name partner) 1]>
                            (partners d)) d)
          else Ok (tt, d)
      end
  | None => ret tt
  end.

(** [def write(self, vals)] *)
Definition write (self : nat) (v : vals) : M unit :=
  run mark_customer v;
  orm_write self v.

(** [self.message_post(body=..., subject=..., subtype_xmlid=...)] *)
Definition message_post (self : nat) (body : string)
    (subject subtype_xmlid : option string) : M unit :=
  do p <- browse self;
  store self (add_message (Message.Make body subject subtype_xmlid) p).

(** The first statement of [create]: a name that is absent or 'New' is
    replaced by the next number of the sequence, or by 'New' when there is
    no sequence. *)
Definition assign_name (v : vals) : M vals :=
  if (default "New" (v_name v) =? "New")%string
  then do n <- next_by_code "project.definition";
       ret (Vals (Some (default "New" n)) (v_project_name v)
                 (v_partner_id v) (v_start_date v) (v_end_date v)
                 (v_state v) (v_notes v) (v_auto_update_state v))
  else ret v.

Section Create.

(** [fields.Date.context_today] *)
Variable today : date.

(** [models.Model.create]: defaults, required fields, constraints. *)
Definition orm_create (v : vals) : M nat :=
  match v_project_name v, v_partner_id v, v_end_date v with
  | Some pname, Some partner, Some (Some e) =>
      match default (Some today) (v_start_date v) with
      | None => raise IntegrityError
      | Some s =>
          let p := Make (default "New" (v_name v)) pname partner (Some s)
                        (Some e) (default draft (v_state v)) []
                        (default None (v_notes v))
                        (default true (v_auto_update_state v)) [] in
          fun d =>
            match _check_dates p with
            | Ok _ => Ok (length (projects d),
                          set_projects (projects d ++ [p]) d)
            | Raise e => Raise e
            end
      end
  | _, _, _ => raise IntegrityError
  end.

(** [@api.model  def create(self, vals)] *)
Definition create (v : vals) : M nat :=
  do v1 <- assign_name v;
  run mark_customer v1;
  orm_create v1.

End Create.

(** ** Automatic state updates *)

Definition note_pricing : string :=
  "ðŸ”„ Project automatically moved to Pricing stage (Pricing created)".
Definition note_planning : string :=
  "ðŸ”„ Project automatically moved to Planning stage (Material Planning created)".
Definition note_processing : string :=
  "ðŸ”„ Project automatically moved to Processing stage (Work Orders started)".
Definition note_done : string :=
  "âœ… Project automatically marked as Done (All work orders completed)".

Definition _move_to_pricing (self : nat) : M unit :=
  do p <- browse self;
  match state p with
  | draft =>
      run write self (vals_state pricing);
      message_post self note_pricing None (Some "mail.mt_note")
  | _ => ret tt
  end.

Definition _move_to_planning (self : nat) : M unit :=
  do p <- browse self;
  match state p with
  | draft | pricing =>
      run write self (vals_state planning);
      message_post self note_planning None (Some "mail.mt_note")
  | _ => ret tt
  end.

Definition _move_to_processing (self : nat) : M unit :=
  do p <- browse self;
  match state p with
  | draft | pricing | planning =>
      run write self (vals_state processing);
      message_post self note_processing None (Some "mail.mt_note")
  | _ => ret tt
  end.

Definition _move_to_done (self : nat) : M unit :=
  do p <- browse self;
  match state p with
  | done => ret tt
  | _ =>
      run write self (vals_state done);
      message_post self note_done None (Some "mail.mt_comment")
  end.

Section Auto.

(** The domain operator [ilike] of the ORM: [ilike value pattern]. *)
Variable ilike : string -> string -> bool.

Definition search_pricings (d : db) (project : nat) : list Pricing.t :=
  List.filter (fun r => Pricing.project_id r =? project) (pricings d).

Definition search_plannings (d : db) (project : nat) : list Planning.t :=
  List.filter (fun r => Planning.project_id r =? project) (plannings d).

Definition search_executions (d : db) (project : nat) : list Execution.t :=
  List.filter (fun r => Execution.project_id r =? project) (executions d).

(** [search([('origin', 'ilike', name)])]; an unset origin matches nothing. *)
Definition search_productions (d : db) (pattern : string)
    : list Production.t :=
  List.filter (fun r => match Production.origin r with
                   | Some o => ilike o pattern
                   | None => false
                   end) (productions d).

(** Truth value of a recordset. *)
Definition nonempty {A} (rs : list A) : bool :=
  match rs with [] => false | _ => true end.

Definition exe_done (e : Execution.t) : bool :=
  match Execution.state e with Execution.done => true | _ => false end.
Definition exe_running (e : Execution.t) : bool :=
  match Execution.state e with
  | Execution.loaded | Execution.in_progress => true
  | _ => false
  end.
Definition plan_done (r : Planning.t) : bool :=
  match Planning.state r with Planning.done => true | _ => false end.
Definition plan_has_orders (r : Planning.t) : bool :=
  match Planning.state r with
  | Planning.work_orders_created | Planning.done => true
  | _ => false
  end.
Definition plan_not_draft (r : Planning.t) : bool :=
  match Planning.state r with Planning.draft => false | _ => true end.
Definition prod_done (r : Production.t) : bool :=
  match Production.state r with Production.done => true | _ => false end.
Definition prod_running (r : Production.t) : bool :=
  match Production.state r with
  | Production.confirmed | Production.progress | Production.to_close => true
  | _ => false
  end.
Definition prc_settled (r : Pricing.t) : bool :=
  match Pricing.state r with
  | Pricing.confirmed | Pricing.approved => true
  | _ => false
  end.
Definition prc_not_draft (r : Pricing.t) : bool :=
  match Pricing.state r with Pricing.draft => false | _ => true end.

(** [def _auto_update_state(self)] *)
Definition _auto_update_state (self : nat) : M unit :=
  do p <- browse self;
  if negb (auto_update_state p) then ret tt
  else
  (* Skip if already done or cancelled *)
  match state p with
  | done | cancelled => ret tt
  | _ =>
    do d <- get;
    let pricings := search_pricings d self in
    let plannings := search_plannings d self in
    let executions := search_executions d self in
    let productions := search_productions d (name p) in
    let from_priority_2 : M unit :=
      (* Priority 2: work orders in progress *)
      if nonempty executions && existsb exe_running executions
      then _move_to_processing self
      else if nonempty productions && existsb prod_running productions
      then _move_to_processing self
      (* Priority 3: planning with work orders *)
      else if nonempty plannings && existsb plan_has_orders plannings
      then match state p with
           | planning | processing | done => ret tt
           | _ => _move_to_planning self
           end
      (* Priority 4: planning exists past draft *)
      else if nonempty plannings && existsb plan_not_draft plannings
      then match state p with
           | planning | processing | done => ret tt
           | _ => _move_to_planning self
           end
      (* Priority 5: pricing confirmed or approved *)
      else if nonempty pricings && existsb prc_settled pricings
      then match state p with
           | draft => _move_to_pricing self
           | _ => ret tt
           end
      (* Priority 6: pricing exists past draft *)
      else if nonempty pricings && existsb prc_not_draft pricings
      then match state p with
           | draft => _move_to_pricing self
           | _ => ret tt
           end
      else ret tt in
    (* Priority 1: all work is done *)
    if nonempty executions && forallb exe_done executions then
      if nonempty plannings && forallb plan_done plannings then
        if nonempty productions && forallb prod_done productions
        then _move_to_done self
        else from_priority_2
      else from_priority_2
    else from_priority_2
  end.

(** [def update_project_state(self)] *)
Definition update_project_state (self : list nat) : M unit :=
  for_each self _auto_update_state.

End Auto.

(** ** Manual state changes *)

Definition action_pricing (self : nat) : M unit := write self (vals_state pricing).
Definition action_planning (self : nat) : M unit := write self (vals_state planning).
Definition action_processing (self : nat) : M unit := write self (vals_state processing).
Definition action_done (self : nat) : M unit := write self (vals_state done).
Definition action_cancel (self : nat) : M unit := write self (vals_state cancelled).
Definition action_draft (self : nat) : M unit := write self (vals_state draft).

(** ** Vocabulary of the properties *)

(** The order draft < pricing < planning < processing < done; a cancelled
    project is outside of it. *)
Definition rank (s : state_t) : option nat :=
  match s with
  | draft => Some 0
  | pricing => Some 1
  | planning => Some 2
  | processing => Some 3
  | done => Some 4
  | cancelled => None
  end.

Definition not_backwards (a b : state_t) : Prop :=
  match rank a, rank b with
  | Some x, Some y => x <= y
  | _, _ => True
  end.

(** The record after an automatic move: the state is written, then the
    note is posted. *)
Definition moved (s : state_t) (body : string) (subtype : string) (p : t) : t :=
  add_message (Message.Make body None (Some subtype)) (apply_vals (vals_state s) p).

(** What one automatic update may do to the database: nothing, or one
    move of the project [self] to a state [s] that is not behind. *)
Definition outcome (self : nat) (d : db) (p : t) (d' : db) : Prop :=
  d' = d
  \/ exists s body subtype,
       d' = set_projects
              (<[self := moved s body subtype p]> (projects d)) d
       /\ s <> cancelled /\ not_backwards (state p) s.


(** The invariant of the dates of one record, of the whole table, and its
    violation. *)
Definition date_invariant (p : t) : Prop :=
  forall e s, end_date p = Some e -> start_date p = Some s -> date_leb s e = true.

Definition ends_before_start (p : t) : Prop :=
  exists e s, end_date p = Some e /\ start_date p = Some s /\ date_ltb e s = true.

Definition dates_ok (d : db) : Prop :=
  forall i p, projects d !! i = Some p -> date_invariant p.

(** The partner named in [vals], if any, exists. *)
Definition partner_ok (d : db) (v : vals) : Prop :=
  match v_partner_id v with
  | Some pid => pid < length (partners d)
  | None => True
  end.

Definition date_error : exn :=
  ValidationError "End date cannot be before start date!".

(** The methods of the model that change the state on their own or on
    behalf of the state machine, apart from the manual moves to an
    earlier stage. *)
Definition forward_methods (ilike : string -> string -> bool)
    : list (nat -> M unit) :=
  [ _auto_update_state ilike; _move_to_pricing; _move_to_planning;
    _move_to_processing; _move_to_done; action_done ].

End ProjectDefinition.

(** ** Concrete databases *)

Module ProjectScenario.

Import Project.

(** [ilike] for a pattern without wildcards: a case-insensitive
    substring test. *)
Definition ilike (value pattern : string) : bool :=
  Py.contains (Py.lower pattern) (Py.lower value).

Definition today : date := Date 2024 1 15.

Definition project_in (s : state_t) : Project.t :=
  Make "PRJ/0001" "Footbridge" 0 (Some (Date 2024 1 1)) (Some (Date 2024 6 30))
       s [] None true [].

(** One project in state [s]; its pricing is approved, its planning and its
    execution are done, and so is the one production order, whose origin
    is [origin]. *)
Definition all_done (s : state_t) (origin : string) : db :=
  Db [project_in s]
     [Partner.Make "ACME" 1; Partner.Make "Prospect" 0]
     [Pricing.Make 0 Pricing.approved]
     [Planning.Make "MPP/0001" 0 7 10 Planning.done [] [] [0]]
     [Execution.Make 0 Execution.done]
     [Production.Make 7 10 1 None (Some origin) Production.done]
     []
     (fun _ => Product.Make "Girder" None 1 0 0)
     (fun _ => Bom.Make None 0 [])
     (fun _ => None).

(** A write and a create whose end date is [e]. *)
Definition vals_end (e : date) : ProjectDefinition.vals :=
  ProjectDefinition.Vals None (Some "Annex") (Some 1) None (Some (Some e))
    None None None.

End ProjectScenario.


(* ===================================================================== *)
(** * Client actions returned by the methods *)
(* ===================================================================== *)

Inductive action : Type :=
| act_window (name res_model view_mode target : string)
             (res_id : option nat) (domain_ids : option (list nat))
| display_notification (title message type_ : string) (sticky : bool).

(* ===================================================================== *)
(** * models/material_production_planning.py *)
(* ===================================================================== *)

Module MaterialProductionPlanning.

Import Planning.

(** The [vals] of [write], as the add-on uses it: the one2many keys hold
    [(0, 0, vals)] commands (new lines), [production_order_ids] holds
    [(4, id)] commands (links). *)
Record vals : Type := Vals {
  v_component_line_ids : option (list Component.t);
  v_material_requirement_ids : option (list Requirement.t);
  v_production_order_ids : option (list nat);
  v_state : option state_t
}.

(** [(4, id)]: link [id] unless it is linked already. *)
Definition link (ids : list nat) (id : nat) : list nat :=
  if existsb (Nat.eqb id) ids then ids else ids ++ [id].

Definition apply_vals (v : vals) (r : t) : t :=
  Make (name r) (project_id r) (product_id r) (quantity r)
       (default (state r) (v_state v))
       (component_line_ids r ++ default [] (v_component_line_ids v))
       (material_requirement_ids r ++ default [] (v_material_requirement_ids v))
       (fold_left link (default [] (v_production_order_ids v))
                  (production_order_ids r)).

Definition browse (self : nat) : M t := fun d =>
  match plannings d !! self with
  | Some r => Ok (r, d)
  | None => Raise MissingError
  end.

Definition store (self : nat) (r : t) : M unit :=
  modify (fun d => set_plannings (<[self := r]> (plannings d)) d).

(** [models.Model.write] *)
Definition orm_write (self : nat) (v : vals) : M unit :=
  do r <- browse self;
  store self (apply_vals v r).

(** [self.material_requirement_ids.unlink()] *)
Definition unlink_material_requirements (self : nat) : M unit :=
  do r <- browse self;
  store self (Make (name r) (project_id r) (product_id r) (quantity r)
                   (state r) (component_line_ids r) []
                   (production_order_ids r)).

Section Orm.

Variable ilike : string -> string -> bool.
Variable ops : Py.float_ops.

(** [def write(self, vals)]: the project state is updated when the state
    of the planning is written. *)
Definition write (self : nat) (v : vals) : M unit :=
  run orm_write self v;
  match v_state v with
  | Some _ =>
      do planning <- browse self;
      do project <- ProjectDefinition.browse (project_id planning);
      if Project.auto_update_state project
      then ProjectDefinition.update_project_state ilike [project_id planning]
      else ret tt
  | None => ret tt
  end.

(** [product.qty_available - product.outgoing_qty] *)
Definition available (d : db) (product_id : nat) : Q :=
  Py.sub ops (Product.qty_available (product d product_id))
             (Product.outgoing_qty (product d product_id)).

(** The body of the loop over the components: the lines [comp] appends to
    [material_lines]. *)
Definition append_component (d : db) (material_lines : list Requirement.t)
    (comp : Component.t) : list Requirement.t :=
  match Component.bom_id comp with
  | Some b =>
      fold_left
        (fun lines bom_line =>
           let required_qty :=
             Py.mul ops (BomLine.product_qty bom_line)
                        (Component.quantity comp) in
           let available_qty := available d (BomLine.product_id bom_line) in
           let shortage_qty :=
             Py.max0 (Py.sub ops required_qty available_qty) in
           lines ++ [Requirement.Make (Component.component_id comp)
                                      (BomLine.product_id bom_line)
                                      required_qty available_qty shortage_qty])
        (Bom.bom_line_ids (bom d b)) material_lines
  | None =>
      let required_qty := Component.quantity comp in
      let available_qty := available d (Component.component_id comp) in
      let shortage_qty := Py.max0 (Py.sub ops required_qty available_qty) in
      material_lines ++ [Requirement.Make (Component.component_id comp)
                                          (Component.component_id comp)
                                          required_qty available_qty
                                          shortage_qty]
  end.

(** [def action_material_planning(self)] (the definition in force: the
    second one of the class). *)
Definition action_material_planning (self : nat) : M action :=
  do r <- browse self;
  match component_line_ids r with
  | [] => raise (UserError "Please load components first!")
  | _ =>
      run unlink_material_requirements self;
      do d <- get;
      let material_lines :=
        fold_left (append_component d) (component_line_ids r) [] in
      run write self (Vals None (Some material_lines) None
                           (Some material_planned));
      ret (act_window "Material Requirements" "material.requirement.wizard"
                      "form" "new" None None)
  end.

End Orm.

(** ** The requirement lines in the words of the specification *)

(** The line of a material for a component: the required quantity, as
    available quantity the stock on hand of the material minus its outgoing
    stock, and as shortage the greater of 0 and required minus available.
    The difference is the one of the floats; the maximum is the one of the
    library. *)
Definition requirement (ops : Py.float_ops) (d : db)
    (component material : nat) (required : Q) : Requirement.t :=
  let on_hand := Product.qty_available (product d material) in
  let outgoing := Product.outgoing_qty (product d material) in
  Requirement.Make component material required
                   (Py.sub ops on_hand outgoing)
                   (Qmax 0 (Py.sub ops required (Py.sub ops on_hand outgoing))).

(** The lines of one component: with a BOM, one line per line of the BOM,
    whose required quantity is the quantity of the BOM line times the
    planned quantity of the component; without a BOM, one line for the
    component itself with its planned quantity. *)
Definition expected_lines (ops : Py.float_ops) (d : db) (comp : Component.t)
    : list Requirement.t :=
  match Component.bom_id comp with
  | Some b =>
      map (fun bom_line =>
             requirement ops d (Component.component_id comp)
                         (BomLine.product_id bom_line)
                         (Py.mul ops (BomLine.product_qty bom_line)
                                     (Component.quantity comp)))
          (Bom.bom_line_ids (bom d b))
  | None =>
      [requirement ops d (Component.component_id comp)
                   (Component.component_id comp) (Component.quantity comp)]
  end.

End MaterialProductionPlanning.

(** A planning whose component "Frame" has a two-line BOM, one line of
    which is the product "Bracket" that has a BOM of its own, and whose
    component "Paint" has none.  Old requirement lines are present. *)
Module PlanningScenario.

Definition products (id : nat) : Product.t :=
  match id with
  | 1 => Product.Make "Frame" (Some "FR") 1 0 0
  | 2 => Product.Make "Bracket" (Some "BR") 1 4 1
  | 3 => Product.Make "Steel bar" (Some "ST") 1 100 20
  | 4 => Product.Make "Paint" None 1 (1 # 2) 0
  | _ => Product.Make "Bolt" None 1 0 0
  end.

Definition boms (id : nat) : Bom.t :=
  match id with
  | 0 => Bom.Make (Some "BOM-FRAME") 1 [BomLine.Make 2 2; BomLine.Make 3 (5 # 2)]
  | _ => Bom.Make (Some "BOM-BRACKET") 2 [BomLine.Make 5 4]
  end.

Definition frame : Component.t := Component.Make 1 10 0 0 (Some 0).
Definition paint : Component.t := Component.Make 4 3 0 0 None.

Definition planning (comps : list Component.t) : Planning.t :=
  Planning.Make "MPP/0001" 0 7 10 Planning.components_loaded comps
                [Requirement.Make 9 9 1 1 0] [].

Definition base (comps : list Component.t) : db :=
  Db [ProjectScenario.project_in Project.pricing] [Partner.Make "ACME" 1]
     [Pricing.Make 0 Pricing.approved] [planning comps] [] [] []
     products boms (fun _ => None).

End PlanningScenario.


(* ===================================================================== *)
(** * wizards/work_order_creation_wizard.py *)
(* ===================================================================== *)

Module WorkOrderCreationWizard.

(** [work.order.creation.wizard] *)
Record t : Type := Make {
  planning_id : nat;
  product_id : nat;
  max_quantity : Q;
  quantity_to_produce : Q;
  create_component_orders : bool
}.

(** [self.env['mrp.production'].create(vals)]: the order is appended to
    the table in state draft. *)
Definition production_create (product_id : nat) (product_qty : Q)
    (product_uom_id : nat) (bom_id : option nat) (origin : string) : M nat :=
  fun d =>
    Ok (length (productions d),
        set_productions
          (productions d
           ++ [Production.Make product_id product_qty product_uom_id bom_id
                               (Some origin) Production.draft]) d).

Section Orm.

(** The domain operators [ilike] and [like] of the ORM, as
    [like value pattern], and [str] of a float. *)
Variable ilike : string -> string -> bool.
Variable like : string -> string -> bool.
Variable str_float : Q -> string.
Variable ops : Py.float_ops.

(** [search([('origin', 'like', name), ('product_id', '=', product)])] *)
Definition search_productions (prods : list Production.t) (name : string)
    (product : nat) : list Production.t :=
  List.filter (fun r => match Production.origin r with
                        | Some o => like o name
                        | None => false
                        end && (Production.product_id r =? product))
              prods.

(** [sum(existing_productions.mapped('product_qty'))] *)
Definition total_existing (prods : list Production.t) (name : string)
    (product : nat) : Q :=
  Py.fsum ops
    (map Production.product_qty (search_productions prods name product)).

Definition exceed_message (d : db) (comp : Component.t)
    (total component_qty : Q) : string :=
  ("Cannot create work order for "
   ++ Product.name (product d (Component.component_id comp)) ++ "!" ++ Py.nl
   ++ "Planned: " ++ str_float (Component.quantity comp) ++ Py.nl
   ++ "Already created: " ++ str_float total ++ Py.nl
   ++ "Trying to create: " ++ str_float component_qty ++ Py.nl
   ++ "This would exceed planned quantity!")%string.

(** The origin of a component order: [f"{planning.name} - {component.name}"] *)
Definition component_origin (d : db) (name : string) (comp : Component.t)
    : string :=
  (name ++ " - " ++ Product.name (product d (Component.component_id comp)))%string.

(** The loop over the component lines of the planning. *)
Fixpoint create_component_productions (name : string) (ratio : Q)
    (comps : list Component.t) (production_ids : list nat)
    : M (list nat) :=
  match comps with
  | [] => ret production_ids
  | comp :: rest =>
      match Component.bom_id comp with
      | Some b =>
          let component_qty := Py.mul ops (Component.quantity comp) ratio in
          do d <- get;
          let total :=
            total_existing (productions d) name (Component.component_id comp) in
          if Py.gt (Py.add ops total component_qty) (Component.quantity comp)
          then raise (UserError (exceed_message d comp total component_qty))
          else
            do id <- production_create
                       (Component.component_id comp) component_qty
                       (Product.uom_id (product d (Component.component_id comp)))
                       (Some b) (component_origin d name comp);
            create_component_productions name ratio rest (production_ids ++ [id])
      | None => create_component_productions name ratio rest production_ids
      end
  end.

(** [self.quantity_to_produce / self.planning_id.quantity
     if self.planning_id.quantity > 0 else 1] *)
Definition ratio_of (self : t) (planning : Planning.t) : Q :=
  if Py.gt (Planning.quantity planning) 0
  then Py.div ops (quantity_to_produce self) (Planning.quantity planning)
  else 1%Q.

(** [def action_create_orders(self)] *)
Definition action_create_orders (self : t) : M action :=
  if Py.gt (quantity_to_produce self) (max_quantity self)
  then raise (UserError ("Cannot produce " ++ str_float (quantity_to_produce self)
                         ++ " units!" ++ Py.nl ++ "Maximum allowed: "
                         ++ str_float (max_quantity self))%string)
  else
    do planning <- MaterialProductionPlanning.browse (planning_id self);
    do d <- get;
    do main_production <-
      production_create (product_id self) (quantity_to_produce self)
                        (Product.uom_id (product d (product_id self)))
                        None (Planning.name planning);
    do production_ids <-
      (if create_component_orders self
       then create_component_productions
              (Planning.name planning) (ratio_of self planning)
              (Planning.component_line_ids planning) [main_production]
       else ret [main_production]);
    run MaterialProductionPlanning.write ilike (planning_id self)
          (MaterialProductionPlanning.Vals None None (Some production_ids)
             (Some Planning.work_orders_created));
    ret (act_window "Production Orders" "mrp.production" "tree,form" "current"
                    None (Some production_ids)).

(** ** Vocabulary of the properties *)

(** The order created for a component with BOM [b]. *)
Definition component_order (d : db) (name : string) (ratio : Q)
    (comp : Component.t) (b : nat) : Production.t :=
  Production.Make (Component.component_id comp)
                  (Py.mul ops (Component.quantity comp) ratio)
                  (Product.uom_id (product d (Component.component_id comp)))
                  (Some b) (Some (component_origin d name comp))
                  Production.draft.

(** The quantity guard of one component against the orders [prods]. *)
Definition exceeds (prods : list Production.t) (name : string) (ratio : Q)
    (comp : Component.t) : bool :=
  Py.gt (Py.add ops
           (total_existing prods name (Component.component_id comp))
           (Py.mul ops (Component.quantity comp) ratio))
        (Component.quantity comp).

(** The orders of the BOM-linked components among [comps]. *)
Fixpoint component_orders (d : db) (name : string) (ratio : Q)
    (comps : list Component.t) : list Production.t :=
  match comps with
  | [] => []
  | comp :: rest =>
      match Component.bom_id comp with
      | Some b => component_order d name ratio comp b
                  :: component_orders d name ratio rest
      | None => component_orders d name ratio rest
      end
  end.

(** The first BOM-linked component, in the order of the lines, whose guard
    fails against the orders present when it is reached: [prods] and the
    orders of the components before it. *)
Fixpoint first_excess (d : db) (name : string) (ratio : Q)
    (prods : list Production.t) (comps : list Component.t)
    : option (Component.t * list Production.t) :=
  match comps with
  | [] => None
  | comp :: rest =>
      match Component.bom_id comp with
      | Some b =>
          if exceeds prods name ratio comp then Some (comp, prods)
          else first_excess d name ratio
                 (prods ++ [component_order d name ratio comp b]) rest
      | None => first_excess d name ratio prods rest
      end
  end.

End Orm.

End WorkOrderCreationWizard.

(** Wizards on the planning of [PlanningScenario]: the frame is planned
    10 times and has a BOM, the paint has none. *)
Module WizardScenario.

Import PlanningScenario.

(** [like] for a pattern without wildcards: a substring test. *)
Definition like (value pattern : string) : bool := Py.contains pattern value.

(** A rendering of floats, used in messages only. *)
Definition str_float (q : Q) : string :=
  (Py.str_of_Z (Qnum q) ++ "/" ++ Py.str_of_nat (Pos.to_nat (Qden q)))%string.

Definition wizard (qty : Q) (components : bool) : WorkOrderCreationWizard.t :=
  WorkOrderCreationWizard.Make 0 7 10 qty components.

(** The database after an earlier order of 8 frames for the planning. *)
Definition with_frames : db :=
  set_productions
    [Production.Make 1 8 1 (Some 0) (Some "MPP/0001 - Frame") Production.draft]
    (base [frame; paint]).

End WizardScenario.


(* ===================================================================== *)
(** * wizards/project_estimation_import_wizard.py *)
(* ===================================================================== *)

Module ProjectEstimationImportWizard.

(** The value of a cell as [openpyxl] hands it over with
    [values_only=True]: None, a string, an integer, a float, a boolean, or
    a date or time (kept as its [str]). *)
Inductive cell : Type :=
| CNone
| CStr (s : string)
| CInt (z : Z)
| CFloat (q : Q)
| CBool (b : bool)
| CDate (repr : string).

Definition row : Type := list cell.

(** A worksheet is the sequence of its rows, row 1 first; a workbook is
    the sequence of its named sheets.  ([iter_rows] with [max_row] beyond
    the sheet yields blank rows, which match nothing below.) *)
Definition worksheet : Type := list row.
Definition workbook : Type := list (string * worksheet).

(** [project.estimation.import.wizard] *)
Record t : Type := Make {
  id : nat;
  estimation_id : nat;
  project_id : nat;
  excel_file : option string;
  filename : option string;
  test_mode : bool
}.

(** An entry of [updates]. *)
Record update : Type := Update {
  u_product : string;
  old_cost : Q;
  new_cost : Q;
  old_sale : Q;
  new_sale : Q
}.

(** The local variables of the loop of [_execute_import]. *)
Record tally : Type := Tally {
  updates : list update;
  updated_count : nat;
  errors : list string;
  skipped_count : nat
}.

(** Truth value of a cell. *)
Definition cell_truthy (c : cell) : bool :=
  match c with
  | CNone => false
  | CStr s => Py.truthy s
  | CInt z => negb (z =? 0)%Z
  | CFloat q => negb (Qeq_bool q 0)
  | CBool b => b
  | CDate _ => true
  end.

(** [product_line.write(update_vals)] on line [i] of the project: the keys
    present in [update_vals] are assigned. *)
Definition set_prices (cost sale : option Q) (l : ProductLine.t)
    : ProductLine.t :=
  ProductLine.Make (ProductLine.sequence l) (ProductLine.product_id l)
                   (ProductLine.quantity l) (ProductLine.weight l)
                   (default (ProductLine.cost_price l) cost)
                   (default (ProductLine.sale_price l) sale).

Definition product_line_write (project i : nat) (cost sale : option Q)
    : M unit :=
  do p <- ProjectDefinition.browse project;
  match Project.product_line_ids p !! i with
  | None => raise MissingError
  | Some l =>
      ProjectDefinition.store project
        (ProjectDefinition.set_product_line_ids
           (<[i := set_prices cost sale l]> (Project.product_line_ids p)) p)
  end.

(** [recordset.filtered(f)], as the positions of the records kept. *)
Fixpoint filtered_from {A} (i : nat) (f : A -> bool) (rs : list A)
    : list nat :=
  match rs with
  | [] => []
  | r :: rs' =>
      if f r then i :: filtered_from (S i) f rs'
      else filtered_from (S i) f rs'
  end.

Definition filtered {A} (f : A -> bool) (rs : list A) : list nat :=
  filtered_from 0 f rs.

Section Reading.

(** The methods [strip], [lower] and [upper] of [str]. *)
Variable py : Py.str_methods.

(** The three tests of [_find_product_line]. *)
Definition code_is (products : nat -> Product.t) (product_code : string) (l : ProductLine.t)
    : bool :=
  match Product.default_code (products (ProductLine.product_id l)) with
  | Some c => Py.truthy c && (Py.str_strip py c =? product_code)%string
  | None => false
  end.

Definition name_is (products : nat -> Product.t) (product_name : string) (l : ProductLine.t)
    : bool :=
  let n := Product.name (products (ProductLine.product_id l)) in
  Py.truthy n && (Py.str_strip py n =? product_name)%string.

Definition name_is_nocase (products : nat -> Product.t) (product_name : string)
    (l : ProductLine.t) : bool :=
  let n := Product.name (products (ProductLine.product_id l)) in
  Py.truthy n
  && (Py.str_lower py (Py.str_strip py n) =? Py.str_lower py product_name)%string.

(** [product_line[0] if len(product_line) > 1 else product_line], given
    that the recordset is not empty. *)
Definition first_of (ids : list nat) : option nat :=
  match ids with
  | [] => None
  | [i] => Some i
  | i :: _ => Some i
  end.

(** [def _find_product_line(self, product_code, product_name)]; [lines] is
    [self.project_id.product_line_ids], [products] reads a product by id,
    and the result is the position of the line found, or None for False. *)
Definition _find_product_line (products : nat -> Product.t) (lines : list ProductLine.t)
    (product_code product_name : string) : option nat :=
  if negb (Py.truthy product_code) && negb (Py.truthy product_name)
  then None
  else
    let strategy_3 :=
      if Py.truthy product_name
      then first_of (filtered (name_is_nocase products product_name) lines)
      else None in
    let strategy_2 :=
      if Py.truthy product_name
      then match filtered (name_is products product_name) lines with
           | [] => strategy_3
           | product_line => first_of product_line
           end
      else strategy_3 in
    if Py.truthy product_code
    then match filtered (code_is products product_code) lines with
         | [] => strategy_2
         | product_line => first_of product_line
         end
    else strategy_2.

(** Builtins and libraries: [str] of a float, [float] of a string, the
    format ['%.2f'], [load_workbook] on the decoded file, whether
    [openpyxl] could be imported, and the clock. *)
Variable str_float : Q -> string.
Variable float_of_string : string -> option Q.
Variable fmt_2f : Q -> string.
Variable load_workbook : string -> result workbook.
Variable openpyxl : bool.
Variable now : Z.

(** [str(c)] *)
Definition cell_str (c : cell) : string :=
  match c with
  | CNone => "None"
  | CStr s => s
  | CInt z => Py.str_of_Z z
  | CFloat q => str_float q
  | CBool true => "True"
  | CBool false => "False"
  | CDate repr => repr
  end.

(** [float(c)] *)
Definition cell_float (c : cell) : result Q :=
  match c with
  | CNone => Raise TypeError
  | CStr s => match float_of_string s with
              | Some q => Ok q
              | None => Raise ValueError
              end
  | CInt z => Ok (inject_Z z)
  | CFloat q => Ok q
  | CBool true => Ok 1%Q
  | CBool false => Ok 0%Q
  | CDate _ => Raise TypeError
  end.

(** [str(c).strip() if c else ''] *)
Definition stripped (c : cell) : string :=
  if cell_truthy c then Py.str_strip py (cell_str c) else "".

(** The price in column [idx]:
    [if len(row) > idx and row[idx] is not None: try: float(row[idx])
     except (ValueError, TypeError): ...] *)
Definition read_price (r : row) (idx : nat) : option Q :=
  match r !! idx with
  | None | Some CNone => None
  | Some c => match cell_float c with
              | Ok q => Some q
              | Raise _ => None
              end
  end.

(** The search of the header among the rows handed over by
    [ws.iter_rows(min_row=1, max_row=30)]; the result is its row number. *)
Fixpoint find_header (row_idx : nat) (rows : list row) : option nat :=
  match rows with
  | [] => None
  | r :: rest =>
      match r with
      | a :: _ =>
          if (stripped a =? "Product Code")%string then Some row_idx
          else find_header (S row_idx) rest
      | [] => find_header (S row_idx) rest
      end
  end.

Definition not_found_message (row_idx : nat) (product_code product_name : string)
    : string :=
  ("Row " ++ Py.str_of_nat row_idx ++ ": Product not found - Code: "
   ++ Py.dquote ++ product_code ++ Py.dquote ++ ", Name: "
   ++ Py.dquote ++ product_name ++ Py.dquote)%string.

(** The loop of [_execute_import] over
    [enumerate(ws.iter_rows(min_row=data_start_row), start=data_start_row)]. *)
Fixpoint import_rows (self : t) (row_idx : nat) (rows : list row)
    (st : tally) : M tally :=
  match rows with
  | [] => ret st
  | r :: rest =>
      match r with
      | [] => ret st                                   (* empty row: stop *)
      | a :: _ =>
          if negb (cell_truthy a) then ret st           (* empty cell: stop *)
          else if (Py.str_upper py (stripped a) =? "TOTAL")%string then ret st
          else
            let product_code := stripped a in
            match r !! 1 with
            | None => raise IndexError
            | Some b =>
                let product_name := stripped b in
                let cost_price := read_price r 15 in
                let sale_price := read_price r 16 in
                if negb (Py.truthy product_code) && negb (Py.truthy product_name)
                then import_rows self (S row_idx) rest
                       (Tally (updates st) (updated_count st) (errors st)
                              (S (skipped_count st)))
                else
                  do d <- get;
                  do p <- ProjectDefinition.browse (project_id self);
                  let lines := Project.product_line_ids p in
                  match _find_product_line (product d) lines product_code product_name with
                  | None =>
                      import_rows self (S row_idx) rest
                        (Tally (updates st) (updated_count st)
                               (errors st
                                ++ [not_found_message row_idx product_code
                                                      product_name])
                               (skipped_count st))
                  | Some i =>
                      match lines !! i with
                      | None => raise MissingError
                      | Some product_line =>
                          let old_cost := ProductLine.cost_price product_line in
                          let old_sale := ProductLine.sale_price product_line in
                          match cost_price, sale_price with
                          | None, None =>            (* update_vals is empty *)
                              import_rows self (S row_idx) rest st
                          | _, _ =>
                              run product_line_write (project_id self) i
                                    cost_price sale_price;
                              import_rows self (S row_idx) rest
                                (Tally
                                   (updates st
                                    ++ [Update
                                          (if Py.truthy product_name
                                           then product_name
                                           else Product.name
                                                  (product d
                                                     (ProductLine.product_id
                                                        product_line)))
                                          old_cost (default old_cost cost_price)
                                          old_sale (default old_sale sale_price)])
                                   (S (updated_count st)) (errors st)
                                   (skipped_count st))
                          end
                      end
                  end
            end
      end
  end.

(** ** The summary of [_execute_import] *)

Definition update_text (u : update) : string :=
  ("• " ++ u_product u ++ Py.nl
   ++ (if negb (Qeq_bool (new_cost u) (old_cost u))
       then "  Cost: " ++ fmt_2f (old_cost u) ++ " → " ++ fmt_2f (new_cost u)
            ++ Py.nl
       else "")
   ++ (if negb (Qeq_bool (new_sale u) (old_sale u))
       then "  Sale: " ++ fmt_2f (old_sale u) ++ " → " ++ fmt_2f (new_sale u)
            ++ Py.nl
       else ""))%string.

Definition updates_text (us : list update) : string :=
  match us with
  | [] => ""
  | _ =>
      ("📊 Updated Products:" ++ Py.nl
       ++ String.concat "" (map update_text (firstn 10 us))
       ++ (if (10 <? length us)%nat
           then Py.nl ++ "... and " ++ Py.str_of_nat (length us - 10)
                ++ " more products" ++ Py.nl
           else ""))%string
  end.

Definition error_text (e : string) : string := ("• " ++ e ++ Py.nl)%string.

Definition errors_text (es : list string) : string :=
  match es with
  | [] => ""
  | _ =>
      (Py.nl ++ Py.nl ++ "⚠️ Errors (" ++ Py.str_of_nat (length es) ++ "):"
       ++ Py.nl
       ++ String.concat "" (map error_text (firstn 5 es))
       ++ (if (5 <? length es)%nat
           then "... and " ++ Py.str_of_nat (length es - 5) ++ " more errors"
                ++ Py.nl
           else ""))%string
  end.

Definition debug_text : string :=
  (Py.nl ++ Py.nl ++ "🔍 Debug Information:" ++ Py.nl
   ++ "Expected columns:" ++ Py.nl
   ++ "  • Column P (index 15): Cost Price" ++ Py.nl
   ++ "  • Column Q (index 16): Sale Price" ++ Py.nl
   ++ Py.nl ++ "Please check:" ++ Py.nl
   ++ "  1. Excel file has correct column structure" ++ Py.nl
   ++ "  2. Cost Price is in column P" ++ Py.nl
   ++ "  3. Sale Price is in column Q" ++ Py.nl
   ++ "  4. Product codes/names match exactly" ++ Py.nl
   ++ Py.nl ++ "Check server logs for detailed information." ++ Py.nl)%string.

Definition summary_of (st : tally) : string :=
  ("✅ Successfully updated " ++ Py.str_of_nat (updated_count st)
   ++ " products!" ++ Py.nl
   ++ (if (0 <? skipped_count st)%nat
       then "⏭️ Skipped " ++ Py.str_of_nat (skipped_count st) ++ " empty rows"
            ++ Py.nl
       else "")
   ++ Py.nl
   ++ updates_text (updates st)
   ++ errors_text (errors st)
   ++ (if (updated_count st =? 0)%nat then debug_text else ""))%string.

Definition notification_of (st : tally) : action :=
  display_notification
    (if 0 <? updated_count st then "Import Complete" else "Import Failed")
    (summary_of st)
    (if (0 <? updated_count st) && negb (ProjectDefinition.nonempty (errors st))
     then "success"
     else if 0 <? updated_count st then "warning" else "danger")
    true.

(** [self.estimation_id.write({...})] *)
Definition estimation_write (self : t) : M unit := fun d =>
  match estimations d !! estimation_id self with
  | None => Raise MissingError
  | Some e =>
      Ok (tt, set_estimations
                (<[estimation_id self :=
                     Estimation.Make (Estimation.name e)
                       (Estimation.project_id e) (excel_file self)
                       (filename self) (Some now) Estimation.completed]>
                   (estimations d)) d)
  end.

Definition estimation_name (self : t) : M string := fun d =>
  match estimations d !! estimation_id self with
  | None => Raise MissingError
  | Some e => Ok (Estimation.name e, d)
  end.

(** The end of [_execute_import], after the loop: the estimation is
    updated, the message is posted, the notification is returned. *)
Definition finish_import (self : t) (st : tally) : M action :=
  run estimation_write self;
  do name <- estimation_name self;
  run ProjectDefinition.message_post (project_id self)
        ("📊 Cost estimation import attempted.<br/>"
         ++ "Updated: " ++ Py.str_of_nat (updated_count st) ++ " products<br/>"
         ++ "Errors: " ++ Py.str_of_nat (length (errors st)) ++ "<br/>"
         ++ "Skipped: " ++ Py.str_of_nat (skipped_count st) ++ "<br/>"
         ++ "Estimation: " ++ name)%string
        (Some "Cost Estimation Import") None;
  ret (notification_of st).

(** [def _execute_import(self, ws, data_start_row)] *)
Definition _execute_import (self : t) (ws : worksheet) (data_start_row : nat)
    : M action :=
  do st <- import_rows self data_start_row (skipn (data_start_row - 1) ws)
             (Tally [] 0 [] 0);
  finish_import self st.

(** [def _preview_import(self, ws, data_start_row, header_row_idx)]: the
    preview changes no record; its text is a field of the transient
    wizard and is left out.  What remains is the reading of the name cell
    of the first five data rows. *)
Fixpoint preview_rows (rows : list row) : M unit :=
  match rows with
  | [] => ret tt
  | r :: rest =>
      match r with
      | [] => preview_rows rest
      | a :: _ =>
          if negb (cell_truthy a) then preview_rows rest
          else match r !! 1 with
               | None => raise IndexError
               | Some _ => preview_rows rest
               end
      end
  end.

Definition _preview_import (self : t) (ws : worksheet)
    (data_start_row header_row_idx : nat) : M action :=
  run preview_rows (firstn 5 (skipn (data_start_row - 1) ws));
  ret (act_window "" "project.estimation.import.wizard" "form" "new"
                  (Some (id self)) None).

(** [workbook[name]], None when the name is not in [workbook.sheetnames]. *)
Fixpoint sheet (name : string) (wb : workbook) : option worksheet :=
  match wb with
  | [] => None
  | (n, ws) :: rest => if (n =? name)%string then Some ws else sheet name rest
  end.

Definition header_missing_message : string :=
  ("Could not find data header row!" ++ Py.nl ++ Py.nl
   ++ "Please ensure:" ++ Py.nl
   ++ "1. Sheet name is " ++ Py.dquote ++ "Cost Estimation" ++ Py.dquote ++ Py.nl
   ++ "2. First column header is " ++ Py.dquote ++ "Product Code" ++ Py.dquote
   ++ Py.nl
   ++ "3. Header row exists in first 30 rows")%string.

(** The body of the [try] of [action_import_prices]. *)
Definition process_file (self : t) (file : string) : M action :=
  match load_workbook file with
  | Raise e => raise e
  | Ok wb =>
      match sheet "Cost Estimation" wb with
      | None =>
          raise (UserError
                   ("Invalid Excel file! Sheet " ++ Py.dquote
                    ++ "Cost Estimation" ++ Py.dquote ++ " not found."
                    ++ Py.nl ++ "Available sheets: "
                    ++ String.concat ", " (map fst wb))%string)
      | Some ws =>
          match find_header 1 (firstn 30 ws) with
          | None => raise (UserError header_missing_message)
          | Some header_row_idx =>
              let data_start_row := header_row_idx + 1 in
              if test_mode self
              then _preview_import self ws data_start_row header_row_idx
              else _execute_import self ws data_start_row
          end
      end
  end.

(** The message raised by [action_import_prices] for an exception [e] of
    the body of its [try]. *)
Definition processing_error (e : exn) : exn :=
  UserError ("Error processing Excel file:" ++ Py.nl ++ Py.nl
             ++ exn_str e ++ Py.nl ++ Py.nl
             ++ "Check server logs for details.")%string.

(** [def action_import_prices(self)] *)
Definition action_import_prices (self : t) : M action :=
  match excel_file self with
  | None => raise (UserError "Please upload an Excel file!")
  | Some file =>
      if negb (Py.truthy file)
      then raise (UserError "Please upload an Excel file!")
      else if negb openpyxl
      then raise (UserError
                    "Excel library not installed. Please contact administrator.")
      else fun d =>
        match process_file self file d with
        | Ok r => Ok r
        | Raise e => Raise (processing_error e)
        end
  end.

(** ** Vocabulary of the properties *)

(** The rows the loop goes through: those before the first row that is
    empty, or whose first cell is false (None, empty text, zero, False), or
    whose first cell reads TOTAL once trimmed and put in upper case. *)
Definition stops (r : row) : bool :=
  match r with
  | [] => true
  | a :: _ =>
      negb (cell_truthy a) || (Py.str_upper py (stripped a) =? "TOTAL")%string
  end.

Fixpoint data_rows (rows : list row) : list row :=
  match rows with
  | [] => []
  | r :: rest => if stops r then [] else r :: data_rows rest
  end.

(** Code and name of a row: columns A and B, trimmed. *)
Definition row_code (r : row) : string := stripped (hd CNone r).
Definition row_name (r : row) : string := stripped (nth 1 r CNone).

(** A row without code and without name is skipped. *)
Definition blank (r : row) : bool :=
  negb (Py.truthy (row_code r)) && negb (Py.truthy (row_name r)).

(** The line a row is matched to. *)
Definition row_target (products : nat -> Product.t) (lines : list ProductLine.t) (r : row)
    : option nat :=
  _find_product_line products lines (row_code r) (row_name r).

(** What one data row does to the product lines: the line it is matched to
    receives the prices read in columns P and Q. *)
Definition import_row (products : nat -> Product.t) (lines : list ProductLine.t) (r : row)
    : list ProductLine.t :=
  match row_target products lines r with
  | Some i =>
      match lines !! i with
      | Some l =>
          <[i := set_prices (read_price r 15) (read_price r 16) l]> lines
      | None => lines
      end
  | None => lines
  end.

(** The error line of a data row: a row that is not blank and is matched
    to no line has one. *)
Definition row_error (products : nat -> Product.t) (lines : list ProductLine.t) (row_idx : nat)
    (r : row) : option string :=
  if blank r then None
  else match row_target products lines r with
       | Some _ => None
       | None => Some (not_found_message row_idx (row_code r) (row_name r))
       end.

Fixpoint row_errors (products : nat -> Product.t) (lines : list ProductLine.t) (row_idx : nat)
    (rows : list row) : list string :=
  match rows with
  | [] => []
  | r :: rest =>
      match row_error products lines row_idx r with
      | Some e => e :: row_errors products lines (S row_idx) rest
      | None => row_errors products lines (S row_idx) rest
      end
  end.

(** Row [r] carries the header label in its first cell. *)
Definition is_header (r : row) : bool :=
  match r with
  | a :: _ => (stripped a =? "Product Code")%string
  | [] => false
  end.

(** The first position of [lines] that passes [f]. *)
Fixpoint first_match {A} (f : A -> bool) (rs : list A) : option nat :=
  match rs with
  | [] => None
  | r :: rs' => if f r then Some 0 else S <$> first_match f rs'
  end.


End Reading.

End ProjectEstimationImportWizard.


(** A project with three product lines (frame FR, bracket BR, paint
    without code), its estimation, and worksheets of the 17-column
    layout. *)
Module ImportScenario.

Import ProjectEstimationImportWizard.

Definition products (id : nat) : Product.t :=
  match id with
  | 1 => Product.Make "Frame" (Some "FR") 1 0 0
  | 2 => Product.Make "Bracket" (Some "BR") 1 0 0
  | _ => Product.Make "Paint" None 1 0 0
  end.

Definition line (sequence : Z) (product : nat) : ProductLine.t :=
  ProductLine.Make sequence product 2 1 100 150.

Definition project : Project.t :=
  Project.Make "PRJ/0001" "Footbridge" 0 (Some (Date 2024 1 1))
               (Some (Date 2024 6 30)) Project.draft
               [line 10 1; line 20 2; line 30 4] None true [].

Definition start : db :=
  Db [project] [Partner.Make "ACME" 1] [] [] [] []
     [Estimation.Make "EST/0001" 0 None None None Estimation.in_progress]
     products (fun _ => Bom.Make None 0 []) (fun _ => None).

Definition wizard : t :=
  Make 1 0 0 (Some "UEsDBBQ=") (Some "Cost_Estimation.xlsx") false.

(** A row with code, name, and the cells of columns P and Q. *)
Definition wide (a b p q : cell) : row :=
  [a; b] ++ repeat CNone 13 ++ [p; q].

Definition header : row :=
  wide (CStr "Product Code") (CStr "Product Name") (CStr "Cost Price")
       (CStr "Sale Price").

Definition title : row := wide (CStr "COST ESTIMATION") CNone CNone CNone.

(** The frame by code, the bracket by its name in another case, a product
    that is not in the project, then the totals. *)
Definition sheet_ok : worksheet :=
  [ title; header;
    wide (CStr "FR") (CStr "Frame") (CInt 120) (CFloat (361 # 2));
    wide (CStr "B-2") (CStr "bracket") (CStr "n/a") (CInt 90);
    wide (CStr "ZZ") (CStr "Zinc") (CInt 1) (CInt 2);
    wide (CStr "TOTAL") CNone (CInt 121) (CInt 272) ].

(** A row reading total in lower case before the row of the frame. *)
Definition sheet_total : worksheet :=
  [ header;
    wide (CStr "total") CNone CNone CNone;
    wide (CStr "FR") (CStr "Frame") (CInt 120) (CInt 180) ].

(** Six rows for products that are not in the project. *)
Definition sheet_unknown : worksheet :=
  header
  :: map (fun n => wide (CStr ("X" ++ n)) (CStr ("Unknown " ++ n)) (CInt 1) (CInt 2))
         ["1"; "2"; "3"; "4"; "5"; "6"].

(** A row whose code is blank text and whose name is empty. *)
Definition sheet_blank : worksheet :=
  [ header; wide (CStr "  ") CNone (CInt 1) (CInt 2) ].

(** None of the strings of these sheets is a number. *)
Definition float_of_string (_ : string) : option Q := None.

Definition load (ws : worksheet) (_ : string) : result workbook :=
  Ok [("Instructions", []); ("Cost Estimation", ws)].

Definition now : Z := 1700000000.

End ImportScenario.


(* ===================================================================== *)
(** * models/work_order_execution.py: automatic material issuing *)
(* ===================================================================== *)

Module WorkOrderExecution.

(** The states of [stock.move]. *)
Inductive move_state : Type :=
| draft | waiting | confirmed | partially_available | assigned | done | cancel.

Definition move_closed (s : move_state) : bool :=
  match s with
  | done | cancel => true
  | _ => false
  end.

Definition is_assigned (s : move_state) : bool :=
  match s with
  | assigned => true
  | _ => false
  end.

Section Issue.

(** The stock and manufacturing records live in [mrp] and [stock]: the
    world they form is abstract.  It is read through the fields below (a
    move is asked for the name and the quantity on hand of its product),
    and changed by the methods of the ORM, each of which returns or raises
    and leaves a world behind in both cases. *)
Variable World : Type.

Variable production_state : World -> nat -> Production.state_t.
Variable production_name : World -> nat -> string.
Variable move_raw_ids : World -> nat -> list nat.
Variable state_of_move : World -> nat -> move_state.
Variable product_name : World -> nat -> string.
Variable product_uom_qty : World -> nat -> Q.
Variable qty_available : World -> nat -> Q.
Variable move_line_ids : World -> nat -> list nat.
Variable quantity : World -> nat -> Q.
Variable qty_done : World -> nat -> Q.
Variable reserved_qty : World -> nat -> Q.

(** [hasattr(move_line, 'quantity')]: a matter of the version of [stock]. *)
Variable has_quantity : bool.

Variable action_confirm : nat -> World -> option exn * World.
Variable action_assign : nat -> World -> option exn * World.
Variable _action_assign : nat -> World -> option exn * World.
Variable _action_done : nat -> World -> option exn * World.
Variable set_quantity : nat -> Q -> World -> option exn * World.
Variable set_qty_done : nat -> Q -> World -> option exn * World.

(** The state of a call: the world and the log of the module. *)
Record st : Type := St { world : World; log : list string }.

(** Computations that return or raise, the state surviving both. *)
Definition W (A : Type) : Type := st -> result A * st.

Definition wret {A} (a : A) : W A := fun s => (Ok a, s).

Definition wbind {A B} (m : W A) (k : A -> W B) : W B :=
  fun s => match m s with
           | (Ok a, s') => k a s'
           | (Raise e, s') => (Raise e, s')
           end.

(** [try: m  except Exception as e: handler(e)] *)
Definition try_except {A} (m : W A) (handler : exn -> W A) : W A :=
  fun s => match m s with
           | (Ok a, s') => (Ok a, s')
           | (Raise e, s') => handler e s'
           end.

Notation "'doW' x <- m ; k" := (wbind m (fun x => k))
  (at level 10, x name, m at level 100, k at level 200).
Notation "'runW' m ; k" := (wbind m (fun _ => k))
  (at level 10, m at level 100, k at level 200).

(** A field read. *)
Definition read {A} (f : World -> A) : W A := fun s => (Ok (f (world s)), s).

(** A call of a method of the ORM. *)
Definition call (f : World -> option exn * World) : W unit :=
  fun s => match f (world s) with
           | (None, w) => (Ok tt, St w (log s))
           | (Some e, w) => (Raise e, St w (log s))
           end.

(** [_logger.warning(...)] and [_logger.error(...)] *)
Definition log_line (line : string) : W unit :=
  fun s => (Ok tt, St (world s) (log s ++ [line])).

Fixpoint for_each_line (lines : list nat) (body : nat -> W unit) : W unit :=
  match lines with
  | [] => wret tt
  | l :: rest => runW body l; for_each_line rest body
  end.

(** The body of the loops over the move lines of a move already reserved:
    a line with a done quantity is left alone. *)
Definition fill_unless_done (move_line : nat) : W unit :=
  if has_quantity
  then doW q <- read (fun w => quantity w move_line);
       if Py.gt q 0 then wret tt
       else call (set_quantity move_line q)
  else doW q <- read (fun w => qty_done w move_line);
       if Py.gt q 0 then wret tt
       else doW r <- read (fun w => reserved_qty w move_line);
            call (set_qty_done move_line r).

(** The body of the other loops over the move lines. *)
Definition fill (move_line : nat) : W unit :=
  if has_quantity
  then doW q <- read (fun w => quantity w move_line);
       call (set_quantity move_line q)
  else doW r <- read (fun w => reserved_qty w move_line);
       call (set_qty_done move_line r).

(** [sum(move.move_line_ids.mapped('quantity'))], or of ['qty_done']. *)
Definition total_qty (w : World) (move : nat) : Q :=
  Py.sum (map (if has_quantity then quantity w else qty_done w)
              (move_line_ids w move)).

(** The branch of a move in state assigned, inside its [try]; the result
    is the new [issued_count]. *)
Definition issue_assigned (move issued_count : nat) : W nat :=
  doW lines <- read (fun w => move_line_ids w move);
  runW (match lines with
        | _ :: _ => for_each_line lines fill_unless_done
        | [] =>
            runW call (_action_assign move);
            doW lines' <- read (fun w => move_line_ids w move);
            for_each_line lines' fill
        end);
  doW lines'' <- read (fun w => move_line_ids w move);
  match lines'' with
  | _ :: _ =>
      doW total <- read (fun w => total_qty w move);
      if Py.gt total 0
      then runW call (_action_done move);
           wret (S issued_count)
      else wret issued_count
  | [] => wret issued_count
  end.

(** The branch of a move that is not assigned while the stock suffices,
    inside its [try]. *)
Definition issue_forced (move issued_count : nat) : W nat :=
  runW call (_action_assign move);
  doW s <- read (fun w => state_of_move w move);
  doW lines <- read (fun w => move_line_ids w move);
  match lines with
  | _ :: _ =>
      if is_assigned s
      then runW for_each_line lines fill;
           runW call (_action_done move);
           wret (S issued_count)
      else wret issued_count
  | [] => wret issued_count
  end.

(** The body of the loop over the raw moves, inside its [try]; the
    increment of [issued_count] is the last statement of the two inner
    [try] blocks. *)
Definition issue_move (production move issued_count : nat) : W nat :=
  doW s <- read (fun w => state_of_move w move);
  if move_closed s then wret issued_count
  else
    doW product <- read (fun w => product_name w move);
    doW required_qty <- read (fun w => product_uom_qty w move);
    doW available_qty <- read (fun w => qty_available w move);
    runW (if negb (is_assigned s)
          then try_except (call (_action_assign move))
                 (fun e => log_line ("Could not reserve " ++ product ++ ": "
                                     ++ exn_str e)%string)
          else wret tt);
    doW s' <- read (fun w => state_of_move w move);
    if is_assigned s'
    then try_except (issue_assigned move issued_count)
           (fun e =>
              runW log_line ("Could not validate move for " ++ product ++ ": "
                             ++ exn_str e)%string;
              wret issued_count)
    else if Py.ge available_qty required_qty
    then try_except (issue_forced move issued_count)
           (fun e =>
              runW log_line ("Could not force-issue " ++ product ++ ": "
                             ++ exn_str e)%string;
              wret issued_count)
    else wret issued_count.

(** [for move in raw_moves: try: ... except Exception as e: ...; continue] *)
Fixpoint issue_moves (production : nat) (raw_moves : list nat)
    (issued_count : nat) : W nat :=
  match raw_moves with
  | [] => wret issued_count
  | move :: rest =>
      doW issued_count' <-
        try_except (issue_move production move issued_count)
          (fun e =>
             doW product <- read (fun w => product_name w move);
             doW name <- read (fun w => production_name w production);
             runW log_line ("Error processing material " ++ product
                            ++ " for production " ++ name ++ ": "
                            ++ exn_str e)%string;
             wret issued_count);
      issue_moves production rest issued_count'
  end.

(** The raw moves still to be issued:
    [production.move_raw_ids.filtered(lambda m: m.state not in ('done', 'cancel'))] *)
Definition pending_moves (w : World) (production : nat) : list nat :=
  List.filter (fun m => negb (move_closed (state_of_move w m)))
              (move_raw_ids w production).

(** The first two statements: a draft order is confirmed, the result being
    false when that fails; an order under way has its availability
    checked. *)
Definition prepare (production : nat) : W bool :=
  doW s <- read (fun w => production_state w production);
  doW name <- read (fun w => production_name w production);
  doW confirmed <-
    (match s with
     | Production.draft =>
         try_except (runW call (action_confirm production); wret true)
           (fun e =>
              runW log_line ("Could not confirm production " ++ name ++ ": "
                             ++ exn_str e)%string;
              wret false)
     | _ => wret true
     end);
  if negb confirmed then wret false
  else
    doW s' <- read (fun w => production_state w production);
    runW (match s' with
          | Production.confirmed | Production.progress | Production.to_close =>
              try_except (call (action_assign production))
                (fun e =>
                   log_line ("Could not check availability for production "
                             ++ name ++ ": " ++ exn_str e)%string)
          | _ => wret tt
          end);
    wret true.

(** [def _auto_issue_materials(self, production)] *)
Definition _auto_issue_materials (production : nat) : W (nat * nat) :=
  doW ready <- prepare production;
  if negb ready then wret (0, 0)
  else
    doW raw_moves <- read (fun w => pending_moves w production);
    let total_count := length raw_moves in
    if total_count =? 0 then wret (0, 0)
    else
      doW issued_count <- issue_moves production raw_moves 0;
      wret (issued_count, total_count).

End Issue.

End WorkOrderExecution.

(** A world of one production order with two raw moves: the order and
    the moves carry their state, every method returns unless told to
    fail, and validating a move closes it. *)
Module IssueScenario.

Import WorkOrderExecution.

Record world : Type := World {
  order : Production.state_t;
  moves : list move_state;
  confirmable : bool
}.

Definition production_state (w : world) (_ : nat) : Production.state_t := order w.
Definition move_raw_ids (w : world) (_ : nat) : list nat := seq 0 (length (moves w)).
Definition state_of_move (w : world) (m : nat) : move_state := nth m (moves w) cancel.
Definition name_of (_ : world) (_ : nat) : string := "WH/MO/0001".
Definition qty (q : Q) (_ : world) (_ : nat) : Q := q.
Definition lines_of (_ : world) (m : nat) : list nat := [m].

Definition action_confirm (_ : nat) (w : world) : option exn * world :=
  if confirmable w
  then (None, World Production.confirmed (moves w) true)
  else (Some (UserError "Nothing to produce"), w).

Definition no_op (_ : nat) (w : world) : option exn * world := (None, w).

Definition reserve (m : nat) (w : world) : option exn * world :=
  (None, World (order w) (<[m := assigned]> (moves w)) (confirmable w)).

Definition validate (m : nat) (w : world) : option exn * world :=
  (None, World (order w) (<[m := done]> (moves w)) (confirmable w)).

Definition set_field (_ : nat) (_ : Q) (w : world) : option exn * world :=
  (None, w).

(** [_auto_issue_materials] in this world: one unit is reserved on each
    move line, ten are on hand, five are required. *)
Definition issue (w : world) : result (nat * nat) * st world :=
  _auto_issue_materials world production_state name_of move_raw_ids
    state_of_move name_of (qty 5) (qty 10) lines_of (qty 1) (qty 0) (qty 1)
    true action_confirm no_op reserve validate set_field set_field
    0 (St world w []).

End IssueScenario.

(* ===================================================================== *)
(** * models/project_definition.py: the branch the state machine takes *)
(* ===================================================================== *)

Module ProjectLifecycle.

Import Project ProjectDefinition.

(** The helper [_auto_update_state] ends up calling, if any. *)
Inductive move : Type :=
| to_done | to_processing | to_planning | to_pricing | stay.

Section Selection.

Variable ilike : string -> string -> bool.

(** The move the related records select, read in the order of the
    priorities of [_auto_update_state]. *)
Definition selected_move (d : db) (self : nat) (name : string) : move :=
  let pricings := search_pricings d self in
  let plannings := search_plannings d self in
  let executions := search_executions d self in
  let productions := search_productions ilike d name in
  if (nonempty executions && forallb exe_done executions)
     && (nonempty plannings && forallb plan_done plannings)
     && (nonempty productions && forallb prod_done productions)
  then to_done
  else if nonempty executions && existsb exe_running executions
  then to_processing
  else if nonempty productions && existsb prod_running productions
  then to_processing
  else if nonempty plannings && existsb plan_has_orders plannings
  then to_planning
  else if nonempty plannings && existsb plan_not_draft plannings
  then to_planning
  else if nonempty pricings && existsb prc_settled pricings
  then to_pricing
  else if nonempty pricings && existsb prc_not_draft pricings
  then to_pricing
  else stay.

End Selection.

(** The state a move leads to from state [s]: the tests on [self.state]
    of priorities 3 to 6 and of the four helpers. *)
Definition target (m : move) (s : state_t) : state_t :=
  match m, s with
  | to_done, _ => done
  | to_processing, (draft | pricing | planning) => processing
  | to_planning, (draft | pricing) => planning
  | to_pricing, draft => pricing
  | _, _ => s
  end.

(** The note posted on arrival in a state, and its subtype. *)
Definition note_of (s : state_t) : string :=
  match s with
  | pricing => note_pricing
  | planning => note_planning
  | processing => note_processing
  | _ => note_done
  end.

Definition subtype_of (s : state_t) : string :=
  match s with
  | done => "mail.mt_comment"
  | _ => "mail.mt_note"
  end.

(** The project has reached stage [n] of the order draft (0), pricing (1),
    planning (2), processing (3), done (4). *)
Definition at_least (n : nat) (s : state_t) : Prop :=
  match rank s with
  | Some k => n <= k
  | None => False
  end.

(** The project is strictly further in that order. *)
Definition ahead (a b : state_t) : Prop :=
  match rank a, rank b with
  | Some x, Some y => x < y
  | _, _ => False
  end.

(** Every project's customer exists and is marked as a customer. *)
Definition customers_ok (d : db) : Prop :=
  forall i p, projects d !! i = Some p ->
    exists c, partners d !! partner_id p = Some c
              /\ Partner.customer_rank c <> 0%Z.

(** The name [create] gives the record: the one of [vals] unless it is
    absent or 'New', then the next number of the sequence, or 'New'
    without a sequence. *)
Definition created_name (d : db) (v : vals) : string :=
  if (default "New" (v_name v) =? "New")%string
  then match ir_sequence d "project.definition" with
       | Some (prefix, n) => (prefix ++ Py.str_of_nat n)%string
       | None => "New"
       end
  else default "New" (v_name v).

End ProjectLifecycle.

(* ===================================================================== *)
(** * models/project_product_pricing.py: state changes *)
(* ===================================================================== *)

Definition set_pricings (ps : list Pricing.t) (d : db) : db :=
  Db (projects d) (partners d) ps (plannings d) (executions d)
     (productions d) (estimations d) (product d) (bom d) (ir_sequence d).

Definition set_executions (es : list Execution.t) (d : db) : db :=
  Db (projects d) (partners d) (pricings d) (plannings d) es
     (productions d) (estimations d) (product d) (bom d) (ir_sequence d).

Module ProjectProductPricing.

Import Pricing.

(** The [vals] of [write], as far as the model is read by the project. *)
Record vals : Type := Vals {
  v_project_id : option nat;
  v_state : option state_t
}.

Definition apply_vals (v : vals) (r : t) : t :=
  Make (default (project_id r) (v_project_id v))
       (default (state r) (v_state v)).

Definition browse (self : nat) : M t := fun d =>
  match pricings d !! self with
  | Some r => Ok (r, d)
  | None => Raise MissingError
  end.

Definition store (self : nat) (r : t) : M unit :=
  modify (fun d => set_pricings (<[self := r]> (pricings d)) d).

(** [models.Model.write] on a recordset. *)
Definition orm_write (self : list nat) (v : vals) : M unit :=
  for_each self (fun id => do r <- browse id; store id (apply_vals v r)).

Section Orm.

Variable ilike : string -> string -> bool.

(** [def write(self, vals)]: the project state is updated when the state
    of the pricing is written. *)
Definition write (self : list nat) (v : vals) : M unit :=
  run orm_write self v;
  match v_state v with
  | Some _ =>
      for_each self (fun id =>
        do pricing <- browse id;
        do project <- ProjectDefinition.browse (project_id pricing);
        if Project.auto_update_state project
        then ProjectDefinition.update_project_state ilike [project_id pricing]
        else ret tt)
  | None => ret tt
  end.

(** The definitions in force: the second ones of the class. *)
Definition action_confirm (self : list nat) : M unit :=
  write self (Vals None (Some confirmed)).
Definition action_approve (self : list nat) : M unit :=
  write self (Vals None (Some approved)).
Definition action_cancel (self : list nat) : M unit :=
  write self (Vals None (Some cancelled)).
Definition action_draft (self : list nat) : M unit :=
  write self (Vals None (Some draft)).

End Orm.

End ProjectProductPricing.

(* ===================================================================== *)
(** * models/work_order_execution.py: state changes of an execution *)
(* ===================================================================== *)

Module WorkOrderExecutionState.

Import Execution.

Record vals : Type := Vals {
  v_project_id : option nat;
  v_state : option state_t
}.

Definition apply_vals (v : vals) (r : t) : t :=
  Make (default (project_id r) (v_project_id v))
       (default (state r) (v_state v)).

Definition browse (self : nat) : M t := fun d =>
  match executions d !! self with
  | Some r => Ok (r, d)
  | None => Raise MissingError
  end.

Definition store (self : nat) (r : t) : M unit :=
  modify (fun d => set_executions (<[self := r]> (executions d)) d).

(** [models.Model.write] on a recordset. *)
Definition orm_write (self : list nat) (v : vals) : M unit :=
  for_each self (fun id => do r <- browse id; store id (apply_vals v r)).

Section Orm.

Variable ilike : string -> string -> bool.

(** [def write(self, vals)]: the project state is updated when the state
    of the execution is written. *)
Definition write (self : list nat) (v : vals) : M unit :=
  run orm_write self v;
  match v_state v with
  | Some _ =>
      for_each self (fun id =>
        do execution <- browse id;
        do project <- ProjectDefinition.browse (project_id execution);
        if Project.auto_update_state project
        then ProjectDefinition.update_project_state ilike [project_id execution]
        else ret tt)
  | None => ret tt
  end.

(** The definitions in force: the second ones of the class. *)
Definition action_done (self : list nat) : M unit :=
  write self (Vals None (Some done)).
Definition action_cancel (self : list nat) : M unit :=
  write self (Vals None (Some cancelled)).

End Orm.

End WorkOrderExecutionState.

(* ===================================================================== *)
(** * models/material_production_planning.py: state changes *)
(* ===================================================================== *)

Module PlanningActions.

Import Planning MaterialProductionPlanning.

Section Orm.

Variable ilike : string -> string -> bool.

(** The definitions in force: the second ones of the class. *)
Definition action_done (self : nat) : M unit :=
  write ilike self (Vals None None None (Some done)).
Definition action_cancel (self : nat) : M unit :=
  write ilike self (Vals None None None (Some cancelled)).

End Orm.

End PlanningActions.

(* ===================================================================== *)
(** * The quantity left to produce and the opening of the wizard *)
(* ===================================================================== *)

Module PlanningQuantities.

Import Planning.

(** [record.production_order_ids]: the production orders linked to the
    planning. *)
Definition production_orders (d : db) (record : t) : list Production.t :=
  omap (fun id => productions d !! id) (production_order_ids record).

(** [@api.depends(...)  def _compute_produced_quantities(self)] *)
Definition main_productions (d : db) (record : t) : list Production.t :=
  List.filter (fun p => Production.product_id p =? product_id record)
              (production_orders d record).

Section Wizard.

Variable ops : Py.float_ops.
Variable str_float : Q -> string.

Definition total_produced_qty (d : db) (record : t) : Q :=
  Py.fsum ops (map Production.product_qty (main_productions d record)).

Definition remaining_qty (d : db) (record : t) : Q :=
  Py.max0 (Py.sub ops (quantity record) (total_produced_qty d record)).

(** [@api.constrains('quantity_to_produce')  def _check_quantity(self)] of
    the wizard. *)
Definition _check_quantity (wizard : WorkOrderCreationWizard.t) : result unit :=
  if Py.le (WorkOrderCreationWizard.quantity_to_produce wizard) 0
  then Raise (ValidationError "Quantity to produce must be greater than zero!")
  else if Py.gt (WorkOrderCreationWizard.quantity_to_produce wizard)
                (WorkOrderCreationWizard.max_quantity wizard)
  then Raise (ValidationError
                ("Quantity to produce ("
                 ++ str_float (WorkOrderCreationWizard.quantity_to_produce wizard)
                 ++ ") cannot exceed remaining quantity ("
                 ++ str_float (WorkOrderCreationWizard.max_quantity wizard)
                 ++ ")!")%string)
  else Ok tt.

(** [self.env['work.order.creation.wizard'].create(vals)]: the fields
    absent from [vals] take their defaults and the constraint is run.  The
    wizard is a transient record: the record created is the result. *)
Definition wizard_create (planning_id product_id : nat)
    (max_quantity quantity_to_produce : Q) : M WorkOrderCreationWizard.t :=
  let wizard := WorkOrderCreationWizard.Make planning_id product_id
                  max_quantity quantity_to_produce true in
  match _check_quantity wizard with
  | Ok _ => ret wizard
  | Raise e => raise e
  end.

Definition no_more_message (d : db) (record : t) : string :=
  ("Cannot create more work orders!" ++ Py.nl
   ++ "Planned Quantity: " ++ str_float (quantity record) ++ Py.nl
   ++ "Already Created: " ++ str_float (total_produced_qty d record) ++ Py.nl
   ++ "Remaining: " ++ str_float (remaining_qty d record))%string.

(** [def action_create_work_orders(self)]; the window action it returns
    opens the wizard created, which is the result here. *)
Definition action_create_work_orders (self : nat)
    : M WorkOrderCreationWizard.t :=
  do record <- MaterialProductionPlanning.browse self;
  match component_line_ids record with
  | [] => raise (UserError "Please load components first!")
  | _ =>
      do d <- get;
      if Py.le (remaining_qty d record) 0
      then raise (UserError (no_more_message d record))
      else wizard_create self (product_id record) (remaining_qty d record)
                         (remaining_qty d record)
  end.

End Wizard.

(** The production orders linked to the planning are in the table. *)
Definition orders_exist (d : db) (record : t) : Prop :=
  Forall (fun id => id < length (productions d)) (production_order_ids record).

(** No component with a BOM is the product of the planning itself. *)
Definition components_differ (record : t) : Prop :=
  Forall (fun comp => match Component.bom_id comp with
                      | Some _ => Component.component_id comp <> product_id record
                      | None => True
                      end) (component_line_ids record).

End PlanningQuantities.

(* ===================================================================== *)
(** * models/work_order_execution.py: issuing materials on request *)
(* ===================================================================== *)

Module MaterialIssue.

Import WorkOrderExecution.

(** [production.state] as text. *)
Definition state_str (s : Production.state_t) : string :=
  match s with
  | Production.draft => "draft"
  | Production.confirmed => "confirmed"
  | Production.progress => "progress"
  | Production.to_close => "to_close"
  | Production.done => "done"
  | Production.cancel => "cancel"
  end.

(** The local variables of the loop of
    [action_issue_materials_for_selected]. *)
Record tally : Type := Tally {
  total_issued : nat;
  total_moves : nat;
  messages : list string;
  stock_issues : list string
}.

Definition add_message (t : tally) (m : string) : tally :=
  Tally (total_issued t) (total_moves t) (messages t ++ [m]) (stock_issues t).

Definition add_stock_issue (t : tally) (m : string) : tally :=
  Tally (total_issued t) (total_moves t) (messages t) (stock_issues t ++ [m]).

(** An entry of [missing_materials]. *)
Record missing : Type := Missing {
  m_product : string;
  m_required : Q;
  m_available : Q;
  m_missing : Q
}.

Section Action.

(** The world of the stock and manufacturing records, as for
    [_auto_issue_materials]. *)
Variable World : Type.

Variable production_state : World -> nat -> Production.state_t.
Variable production_name : World -> nat -> string.
Variable move_raw_ids : World -> nat -> list nat.
Variable state_of_move : World -> nat -> move_state.
Variable product_name : World -> nat -> string.
Variable product_uom_qty : World -> nat -> Q.
Variable qty_available : World -> nat -> Q.
Variable move_line_ids : World -> nat -> list nat.
Variable quantity : World -> nat -> Q.
Variable qty_done : World -> nat -> Q.
Variable reserved_qty : World -> nat -> Q.
Variable has_quantity : bool.
Variable action_confirm : nat -> World -> option exn * World.
Variable action_assign : nat -> World -> option exn * World.
Variable _action_assign : nat -> World -> option exn * World.
Variable _action_done : nat -> World -> option exn * World.
Variable set_quantity : nat -> Q -> World -> option exn * World.
Variable set_qty_done : nat -> Q -> World -> option exn * World.

(** The production orders of the selected lines of an execution, in the
    order of the lines, and the format ['%.2f']. *)
Variable selected_productions : World -> nat -> list nat.
Variable fmt_2f : Q -> string.

Notation "'doW' x <- m ; k" := (wbind World m (fun x => k))
  (at level 10, x name, m at level 100, k at level 200).
Notation "'runW' m ; k" := (wbind World m (fun _ => k))
  (at level 10, m at level 100, k at level 200).

Definition wraise {A} (e : exn) : W World A := fun s => (Raise e, s).

(** The state test at the head of the loop: the tally, and whether the
    loop goes on with this production order. *)
Definition check_state (production : nat) (t : tally) : W World (tally * bool) :=
  doW s <- read World (fun w => production_state w production);
  match s with
  | Production.confirmed | Production.progress | Production.to_close =>
      wret World (t, true)
  | Production.draft =>
      try_except World
        (runW call World (action_confirm production);
         doW name <- read World (fun w => production_name w production);
         wret World
           (add_message t ("ℹ️ Production " ++ name
                           ++ ": Confirmed automatically")%string, true))
        (fun e =>
           doW name <- read World (fun w => production_name w production);
           wret World
             (add_message t ("⚠️ Production " ++ name
                             ++ ": Cannot confirm - " ++ exn_str e)%string,
              false))
  | _ =>
      doW name <- read World (fun w => production_name w production);
      wret World
        (add_message t ("⚠️ Production " ++ name
                        ++ ": Not in correct state (" ++ state_str s ++ ")")%string,
         false)
  end.

(** [missing_materials]: the moves whose product is short. *)
Definition missing_materials (w : World) (raw_moves : list nat) : list missing :=
  map (fun move =>
         Missing (product_name w move) (product_uom_qty w move)
                 (qty_available w move)
                 (product_uom_qty w move - qty_available w move))
      (List.filter (fun move => Py.lt (qty_available w move)
                                      (product_uom_qty w move)) raw_moves).

Definition missing_text (mat : missing) : string :=
  (Py.nl ++ "   • " ++ m_product mat ++ ": Need " ++ fmt_2f (m_required mat)
   ++ ", Have " ++ fmt_2f (m_available mat)
   ++ " (Missing: " ++ fmt_2f (m_missing mat) ++ ")")%string.

(** The body of the loop over the selected lines. *)
Definition issue_line (self production : nat) (t : tally) : W World tally :=
  doW checked <- check_state production t;
  if negb (snd checked) then wret World (fst checked)
  else
    let t1 := fst checked in
    doW raw_moves <-
      read World (fun w => pending_moves World move_raw_ids state_of_move
                             w production);
    match raw_moves with
    | [] =>
        doW name <- read World (fun w => production_name w production);
        wret World (add_message t1 ("ℹ️ Production " ++ name
                                    ++ ": No materials to issue")%string)
    | _ =>
        doW missing_materials <-
          read World (fun w => missing_materials w raw_moves);
        runW try_except World (call World (action_assign production))
               (fun e =>
                  doW name <- read World (fun w => production_name w production);
                  log_line World ("Could not assign production " ++ name
                                  ++ ": " ++ exn_str e)%string);
        doW counts <-
          _auto_issue_materials World production_state production_name
            move_raw_ids state_of_move product_name product_uom_qty
            qty_available move_line_ids quantity qty_done reserved_qty
            has_quantity action_confirm action_assign _action_assign
            _action_done set_quantity set_qty_done production;
        let issued := fst counts in
        let total := snd counts in
        let t2 := Tally (total_issued t1 + issued) (total_moves t1 + total)
                        (messages t1) (stock_issues t1) in
        doW name <- read World (fun w => production_name w production);
        if 0 <? issued
        then wret World
               (add_message t2 ("✅ Production " ++ name ++ ": "
                                ++ Py.str_of_nat issued ++ "/"
                                ++ Py.str_of_nat total
                                ++ " materials issued")%string)
        else if 0 <? total
        then
          let t3 := add_message t2 ("⚠️ Production " ++ name ++ ": 0/"
                                    ++ Py.str_of_nat total
                                    ++ " materials issued")%string in
          match missing_materials with
          | [] => wret World t3
          | _ =>
              wret World
                (add_stock_issue t3
                   ("   Missing materials:"
                    ++ String.concat "" (map missing_text missing_materials))%string)
          end
        else wret World
               (add_message t2 ("ℹ️ Production " ++ name
                                ++ ": No materials to issue")%string)
    end.

(** [for line in selected_lines: ...] *)
Fixpoint issue_lines (self : nat) (selected : list nat) (t : tally)
    : W World tally :=
  match selected with
  | [] => wret World t
  | production :: rest =>
      doW t' <- issue_line self production t;
      issue_lines self rest t'
  end.

Definition stock_text (t : tally) : string :=
  match stock_issues t with
  | [] => ""
  | _ => (Py.nl ++ Py.nl ++ "📋 Stock Issues:" ++ Py.nl
          ++ String.concat Py.nl (stock_issues t))%string
  end.

(** The notification built from the tally. *)
Definition notification_of (t : tally) : action :=
  if 0 <? total_issued t
  then display_notification "Materials Issued Successfully"
         ("✅ Issued " ++ Py.str_of_nat (total_issued t) ++ " out of "
          ++ Py.str_of_nat (total_moves t) ++ " materials." ++ Py.nl ++ Py.nl
          ++ String.concat Py.nl (messages t) ++ stock_text t)%string
         "success" true
  else if 0 <? total_moves t
  then display_notification "No Materials Available to Issue"
         ("⚠️ Could not issue materials. Check stock levels." ++ Py.nl ++ Py.nl
          ++ String.concat Py.nl (messages t) ++ stock_text t)%string
         "warning" true
  else display_notification "No Materials to Issue"
         ("ℹ️ Selected work orders have no pending materials." ++ Py.nl
          ++ Py.nl ++ String.concat Py.nl (messages t))%string
         "info" true.

(** [def action_issue_materials_for_selected(self)] *)
Definition action_issue_materials_for_selected (self : nat) : W World action :=
  doW selected <- read World (fun w => selected_productions w self);
  match selected with
  | [] => wraise (UserError "Please select at least one work order first!")
  | _ =>
      doW t <- issue_lines self selected (Tally 0 0 [] []);
      wret World (notification_of t)
  end.

End Action.

(** What the loop may do to the tally over [n] lines: the counts grow, the
    number issued by no more than the number of moves, and at least [n]
    messages are added. *)
Definition grows (n : nat) (t t' : tally) : Prop :=
  exists issued total,
    total_issued t' = total_issued t + issued
    /\ total_moves t' = total_moves t + total
    /\ issued <= total
    /\ length (messages t) + n <= length (messages t').

End MaterialIssue.

(** A draft project with a draft pricing, a draft planning and a draft
    execution, and no production order. *)
Module LifecycleScenario.

Definition started : db :=
  Db [ProjectScenario.project_in Project.draft]
     [Partner.Make "ACME" 1]
     [Pricing.Make 0 Pricing.draft]
     [Planning.Make "MPP/0001" 0 7 10 Planning.draft [] [] []]
     [Execution.Make 0 Execution.draft]
     []
     []
     (fun _ => Product.Make "Girder" None 1 0 0)
     (fun _ => Bom.Make None 0 [])
     (fun _ => None).

(** A project in processing whose planning and production order are done
    and whose execution is still in progress. *)
Definition closing : db :=
  Db [ProjectScenario.project_in Project.processing]
     [Partner.Make "ACME" 1]
     [Pricing.Make 0 Pricing.approved]
     [Planning.Make "MPP/0001" 0 7 10 Planning.done [] [] [0]]
     [Execution.Make 0 Execution.in_progress]
     [Production.Make 7 10 1 None (Some "PRJ/0001 - Girder") Production.done]
     []
     (fun _ => Product.Make "Girder" None 1 0 0)
     (fun _ => Bom.Make None 0 [])
     (fun _ => None).

End LifecycleScenario.

(* ===================================================================== *)
(** * wizards/project_estimation_import_wizard.py: what the rows amount to *)
(* ===================================================================== *)

Module ImportAccounting.

Import ProjectEstimationImportWizard.

Section Rows.

Variable py : Py.str_methods.
Variable str_float : Q -> string.
Variable float_of_string : string -> option Q.

(** The row is matched to a line and has a number in column P or Q: its
    line is written and the row is counted as an update. *)
Definition writes (products : nat -> Product.t) (lines : list ProductLine.t)
    (r : row) : bool :=
  match row_target py str_float products lines r with
  | Some _ =>
      match read_price float_of_string r 15, read_price float_of_string r 16 with
      | None, None => false
      | _, _ => true
      end
  | None => false
  end.

(** The row has a code or a name and is matched to no line. *)
Definition unmatched (products : nat -> Product.t) (lines : list ProductLine.t)
    (r : row) : bool :=
  negb (blank py str_float r)
  && match row_target py str_float products lines r with
     | Some _ => false
     | None => true
     end.

(** The number read in column [idx] of the last of [rows] that is matched
    to line [i] and has a number there. *)
Fixpoint last_price (products : nat -> Product.t) (lines : list ProductLine.t)
    (idx i : nat) (rows : list row) : option Q :=
  match rows with
  | [] => None
  | r :: rest =>
      match last_price products lines idx i rest with
      | Some q => Some q
      | None =>
          match row_target py str_float products lines r with
          | Some j => if j =? i then read_price float_of_string r idx else None
          | None => None
          end
      end
  end.

End Rows.

(** The estimation as [_execute_import] leaves it: the file of the wizard
    is stored, the time is recorded and the state is completed. *)
Definition completed (now : Z) (self : t) (e : Estimation.t) : Estimation.t :=
  Estimation.Make (Estimation.name e) (Estimation.project_id e)
                  (excel_file self) (filename self) (Some now)
                  Estimation.completed.

End ImportAccounting.

(** The matching of a row in the words of the specification: by code, then
    by name, then by name without regard to case, codes and names trimmed;
    the first strategy that has a match decides, and the first line it
    matches is taken. *)
Module ImportMatching.

Section Spec.

Variable py : Py.str_methods.
Variable products : nat -> Product.t.

(** The product of the line has a code that reads [code] once trimmed. *)
Definition has_code (code : string) (l : ProductLine.t) : Prop :=
  exists c,
    Product.default_code (products (ProductLine.product_id l)) = Some c
    /\ c <> ""%string /\ Py.str_strip py c = code.

(** The product of the line has a name that reads [name] once trimmed. *)
Definition has_name (name : string) (l : ProductLine.t) : Prop :=
  Product.name (products (ProductLine.product_id l)) <> ""%string
  /\ Py.str_strip py (Product.name (products (ProductLine.product_id l)))
     = name.

(** The same, both names put in lower case. *)
Definition has_name_nocase (name : string) (l : ProductLine.t) : Prop :=
  Product.name (products (ProductLine.product_id l)) <> ""%string
  /\ Py.str_lower py
       (Py.str_strip py (Product.name (products (ProductLine.product_id l))))
     = Py.str_lower py name.

(** Line [i] is the first of [lines] with property [P]; no line has it. *)
Definition first_line (P : ProductLine.t -> Prop) (lines : list ProductLine.t)
    (i : nat) : Prop :=
  (exists l, lines !! i = Some l /\ P l)
  /\ (forall j l, j < i -> lines !! j = Some l -> ~ P l).

Definition no_line (P : ProductLine.t -> Prop) (lines : list ProductLine.t)
    : Prop :=
  forall l, In l lines -> ~ P l.

(** A strategy has no match: its key is empty or no line has it. *)
Definition no_code_match (lines : list ProductLine.t) (code : string) : Prop :=
  code = ""%string \/ no_line (has_code code) lines.

Definition no_name_match (lines : list ProductLine.t) (name : string) : Prop :=
  name = ""%string
  \/ (no_line (has_name name) lines /\ no_line (has_name_nocase name) lines).

(** The row with code [code] and name [name] is matched to line [i]. *)
Definition matched (lines : list ProductLine.t) (code name : string) (i : nat)
    : Prop :=
  (code <> ""%string /\ first_line (has_code code) lines i)
  \/ (no_code_match lines code /\ name <> ""%string
      /\ first_line (has_name name) lines i)
  \/ (no_code_match lines code /\ name <> ""%string
      /\ no_line (has_name name) lines
      /\ first_line (has_name_nocase name) lines i).

(** The row is matched to no line. *)
Definition not_matched (lines : list ProductLine.t) (code name : string)
    : Prop :=
  no_code_match lines code /\ no_name_match lines name.

End Spec.

End ImportMatching.

(** A worksheet with two rows for the frame: the second has no number in
    column P. *)
Module RepeatedRows.

Import ProjectEstimationImportWizard ImportScenario.

Definition sheet_twice : worksheet :=
  [ header;
    wide (CStr "FR") (CStr "Frame") (CInt 120) (CInt 180);
    wide (CStr "FR") (CStr "Frame") CNone (CInt 200) ].

End RepeatedRows.


(* ================================================================== *)
(** * Computed fields of the execution (models/work_order_execution.py) *)

(** [WorkOrderExecution._compute_totals]: the counts of an execution,
    from the states of the production orders of its lines. *)
Module ExecutionTotals.

Definition is_done (s : Production.state_t) : bool :=
  match s with
  | Production.done => true
  | _ => false
  end.

Definition is_running (s : Production.state_t) : bool :=
  match s with
  | Production.confirmed | Production.progress | Production.to_close => true
  | _ => false
  end.

Record totals : Type := Totals {
  total_components : nat;
  completed_components : nat;
  in_progress_components : nat
}.

(** [production_state] of the lines of [record.work_order_line_ids]. *)
Definition _compute_totals (work_order_line_ids : list Production.state_t)
    : totals :=
  Totals (length work_order_line_ids)
         (length (List.filter is_done work_order_line_ids))
         (length (List.filter is_running work_order_line_ids)).

(** The line's production order was confirmed and not cancelled. *)
Definition released (s : Production.state_t) : bool :=
  match s with
  | Production.draft | Production.cancel => false
  | _ => true
  end.

End ExecutionTotals.

(** [WorkOrderExecutionLine]: the current operation and the progress of a
    line, from the work orders of its production order. *)
Module ExecutionLine.

(** [mrp.workorder.state] *)
Inductive wo_state : Type :=
| pending | waiting | ready | progress | done | cancel.

Record workorder : Type := WorkOrder {
  name : string;
  state : wo_state
}.

Definition is_current (w : workorder) : bool :=
  match state w with
  | ready | progress => true
  | _ => false
  end.

Definition is_done (w : workorder) : bool :=
  match state w with
  | done => true
  | _ => false
  end.

(** [production] is [None] for an empty [production_id], otherwise the
    [workorder_ids] of the production order. *)
Definition _compute_current_operation (production : option (list workorder))
    : string :=
  match production with
  | Some ((_ :: _) as workorder_ids) =>
      match List.filter is_current workorder_ids with
      | current_wo :: _ => name current_wo
      | [] =>
          let done_count := length (List.filter is_done workorder_ids) in
          let total_count := length workorder_ids in
          if done_count =? total_count then "All Operations Complete"
          else "Not Started"
      end
  | _ => "No Operations"
  end.

Definition _compute_progress (production : option (list workorder)) : Q :=
  match production with
  | Some ((_ :: _) as workorder_ids) =>
      let total := length workorder_ids in
      let done := length (List.filter is_done workorder_ids) in
      if 0 <? total
      then (inject_Z (Z.of_nat done) / inject_Z (Z.of_nat total) * 100)%Q
      else 0%Q
  | _ => 0%Q
  end.

(** There are work orders and each of them is done. *)
Definition all_done (production : option (list workorder)) : bool :=
  match production with
  | Some ((_ :: _) as workorder_ids) => forallb is_done workorder_ids
  | _ => false
  end.

(** The name of the first work order that is ready or in progress. *)
Definition current_name (production : option (list workorder))
    : option string :=
  match production with
  | Some workorder_ids =>
      match List.filter is_current workorder_ids with
      | current_wo :: _ => Some (name current_wo)
      | [] => None
      end
  | None => None
  end.

End ExecutionLine.

(** [WorkOrderExecution._get_material_data]: the figures of a material in
    the export of the material planning. *)
Module MaterialData.

Inductive status_t : Type := sufficient | ordered | partial | shortage.

(** A [purchase.order.line] found by a search. *)
Record po_line : Type := PoLine {
  line_id : nat;
  product_qty : Q;
  qty_received : Q
}.

(** What the method reads: fields of the material, of the component and of
    the production order, and the records its four searches find. *)
Record found : Type := Found {
  production_name : string;
  component_display_name : string;
  material_display_name : string;
  uom_name : string;
  weight : Q;
  standard_price : Q;
  qty_available : Q;
  outgoing_qty : Q;
  issued_moves : list Q;       (* [product_uom_qty] of the moves found *)
  issued_moves_alt : list Q;   (* of the moves of the second search *)
  rfq_lines : list po_line;
  po_lines : list po_line
}.

Record data : Type := Data {
  d_production_order : string;
  d_component : string;
  d_material : string;
  d_uom : string;
  d_unit_weight : Q;
  d_required_qty : Q;
  d_available_stock : Q;
  d_reserved_qty : Q;
  d_free_stock : Q;
  d_shortage_qty : Q;
  d_in_rfq_qty : Q;
  d_in_po_qty : Q;
  d_received_qty : Q;
  d_issued_qty : Q;
  d_status : status_t;
  d_standard_cost : Q;
  d_total_cost : Q
}.

(** [for line in lines: if line.id not in counted: ...; counted.add(line.id)]:
    the lines counted, the quantity and the quantity received. *)
Definition count_line (acc : list nat * Q * Q) (line : po_line)
    : list nat * Q * Q :=
  let '(counted, qty, received) := acc in
  if existsb (Nat.eqb (line_id line)) counted then acc
  else (line_id line :: counted,
        (qty + product_qty line)%Q,
        (received + qty_received line)%Q).

Definition count_lines (lines : list po_line) : list nat * Q * Q :=
  fold_left count_line lines ([], 0%Q, 0%Q).

Definition _get_material_data (f : found) (required_qty : Q) : data :=
  let available_stock := qty_available f in
  let reserved_qty := outgoing_qty f in
  let free_stock := (available_stock - reserved_qty)%Q in
  let issued_qty := Py.sum (issued_moves f) in
  let issued_qty :=
    if Qeq_bool issued_qty 0 then Py.sum (issued_moves_alt f) else issued_qty in
  let remaining_required := Py.max0 (required_qty - issued_qty) in
  let shortage_qty := Py.max0 (remaining_required - free_stock) in
  let in_rfq_qty := snd (fst (count_lines (rfq_lines f))) in
  let in_po_qty := snd (fst (count_lines (po_lines f))) in
  let received_qty := snd (count_lines (po_lines f)) in
  let status :=
    if Py.ge free_stock remaining_required then sufficient
    else if Py.gt in_po_qty 0 || Py.gt received_qty 0 then ordered
    else if Py.gt free_stock 0 then partial
    else shortage in
  let standard_cost := standard_price f in
  let total_cost := (required_qty * standard_cost)%Q in
  let unit_weight := if Qeq_bool (weight f) 0 then 0%Q else weight f in
  Data (production_name f) (component_display_name f)
       (material_display_name f) (uom_name f) unit_weight required_qty
       available_stock reserved_qty free_stock shortage_qty in_rfq_qty
       in_po_qty received_qty issued_qty status standard_cost total_cost.

End MaterialData.

(* ===================================================================== *)
(** * Properties of the project lifecycle (models/project_definition.py) *)
(* ===================================================================== *)

Lemma set_projects_same (d : db) : set_projects (projects d) d = d.
Proof. destruct d; reflexivity. Qed.

Lemma projects_set_projects ps d : projects (set_projects ps d) = ps.
Proof. reflexivity. Qed.

Module ProjectDefinitionFacts.

Import Project ProjectDefinition.

Lemma state_moved s body subtype p : state (moved s body subtype p) = s.
Proof. reflexivity. Qed.

Lemma write_state_run self s d p :
  projects d !! self = Some p ->
  write self (vals_state s) d
  = Ok (tt, set_projects (<[self := apply_vals (vals_state s) p]> (projects d)) d).
Proof.
  intros Hp. unfold write, orm_write, bind, browse, store, modify; simpl.
  rewrite Hp. reflexivity.
Qed.

Lemma message_post_run self body subject subtype d p :
  projects d !! self = Some p ->
  message_post self body subject subtype d
  = Ok (tt, set_projects
              (<[self := add_message (Message.Make body subject subtype) p]>
                 (projects d)) d).
Proof.
  intros Hp. unfold message_post, bind, browse, store, modify.
  rewrite Hp. reflexivity.
Qed.

Lemma move_run self s body subtype d p :
  projects d !! self = Some p ->
  (run write self (vals_state s);
   message_post self body None (Some subtype)) d
  = Ok (tt, set_projects (<[self := moved s body subtype p]> (projects d)) d).
Proof.
  intros Hp. unfold bind at 1. rewrite (write_state_run _ _ _ _ Hp).
  erewrite message_post_run.
  - simpl. rewrite list_insert_insert_eq. reflexivity.
  - simpl. apply list_lookup_insert_eq. eapply lookup_lt_Some; eauto.
Qed.

Lemma _move_to_pricing_run self d p :
  projects d !! self = Some p ->
  _move_to_pricing self d
  = Ok (tt, match state p with
            | draft => set_projects
                (<[self := moved pricing note_pricing "mail.mt_note" p]> (projects d)) d
            | _ => d
            end).
Proof.
  intros Hp. unfold _move_to_pricing, bind at 1, browse. rewrite Hp.
  destruct (state p); try reflexivity. exact (move_run _ _ _ _ _ _ Hp).
Qed.

Lemma _move_to_planning_run self d p :
  projects d !! self = Some p ->
  _move_to_planning self d
  = Ok (tt, match state p with
            | draft | pricing => set_projects
                (<[self := moved planning note_planning "mail.mt_note" p]> (projects d)) d
            | _ => d
            end).
Proof.
  intros Hp. unfold _move_to_planning, bind at 1, browse. rewrite Hp.
  destruct (state p); try reflexivity; exact (move_run _ _ _ _ _ _ Hp).
Qed.

Lemma _move_to_processing_run self d p :
  projects d !! self = Some p ->
  _move_to_processing self d
  = Ok (tt, match state p with
            | draft | pricing | planning => set_projects
                (<[self := moved processing note_processing "mail.mt_note" p]>
                   (projects d)) d
            | _ => d
            end).
Proof.
  intros Hp. unfold _move_to_processing, bind at 1, browse. rewrite Hp.
  destruct (state p); try reflexivity; exact (move_run _ _ _ _ _ _ Hp).
Qed.

Lemma _move_to_done_run self d p :
  projects d !! self = Some p ->
  _move_to_done self d
  = Ok (tt, match state p with
            | done => d
            | _ => set_projects
                (<[self := moved done note_done "mail.mt_comment" p]> (projects d)) d
            end).
Proof.
  intros Hp. unfold _move_to_done, bind at 1, browse. rewrite Hp.
  destruct (state p); try reflexivity; exact (move_run _ _ _ _ _ _ Hp).
Qed.

Lemma outcome_same self d p : outcome self d p d.
Proof. left; reflexivity. Qed.

Lemma outcome_moved self d p s body subtype :
  s <> cancelled -> not_backwards (state p) s ->
  outcome self d p
    (set_projects (<[self := moved s body subtype p]> (projects d)) d).
Proof. intros; right; eauto 6. Qed.

#[local] Hint Resolve outcome_same : core.

(** Each helper returns, and does one move forward or nothing. *)
Lemma _move_to_pricing_outcome self d p :
  projects d !! self = Some p ->
  exists d', _move_to_pricing self d = Ok (tt, d') /\ outcome self d p d'.
Proof.
  intros Hp. rewrite (_move_to_pricing_run _ _ _ Hp). eexists; split; [reflexivity|].
  destruct (state p) eqn:E; auto.
  apply outcome_moved; [discriminate|]. unfold not_backwards; rewrite E; simpl; lia.
Qed.

Lemma _move_to_planning_outcome self d p :
  projects d !! self = Some p ->
  exists d', _move_to_planning self d = Ok (tt, d') /\ outcome self d p d'.
Proof.
  intros Hp. rewrite (_move_to_planning_run _ _ _ Hp). eexists; split; [reflexivity|].
  destruct (state p) eqn:E; auto;
    (apply outcome_moved; [discriminate|]; unfold not_backwards; rewrite E; simpl; lia).
Qed.

Lemma _move_to_processing_outcome self d p :
  projects d !! self = Some p ->
  exists d', _move_to_processing self d = Ok (tt, d') /\ outcome self d p d'.
Proof.
  intros Hp. rewrite (_move_to_processing_run _ _ _ Hp). eexists; split; [reflexivity|].
  destruct (state p) eqn:E; auto;
    (apply outcome_moved; [discriminate|]; unfold not_backwards; rewrite E; simpl; lia).
Qed.

Lemma _move_to_done_outcome self d p :
  projects d !! self = Some p ->
  exists d', _move_to_done self d = Ok (tt, d') /\ outcome self d p d'.
Proof.
  intros Hp. rewrite (_move_to_done_run _ _ _ Hp). eexists; split; [reflexivity|].
  destruct (state p) eqn:E; auto;
    (apply outcome_moved; [discriminate|]; unfold not_backwards; rewrite E; simpl;
     solve [lia | exact I]).
Qed.

Section AutoFacts.

Variable ilike : string -> string -> bool.

(** The automatic update always returns, and does one move forward or
    nothing. *)
Lemma _auto_update_state_outcome self d p :
  projects d !! self = Some p ->
  exists d', _auto_update_state ilike self d = Ok (tt, d') /\ outcome self d p d'.
Proof.
  intros Hp. unfold _auto_update_state, bind at 1, browse. rewrite Hp.
  destruct (auto_update_state p); simpl; [|eexists; split; [reflexivity|auto]].
  pose proof (_move_to_pricing_outcome _ _ _ Hp) as H1.
  pose proof (_move_to_planning_outcome _ _ _ Hp) as H2.
  pose proof (_move_to_processing_outcome _ _ _ Hp) as H3.
  pose proof (_move_to_done_outcome _ _ _ Hp) as H4.
  assert (H0 : exists d', ret tt d = Ok (tt, d') /\ outcome self d p d')
    by (eexists; split; [reflexivity|auto]).
  destruct (state p); try exact H0; unfold bind, get;
    repeat match goal with
           | |- context [if ?c then _ else _] => destruct c
           end; assumption.
Qed.

End AutoFacts.

Lemma not_backwards_refl s : not_backwards s s.
Proof. destruct s; simpl; unfold not_backwards; simpl; auto. Qed.

Lemma outcome_lookup self d p d' :
  projects d !! self = Some p -> outcome self d p d' ->
  exists p', projects d' !! self = Some p'
             /\ not_backwards (state p) (state p').
Proof.
  intros Hp [->|(s & body & subtype & -> & _ & Hs)].
  - exists p; split; [assumption|apply not_backwards_refl].
  - exists (moved s body subtype p); split; [|exact Hs].
    simpl. apply list_lookup_insert_eq. eapply lookup_lt_Some; eauto.
Qed.

(** A search that finds a record, all of whose results pass [f]. *)
Lemma search_all {A} (sel f : A -> bool) (l : list A) :
  (exists x, In x l /\ sel x = true) ->
  (forall x, In x l -> sel x = true -> f x = true) ->
  nonempty (List.filter sel l) && forallb f (List.filter sel l) = true.
Proof.
  intros (x & Hx & Hs) Hall. apply andb_true_intro; split.
  - assert (Hin : In x (List.filter sel l)) by (apply List.filter_In; auto).
    destruct (List.filter sel l); [destruct Hin|reflexivity].
  - apply forallb_forall. intros y Hy. apply List.filter_In in Hy as [? ?]; auto.
Qed.

Section Claims.

Variable ilike : string -> string -> bool.

(** C1 (amended): for a project with auto_update_state enabled whose state
    is neither done nor cancelled, if there is at least one related
    execution, at least one related planning and at least one production
    order whose origin matches the project name, and all of them are done,
    then _auto_update_state returns and moves the project to done, posting
    the "marked as Done" message. *)
Theorem auto_update_moves_to_done self d p :
  projects d !! self = Some p ->
  auto_update_state p = true ->
  state p <> done -> state p <> cancelled ->
  (exists e, In e (executions d) /\ Execution.project_id e = self) ->
  (forall e, In e (executions d) -> Execution.project_id e = self ->
             Execution.state e = Execution.done) ->
  (exists r, In r (plannings d) /\ Planning.project_id r = self) ->
  (forall r, In r (plannings d) -> Planning.project_id r = self ->
             Planning.state r = Planning.done) ->
  (exists r o, In r (productions d) /\ Production.origin r = Some o
               /\ ilike o (name p) = true) ->
  (forall r o, In r (productions d) -> Production.origin r = Some o ->
               ilike o (name p) = true ->
               Production.state r = Production.done) ->
  exists d' p',
    _auto_update_state ilike self d = Ok (tt, d')
    /\ projects d' !! self = Some p'
    /\ state p' = done
    /\ p' = moved done note_done "mail.mt_comment" p.
Proof.
  intros Hp Hauto Hnd Hnc [e [He1 He2]] Hex [r [Hr1 Hr2]] Hpl
         (q & o & Hq1 & Hq2 & Hq3) Hpr.
  assert (E1 : nonempty (search_executions d self)
               && forallb exe_done (search_executions d self) = true).
  { apply search_all.
    - exists e; split; [assumption|]. apply Nat.eqb_eq; assumption.
    - intros x Hx Hs. apply Nat.eqb_eq in Hs. unfold exe_done.
      rewrite (Hex x Hx Hs). reflexivity. }
  assert (E2 : nonempty (search_plannings d self)
               && forallb plan_done (search_plannings d self) = true).
  { apply search_all.
    - exists r; split; [assumption|]. apply Nat.eqb_eq; assumption.
    - intros x Hx Hs. apply Nat.eqb_eq in Hs. unfold plan_done.
      rewrite (Hpl x Hx Hs). reflexivity. }
  assert (E3 : nonempty (search_productions ilike d (name p))
               && forallb prod_done (search_productions ilike d (name p)) = true).
  { apply search_all.
    - exists q; split; [assumption|]. rewrite Hq2. assumption.
    - intros x Hx Hs. destruct (Production.origin x) as [o'|] eqn:Eo; [|discriminate].
      unfold prod_done. rewrite (Hpr x o' Hx Eo Hs). reflexivity. }
  exists (set_projects (<[self := moved done note_done "mail.mt_comment" p]> (projects d)) d),
         (moved done note_done "mail.mt_comment" p).
  split; [|split; [|split; reflexivity]].
  - unfold _auto_update_state, bind at 1, browse. rewrite Hp, Hauto. simpl.
    destruct (state p) eqn:Es; try congruence;
      unfold bind, get; rewrite E1, E2, E3;
      rewrite (_move_to_done_run _ _ _ Hp), Es; reflexivity.
  - simpl. apply list_lookup_insert_eq. eapply lookup_lt_Some; eauto.
Qed.

(** C6 (amended): the automatic update, its four helpers and action_done
    never move a project backwards in the order draft, pricing, planning,
    processing, done: each of them returns, and the state after it is not
    behind the state before it. *)
Theorem forward_methods_monotonic f self d p :
  In f (forward_methods ilike) ->
  projects d !! self = Some p ->
  exists d' p',
    f self d = Ok (tt, d')
    /\ projects d' !! self = Some p'
    /\ not_backwards (state p) (state p').
Proof.
  intros Hf Hp.
  assert (Hout : forall g,
             (exists d', g self d = Ok (tt, d') /\ outcome self d p d') ->
             exists d' p', g self d = Ok (tt, d')
                           /\ projects d' !! self = Some p'
                           /\ not_backwards (state p) (state p')).
  { intros g (d' & Hrun & Hout).
    destruct (outcome_lookup _ _ _ _ Hp Hout) as (p' & Hp' & Hnb).
    exists d', p'; auto. }
  simpl in Hf.
  destruct Hf as [<-|[<-|[<-|[<-|[<-|[<-|[]]]]]]].
  - apply Hout, _auto_update_state_outcome; assumption.
  - apply Hout, _move_to_pricing_outcome; assumption.
  - apply Hout, _move_to_planning_outcome; assumption.
  - apply Hout, _move_to_processing_outcome; assumption.
  - apply Hout, _move_to_done_outcome; assumption.
  - unfold action_done. rewrite (write_state_run _ _ _ _ Hp).
    eexists _, (apply_vals (vals_state done) p). split; [reflexivity|split].
    + simpl. apply list_lookup_insert_eq. eapply lookup_lt_Some; eauto.
    + unfold not_backwards. destruct (state p); simpl; auto; lia.
Qed.

(** C7: for a project whose state is done or cancelled, the automatic
    update returns with the database as it was: the state is unchanged and
    no message is posted, whatever the related pricings, plannings,
    executions and production orders are. *)
Theorem auto_update_inert_when_finished self d p :
  projects d !! self = Some p ->
  state p = done \/ state p = cancelled ->
  _auto_update_state ilike self d = Ok (tt, d).
Proof.
  intros Hp Hs. unfold _auto_update_state, bind at 1, browse. rewrite Hp.
  destruct (auto_update_state p); simpl; [|reflexivity].
  destruct Hs as [-> | ->]; reflexivity.
Qed.

End Claims.

Import ProjectScenario.

Lemma auto_update_moves_to_done_witness :
  exists d' p',
    _auto_update_state ProjectScenario.ilike 0 (all_done processing "PRJ/0001")
    = Ok (tt, d')
    /\ projects d' !! 0 = Some p'
    /\ state p' = done
    /\ p' = moved done note_done "mail.mt_comment" (project_in processing).
Proof.
  apply (auto_update_moves_to_done ProjectScenario.ilike 0
           (all_done processing "PRJ/0001") (project_in processing)).
  - reflexivity.
  - reflexivity.
  - discriminate.
  - discriminate.
  - eexists; split; [left; reflexivity|reflexivity].
  - intros e [<-|[]] _; reflexivity.
  - eexists; split; [left; reflexivity|reflexivity].
  - intros r [<-|[]] _; reflexivity.
  - eexists _, _; split; [left; reflexivity|split; reflexivity].
  - intros r o [<-|[]] _ _; reflexivity.
Defined.

(** C1 as stated fails: the project is in draft with auto-update on, its
    only execution and its only planning are done, and no production order
    has an origin matching the project name (the order of the planning
    carries the planning's name); the automatic update moves the project
    to planning, not to done. *)
Lemma auto_update_without_productions :
  let d := all_done draft "MPP/0001" in
  let p := project_in draft in
  projects d !! 0 = Some p
  /\ auto_update_state p = true
  /\ state p <> done /\ state p <> cancelled
  /\ (forall e, In e (executions d) -> Execution.project_id e = 0 ->
                Execution.state e = Execution.done)
  /\ (forall r, In r (plannings d) -> Planning.project_id r = 0 ->
                Planning.state r = Planning.done)
  /\ (forall r o, In r (productions d) -> Production.origin r = Some o ->
                  ProjectScenario.ilike o (name p) = true ->
                  Production.state r = Production.done)
  /\ exists d', _auto_update_state ProjectScenario.ilike 0 d = Ok (tt, d')
                /\ state <$> projects d' !! 0 = Some planning.
Proof.
  repeat split; try discriminate.
  - intros e [<-|[]] _; reflexivity.
  - intros r [<-|[]] _; reflexivity.
  - intros r o [<-|[]] _ _; reflexivity.
  - eexists; split; [vm_compute; reflexivity|reflexivity].
Qed.

Lemma forward_methods_monotonic_witness :
  exists d' p',
    _move_to_planning 0 (all_done pricing "MPP/0001") = Ok (tt, d')
    /\ projects d' !! 0 = Some p'
    /\ not_backwards pricing (state p').
Proof.
  apply (forward_methods_monotonic ProjectScenario.ilike _move_to_planning 0
           (all_done pricing "MPP/0001") (project_in pricing)).
  - simpl. auto.
  - reflexivity.
Defined.

(** C6 as stated fails: action_pricing on a done project moves it back to
    pricing. *)
Lemma action_pricing_moves_backwards :
  exists d',
    action_pricing 0 (all_done done "PRJ/0001") = Ok (tt, d')
    /\ state <$> projects d' !! 0 = Some pricing
    /\ ~ not_backwards done pricing.
Proof.
  eexists; split; [vm_compute; reflexivity|split; [reflexivity|]].
  unfold not_backwards; simpl; lia.
Qed.

Lemma auto_update_inert_when_finished_witness :
  _auto_update_state ProjectScenario.ilike 0 (all_done cancelled "PRJ/0001")
  = Ok (tt, all_done cancelled "PRJ/0001").
Proof.
  apply (auto_update_inert_when_finished ProjectScenario.ilike 0
           (all_done cancelled "PRJ/0001") (project_in cancelled)).
  - reflexivity.
  - right; reflexivity.
Defined.

(** ** The date constraint *)

Lemma date_leb_ltb a b : date_leb a b = true <-> date_ltb b a = false.
Proof. unfold date_leb. destruct (date_ltb b a); simpl; split; congruence. Qed.

Lemma _check_dates_ok p : date_invariant p <-> _check_dates p = Ok tt.
Proof.
  unfold date_invariant, _check_dates.
  destruct (end_date p) as [e|], (start_date p) as [s|]; split; intros H;
    try reflexivity; try (intros ? ? [=] [=]; fail).
  - specialize (H e s eq_refl eq_refl). apply date_leb_ltb in H. rewrite H. reflexivity.
  - intros e' s' [= <-] [= <-]. apply date_leb_ltb.
    destruct (date_ltb e s); [discriminate|reflexivity].
Qed.

Lemma _check_dates_bad p : ends_before_start p <-> _check_dates p = Raise date_error.
Proof.
  unfold ends_before_start, _check_dates.
  split.
  - intros (e & s & -> & -> & ->). reflexivity.
  - destruct (end_date p) as [e|], (start_date p) as [s|]; try discriminate.
    destruct (date_ltb e s) eqn:E; [|discriminate]. intros _. eauto.
Qed.

Lemma _check_dates_cases p :
  _check_dates p = Ok tt \/ _check_dates p = Raise date_error.
Proof.
  unfold _check_dates.
  destruct (end_date p), (start_date p); auto. destruct (date_ltb _ _); auto.
Qed.

Lemma mark_customer_projects v d d1 u :
  mark_customer v d = Ok (u, d1) -> projects d1 = projects d.
Proof.
  unfold mark_customer. destruct (v_partner_id v) as [pid|].
  - destruct (partners d !! pid) as [pa|]; [|discriminate].
    destruct (Partner.customer_rank pa =? 0)%Z; intros [= <- <-]; reflexivity.
  - intros [= <- <-]; reflexivity.
Qed.

Lemma mark_customer_ok v d :
  partner_ok d v -> exists d1, mark_customer v d = Ok (tt, d1).
Proof.
  unfold partner_ok, mark_customer. destruct (v_partner_id v) as [pid|].
  - intros Hlt. destruct (lookup_lt_is_Some_2 _ _ Hlt) as [pa ->].
    destruct (Partner.customer_rank pa =? 0)%Z; eauto.
  - intros _. eexists; reflexivity.
Qed.

(** What [models.Model.write] does on a project that exists. *)
Lemma orm_write_run self v d p :
  projects d !! self = Some p ->
  orm_write self v d
  = match (if constrains_dates v then _check_dates (apply_vals v p) else Ok tt) with
    | Raise e => Raise e
    | Ok _ =>
        match v_start_date v, v_end_date v with
        | Some None, _ | _, Some None => Raise IntegrityError
        | _, _ => Ok (tt, set_projects (<[self := apply_vals v p]> (projects d)) d)
        end
    end.
Proof.
  intros Hp. unfold orm_write, bind, browse, store, modify. rewrite Hp.
  destruct (constrains_dates v).
  - destruct (_check_dates (apply_vals v p)); [|reflexivity].
    destruct (v_start_date v) as [[|]|], (v_end_date v) as [[|]|]; reflexivity.
  - unfold ret.
    destruct (v_start_date v) as [[|]|], (v_end_date v) as [[|]|]; reflexivity.
Qed.

(** A [write] that returns has stored the assigned record, and the record
    passed the constraint if a date was written. *)
Lemma write_inv self v d d' :
  write self v d = Ok (tt, d') ->
  exists p, projects d !! self = Some p
            /\ projects d' = <[self := apply_vals v p]> (projects d)
            /\ (constrains_dates v = true -> _check_dates (apply_vals v p) = Ok tt).
Proof.
  unfold write, bind at 1.
  destruct (mark_customer v d) as [[u d1]|] eqn:E1; [|discriminate].
  pose proof (mark_customer_projects _ _ _ _ E1) as Hps.
  destruct (projects d !! self) as [p|] eqn:Hp.
  - rewrite (orm_write_run self v d1 p) by (rewrite Hps; exact Hp).
    destruct (constrains_dates v).
    + destruct (_check_dates (apply_vals v p)) as [[]|] eqn:Ec; [|discriminate].
      destruct (v_start_date v) as [[|]|], (v_end_date v) as [[|]|];
        try discriminate; intros [= <-]; exists p; simpl; rewrite Hps; auto.
    + destruct (v_start_date v) as [[|]|], (v_end_date v) as [[|]|];
        try discriminate; intros [= <-]; exists p; simpl; rewrite Hps;
        split; auto; split; auto; discriminate.
  - unfold orm_write, bind, browse. rewrite Hps, Hp. discriminate.
Qed.

Lemma apply_vals_dates v p :
  constrains_dates v = false ->
  start_date (apply_vals v p) = start_date p
  /\ end_date (apply_vals v p) = end_date p.
Proof.
  unfold constrains_dates. simpl.
  destruct (v_start_date v), (v_end_date v); try discriminate. auto.
Qed.

Lemma write_keeps_dates_ok self v d :
  dates_ok d -> dates_ok (transaction (write self v) d).1.
Proof.
  intros Hd. unfold transaction.
  destruct (write self v d) as [[[] d']|] eqn:E; [|exact Hd].
  destruct (write_inv _ _ _ _ E) as (p & Hp & Hps & Hc). simpl.
  intros i q. rewrite Hps. intros Hq.
  destruct (decide (self = i)) as [->|Hne].
  - rewrite list_lookup_insert_eq in Hq by (eapply lookup_lt_Some; eauto).
    injection Hq as <-.
    destruct (constrains_dates v) eqn:Ec.
    + apply _check_dates_ok; auto.
    + destruct (apply_vals_dates v p Ec) as [Hs He].
      unfold date_invariant. rewrite Hs, He. exact (Hd _ _ Hp).
  - rewrite list_lookup_insert_ne in Hq by assumption. exact (Hd _ _ Hq).
Qed.

Section CreateFacts.

Variable today : date.

Lemma assign_name_run v d :
  exists v1 d1,
    assign_name v d = Ok (v1, d1)
    /\ projects d1 = projects d /\ partners d1 = partners d
    /\ v_project_name v1 = v_project_name v
    /\ v_partner_id v1 = v_partner_id v
    /\ v_start_date v1 = v_start_date v
    /\ v_end_date v1 = v_end_date v.
Proof.
  unfold assign_name.
  destruct (default "New" (v_name v) =? "New")%string.
  - unfold bind, next_by_code.
    destruct (ir_sequence d "project.definition") as [[prefix n]|];
      eexists _, _; split; try reflexivity; simpl; auto 10.
  - eexists _, _; split; [reflexivity|auto 10].
Qed.

Lemma orm_create_inv v d id d' :
  orm_create today v d = Ok (id, d') ->
  exists p, projects d' = projects d ++ [p]
            /\ id = length (projects d)
            /\ _check_dates p = Ok tt.
Proof.
  unfold orm_create.
  destruct (v_project_name v), (v_partner_id v), (v_end_date v) as [[e|]|];
    try discriminate.
  destruct (default (Some today) (v_start_date v)) as [s0|]; [|discriminate].
  match goal with |- context [_check_dates ?q] => set (p := q) end.
  destruct (_check_dates p) as [[]|] eqn:Ec; [|discriminate].
  intros [= <- <-]. exists p. auto.
Qed.

Lemma create_inv v d id d' :
  create today v d = Ok (id, d') ->
  exists p, projects d' = projects d ++ [p]
            /\ id = length (projects d)
            /\ _check_dates p = Ok tt.
Proof.
  unfold create, bind at 1.
  destruct (assign_name_run v d) as (v1 & d1 & -> & Hps & _).
  unfold bind.
  destruct (mark_customer v1 d1) as [[u d2]|] eqn:E1; [|discriminate].
  pose proof (mark_customer_projects _ _ _ _ E1) as Hps2.
  intros H. destruct (orm_create_inv _ _ _ _ H) as (p & H1 & H2 & H3).
  exists p. rewrite H1, H2, Hps2, Hps. auto.
Qed.

Lemma create_keeps_dates_ok v d :
  dates_ok d -> dates_ok (transaction (create today v) d).1.
Proof.
  intros Hd. unfold transaction.
  destruct (create today v d) as [[id d']|] eqn:E; [|exact Hd].
  destruct (create_inv _ _ _ _ E) as (p & Hps & _ & Hc). simpl.
  intros i q. rewrite Hps. intros Hq.
  apply lookup_app_Some in Hq as [Hq|[_ Hq]]; [exact (Hd _ _ Hq)|].
  destruct (i - length (projects d)); [|discriminate].
  injection Hq as <-. apply _check_dates_ok; assumption.
Qed.

(** What [create] does with values that name an existing partner and
    give the required fields. *)
Lemma create_run v d pn pa e s :
  v_project_name v = Some pn -> v_partner_id v = Some pa ->
  pa < length (partners d) ->
  v_end_date v = Some (Some e) ->
  default (Some today) (v_start_date v) = Some s ->
  (date_ltb e s = true -> create today v d = Raise date_error)
  /\ (date_ltb e s = false ->
      exists d' p', create today v d = Ok (length (projects d), d')
                    /\ projects d' = projects d ++ [p']
                    /\ start_date p' = Some s /\ end_date p' = Some e).
Proof.
  intros Hpn Hpa Hlt He Hs.
  destruct (assign_name_run v d) as (v1 & d1 & Ha & Hps & Hpa1 & E1 & E2 & E3 & E4).
  destruct (mark_customer_ok v1 d1) as [d2 Hm].
  { unfold partner_ok. rewrite E2, Hpa, Hpa1. assumption. }
  pose proof (mark_customer_projects _ _ _ _ Hm) as Hps2.
  assert (Hc : create today v d = orm_create today v1 d2).
  { unfold create, bind. rewrite Ha, Hm. reflexivity. }
  rewrite Hc. unfold orm_create. rewrite E1, E2, E3, E4, Hpn, Hpa, He, Hs.
  unfold _check_dates; simpl.
  split; intros ->.
  - reflexivity.
  - eexists _, _. rewrite Hps2, Hps. split; [reflexivity|]. simpl. auto.
Qed.

End CreateFacts.

Lemma write_run self v d p :
  projects d !! self = Some p -> partner_ok d v ->
  (ends_before_start (apply_vals v p) -> constrains_dates v = true ->
   write self v d = Raise date_error)
  /\ (date_invariant (apply_vals v p) ->
      write self v d = Raise IntegrityError
      \/ exists d', write self v d = Ok (tt, d')
                    /\ projects d' = <[self := apply_vals v p]> (projects d)).
Proof.
  intros Hp Hok.
  destruct (mark_customer_ok v d Hok) as [d1 Hm].
  pose proof (mark_customer_projects _ _ _ _ Hm) as Hps.
  assert (Hw : write self v d = orm_write self v d1).
  { unfold write, bind. rewrite Hm. reflexivity. }
  rewrite Hw, (orm_write_run self v d1 p) by (rewrite Hps; exact Hp).
  split.
  - intros Hb ->. apply _check_dates_bad in Hb. rewrite Hb. reflexivity.
  - intros Hi. apply _check_dates_ok in Hi. rewrite Hi.
    assert (E : (if constrains_dates v then Ok tt else Ok tt) = @Ok unit tt)
      by (destruct (constrains_dates v); reflexivity).
    rewrite E.
    destruct (v_start_date v) as [[|]|], (v_end_date v) as [[|]|]; auto;
      right; eexists; (split; [reflexivity|simpl; rewrite Hps; reflexivity]).
Qed.

Lemma invariant_excludes_violation p :
  date_invariant p -> ends_before_start p -> False.
Proof.
  intros Hi (e & s & He & Hs & Hlt). specialize (Hi e s He Hs).
  apply date_leb_ltb in Hi. congruence.
Qed.

(** C9: on a database where every project has its end date on or after its
    start date, a write or a create that would store an end date strictly
    before the start date raises the validation error and the transaction
    leaves the database as it was; a write or a create whose dates are in
    order does not raise it; in every case the invariant still holds
    afterwards. *)
Theorem date_constraint_enforced today d self p v :
  dates_ok d ->
  projects d !! self = Some p ->
  partner_ok d v ->
  let w := transaction (write self v) d in
  let c := transaction (create today v) d in
  dates_ok w.1 /\ dates_ok c.1
  /\ (ends_before_start (apply_vals v p) -> w = (d, Raise date_error))
  /\ (date_invariant (apply_vals v p) ->
      (forall m, w.2 <> Raise (ValidationError m))
      /\ (w = (d, Raise IntegrityError)
          \/ w.2 = Ok tt /\ projects w.1 = <[self := apply_vals v p]> (projects d)))
  /\ (forall pn pa e s,
        v_project_name v = Some pn -> v_partner_id v = Some pa ->
        v_end_date v = Some (Some e) ->
        default (Some today) (v_start_date v) = Some s ->
        (date_ltb e s = true -> c = (d, Raise date_error))
        /\ (date_leb s e = true ->
            exists p', c.2 = Ok (length (projects d))
                       /\ projects c.1 = projects d ++ [p']
                       /\ start_date p' = Some s /\ end_date p' = Some e)).
Proof.
  intros Hd Hp Hok w c.
  split; [apply write_keeps_dates_ok; assumption|].
  split; [apply create_keeps_dates_ok; assumption|].
  destruct (write_run self v d p Hp Hok) as [Hbad Hgood].
  split; [|split].
  - intros Hb. subst w. unfold transaction. rewrite Hbad; [reflexivity|assumption|].
    destruct (constrains_dates v) eqn:Ec; [reflexivity|exfalso].
    destruct (apply_vals_dates v p Ec) as [Hs He].
    apply (invariant_excludes_violation p (Hd _ _ Hp)).
    destruct Hb as (e & s & H1 & H2 & H3). exists e, s.
    rewrite <- He, <- Hs. auto.
  - intros Hi. subst w. unfold transaction.
    destruct (Hgood Hi) as [->|(d' & -> & Hps)]; simpl.
    + split; [discriminate|left; reflexivity].
    + split; [discriminate|right; auto].
  - intros pn pa e s Hpn Hpa He Hs.
    assert (Hlt : pa < length (partners d)).
    { unfold partner_ok in Hok. rewrite Hpa in Hok. exact Hok. }
    destruct (create_run today v d pn pa e s Hpn Hpa Hlt He Hs) as [Hcb Hcg].
    subst c. unfold transaction. split.
    + intros Hlt'. rewrite (Hcb Hlt'). reflexivity.
    + intros Hle. apply date_leb_ltb in Hle.
      destruct (Hcg Hle) as (d' & p' & -> & Hps & H1 & H2). simpl. eauto.
Qed.

Lemma dates_ok_scenario s o : dates_ok (all_done s o).
Proof.
  intros [|i] q; simpl; [|discriminate].
  intros [= <-] e b [= <-] [= <-]. reflexivity.
Qed.

Lemma date_constraint_enforced_witness :
  transaction (write 0 (vals_end (Date 2023 12 31))) (all_done draft "PRJ/0001")
  = (all_done draft "PRJ/0001", Raise date_error)
  /\ transaction (create today (vals_end (Date 2024 1 14))) (all_done draft "PRJ/0001")
     = (all_done draft "PRJ/0001", Raise date_error).
Proof.
  pose proof (date_constraint_enforced today (all_done draft "PRJ/0001") 0
                (project_in draft) (vals_end (Date 2023 12 31))
                (dates_ok_scenario _ _) eq_refl ltac:(unfold partner_ok; simpl; lia)) as H1.
  pose proof (date_constraint_enforced today (all_done draft "PRJ/0001") 0
                (project_in draft) (vals_end (Date 2024 1 14))
                (dates_ok_scenario _ _) eq_refl ltac:(unfold partner_ok; simpl; lia)) as H2.
  simpl in H1, H2.
  destruct H1 as (_ & _ & Hw & _).
  destruct H2 as (_ & _ & _ & _ & Hc).
  split.
  - apply Hw. exists (Date 2023 12 31), (Date 2024 1 1). auto.
  - apply (Hc "Annex" 1 (Date 2024 1 14) today); reflexivity.
Defined.

End ProjectDefinitionFacts.

(* ===================================================================== *)
(** * Properties of the material requirement calculation *)
(* ===================================================================== *)

(** One automatic update touches the project table only. *)
Lemma outcome_frame self d p d' :
  ProjectDefinition.outcome self d p d' ->
  plannings d' = plannings d /\ productions d' = productions d
  /\ length (projects d') = length (projects d).
Proof.
  intros [->|(s & body & subtype & -> & _)]; simpl; auto.
  rewrite length_insert. auto.
Qed.

Lemma update_project_state_run ilike pid d p :
  projects d !! pid = Some p ->
  exists d', ProjectDefinition.update_project_state ilike [pid] d = Ok (tt, d')
             /\ ProjectDefinition.outcome pid d p d'.
Proof.
  intros Hp.
  destruct (ProjectDefinitionFacts._auto_update_state_outcome ilike pid d p Hp)
    as (d' & Hrun & Hout).
  exists d'. split; [|assumption].
  unfold ProjectDefinition.update_project_state, for_each, bind. rewrite Hrun.
  reflexivity.
Qed.

Module MaterialProductionPlanningFacts.

Import Planning MaterialProductionPlanning.

Lemma fold_append {A B} (g : A -> B) (l : list A) (acc : list B) :
  fold_left (fun lines x => lines ++ [g x]) l acc = acc ++ map g l.
Proof.
  revert acc. induction l as [|x l IH]; intros acc; simpl.
  - rewrite app_nil_r. reflexivity.
  - rewrite IH, <- app_assoc. reflexivity.
Qed.

(** [max(0, x)] of Python is the maximum of the library. *)
Lemma max0_Qmax (x : Q) : Py.max0 x = Qmax 0 x.
Proof.
  unfold Py.max0, Py.gt.
  destruct (Qle_bool x 0) eqn:E; simpl.
  - apply Qle_bool_iff in E. symmetry.
    unfold Qmax, GenericMinMax.gmax.
    destruct (0 ?= x)%Q eqn:C; try reflexivity.
    apply Qlt_alt in C. exfalso. apply (Qlt_not_le _ _ C). exact E.
  - unfold Qmax, GenericMinMax.gmax.
    destruct (0 ?= x)%Q eqn:C; try reflexivity.
    + apply Qeq_alt in C. exfalso.
      assert (H : Qle_bool x 0 = true); [|congruence].
      apply Qle_bool_iff. rewrite <- C. apply Qle_refl.
    + apply Qgt_alt in C. exfalso.
      assert (H : Qle_bool x 0 = true); [|congruence].
      apply Qle_bool_iff. apply Qlt_le_weak. exact C.
Qed.

Lemma append_component_spec ops d acc comp :
  append_component ops d acc comp = acc ++ expected_lines ops d comp.
Proof.
  unfold append_component, expected_lines.
  destruct (Component.bom_id comp) as [b|].
  - etransitivity.
    + apply (fold_append
               (fun bom_line =>
                  Requirement.Make (Component.component_id comp)
                    (BomLine.product_id bom_line)
                    (Py.mul ops (BomLine.product_qty bom_line)
                                (Component.quantity comp))
                    (available ops d (BomLine.product_id bom_line))
                    (Py.max0
                       (Py.sub ops
                          (Py.mul ops (BomLine.product_qty bom_line)
                                      (Component.quantity comp))
                          (available ops d (BomLine.product_id bom_line)))))).
    + f_equal. apply map_ext. intros bom_line.
      unfold requirement, available. rewrite max0_Qmax. reflexivity.
  - unfold requirement, available. rewrite max0_Qmax. reflexivity.
Qed.

Lemma fold_append_component ops d comps acc :
  fold_left (append_component ops d) comps acc
  = acc ++ flat_map (expected_lines ops d) comps.
Proof.
  revert acc. induction comps as [|c comps IH]; intros acc; simpl.
  - rewrite app_nil_r. reflexivity.
  - rewrite IH, append_component_spec, <- app_assoc. reflexivity.
Qed.

(** The explosion stops at the first level: the materials of a component
    with a BOM are the products of the lines of that BOM, whether or not
    they have a BOM of their own. *)
Lemma expected_lines_one_level ops d comp b :
  Component.bom_id comp = Some b ->
  map Requirement.material_id (expected_lines ops d comp)
  = map BomLine.product_id (Bom.bom_line_ids (bom d b)).
Proof.
  intros Hb. unfold expected_lines. rewrite Hb, map_map. reflexivity.
Qed.

(** Each line of [expected_lines], field by field. *)
Lemma expected_line_spec ops d comp line :
  In line (expected_lines ops d comp) ->
  let material := product d (Requirement.material_id line) in
  Requirement.component_id line = Component.component_id comp
  /\ Requirement.available_qty line
     = Py.sub ops (Product.qty_available material)
                  (Product.outgoing_qty material)
  /\ Requirement.shortage_qty line
     = Qmax 0 (Py.sub ops (Requirement.required_qty line)
                          (Requirement.available_qty line))
  /\ (0 <= Requirement.shortage_qty line)%Q
  /\ match Component.bom_id comp with
     | Some b =>
         exists bom_line,
           In bom_line (Bom.bom_line_ids (bom d b))
           /\ Requirement.material_id line = BomLine.product_id bom_line
           /\ Requirement.required_qty line
              = Py.mul ops (BomLine.product_qty bom_line)
                           (Component.quantity comp)
     | None =>
         Requirement.material_id line = Component.component_id comp
         /\ Requirement.required_qty line = Component.quantity comp
     end.
Proof.
  unfold expected_lines. intros Hin.
  destruct (Component.bom_id comp) as [b|].
  - apply in_map_iff in Hin as (bom_line & <- & Hb). cbv zeta.
    unfold requirement. cbn [Requirement.component_id Requirement.material_id
      Requirement.required_qty Requirement.available_qty
      Requirement.shortage_qty].
    repeat split; try reflexivity.
    + apply Q.le_max_l.
    + exists bom_line. auto.
  - destruct Hin as [<-|[]]. cbv zeta. unfold requirement.
    cbn [Requirement.component_id Requirement.material_id
      Requirement.required_qty Requirement.available_qty
      Requirement.shortage_qty].
    repeat split; try reflexivity. apply Q.le_max_l.
Qed.

Section WriteFacts.

Variable ilike : string -> string -> bool.
Variable ops : Py.float_ops.

(** What [write] does on a planning whose project exists. *)
Lemma planning_write_run self v d r :
  plannings d !! self = Some r ->
  project_id r < length (projects d) ->
  exists d', write ilike self v d = Ok (tt, d')
             /\ plannings d' = <[self := apply_vals v r]> (plannings d)
             /\ productions d' = productions d
             /\ length (projects d') = length (projects d).
Proof.
  intros Hr Hlt.
  unfold write, bind at 1, orm_write, bind at 1, browse at 1. rewrite Hr.
  unfold store, modify.
  destruct (v_state v) as [s|]; [|eexists; split; [reflexivity|simpl; auto]].
  set (d1 := set_plannings (<[self := apply_vals v r]> (plannings d)) d).
  assert (Hr1 : plannings d1 !! self = Some (apply_vals v r)).
  { simpl. apply list_lookup_insert_eq. eapply lookup_lt_Some; eauto. }
  destruct (lookup_lt_is_Some_2 (projects d) _ Hlt) as [p Hp].
  unfold bind, browse, ProjectDefinition.browse. rewrite Hr1. simpl.
  rewrite Hp.
  destruct (Project.auto_update_state p).
  - destruct (update_project_state_run ilike (project_id r) d1 p Hp)
      as (d' & Hrun & Hout).
    destruct (outcome_frame _ _ _ _ Hout) as (H1 & H2 & H3).
    exists d'. split; [exact Hrun|]. rewrite H1, H2, H3. auto.
  - eexists; split; [reflexivity|]. auto.
Qed.

(** C2: on a planning with components, action_material_planning returns,
    and the requirement lines of the planning are then exactly, component
    by component in order: for a component with a BOM one line per BOM line
    with required quantity = BOM-line quantity x planned quantity of the
    component, available quantity = on-hand minus outgoing stock of the
    material and shortage = max(0, required - available); for a component
    without a BOM one line with the component itself as the material and
    its planned quantity as the required quantity.  BOM lines are not
    exploded further, and the lines computed before are gone.  The lines
    are those of [expected_lines], which spells these quantities out with
    the product and the difference of the floats and the maximum of the
    library. *)
Theorem material_planning_lines self d r :
  plannings d !! self = Some r ->
  component_line_ids r <> [] ->
  project_id r < length (projects d) ->
  exists d' a r',
    action_material_planning ilike ops self d = Ok (a, d')
    /\ plannings d' !! self = Some r'
    /\ material_requirement_ids r'
       = flat_map (expected_lines ops d) (component_line_ids r)
    /\ (forall comp b, In comp (component_line_ids r) ->
          Component.bom_id comp = Some b ->
          map Requirement.material_id (expected_lines ops d comp)
          = map BomLine.product_id (Bom.bom_line_ids (bom d b)))
    /\ (forall comp line, In comp (component_line_ids r) ->
          In line (expected_lines ops d comp) ->
          let material := product d (Requirement.material_id line) in
          Requirement.component_id line = Component.component_id comp
          /\ Requirement.available_qty line
             = Py.sub ops (Product.qty_available material)
                          (Product.outgoing_qty material)
          /\ Requirement.shortage_qty line
             = Qmax 0 (Py.sub ops (Requirement.required_qty line)
                                  (Requirement.available_qty line))
          /\ (0 <= Requirement.shortage_qty line)%Q
          /\ match Component.bom_id comp with
             | Some b =>
                 exists bom_line,
                   In bom_line (Bom.bom_line_ids (bom d b))
                   /\ Requirement.material_id line
                      = BomLine.product_id bom_line
                   /\ Requirement.required_qty line
                      = Py.mul ops (BomLine.product_qty bom_line)
                                   (Component.quantity comp)
             | None =>
                 Requirement.material_id line = Component.component_id comp
                 /\ Requirement.required_qty line = Component.quantity comp
             end)
    /\ component_line_ids r' = component_line_ids r
    /\ state r' = material_planned.
Proof.
  intros Hr Hne Hlt.
  unfold action_material_planning, bind at 1, browse at 1. rewrite Hr.
  destruct (component_line_ids r) as [|c cs] eqn:Ec; [congruence|].
  rewrite <- Ec.
  unfold bind at 1, unlink_material_requirements, bind at 1, browse. rewrite Hr.
  unfold store, modify, bind at 1, get.
  match goal with
  | |- context [set_plannings (<[self := ?q]> _) d] => set (r0 := q)
  end.
  set (d0 := set_plannings (<[self := r0]> (plannings d)) d).
  assert (Hr0 : plannings d0 !! self = Some r0).
  { simpl. apply list_lookup_insert_eq. eapply lookup_lt_Some; eauto. }
  set (v := Vals None _ None _).
  destruct (planning_write_run self v d0 r0 Hr0 Hlt) as (d' & Hw & Hps & _).
  unfold bind. rewrite Hw.
  eexists d', _, (apply_vals v r0). split; [reflexivity|].
  split.
  { rewrite Hps. apply list_lookup_insert_eq. eapply lookup_lt_Some; eauto. }
  split.
  { simpl. rewrite fold_append_component. reflexivity. }
  split.
  { intros comp b _ Hb. apply expected_lines_one_level; assumption. }
  split.
  { intros comp line _ Hline. apply expected_line_spec. exact Hline. }
  split; [simpl; apply app_nil_r|reflexivity].
Qed.

End WriteFacts.

Import PlanningScenario.

Lemma material_planning_lines_witness :
  exists d' a r',
    action_material_planning ProjectScenario.ilike Py.exact_ops 0
      (base [frame; paint])
    = Ok (a, d')
    /\ plannings d' !! 0 = Some r'
    /\ material_requirement_ids r'
       = [ Requirement.Make 1 2 20 3 17;
           Requirement.Make 1 3 (50 # 2) 80 0;
           Requirement.Make 4 4 3 (1 # 2) (5 # 2) ]
    /\ component_line_ids r' = [frame; paint]
    /\ state r' = material_planned.
Proof.
  destruct (material_planning_lines ProjectScenario.ilike Py.exact_ops 0
              (base [frame; paint]) (planning [frame; paint]))
    as (d' & a & r' & Hrun & Hr' & Hlines & _ & _ & Hcomps & Hstate).
  - reflexivity.
  - discriminate.
  - simpl. lia.
  - exists d', a, r'. split; [exact Hrun|]. split; [exact Hr'|].
    split; [rewrite Hlines; vm_compute; reflexivity|].
    split; [exact Hcomps|exact Hstate].
Defined.

(** The scenario evaluated: the old line is gone, the bracket is listed as
    a material although it has a BOM of its own, and its bolts are not
    listed. *)
Example material_planning_scenario :
  match action_material_planning ProjectScenario.ilike Py.exact_ops 0
          (base [frame; paint]) with
  | Ok (_, d') => material_requirement_ids <$> plannings d' !! 0
  | Raise _ => None
  end
  = Some [ Requirement.Make 1 2 20 3 17;
           Requirement.Make 1 3 (50 # 2) 80 0;
           Requirement.Make 4 4 3 (1 # 2) (5 # 2) ].
Proof. vm_compute. reflexivity. Qed.

Example material_planning_needs_components :
  action_material_planning ProjectScenario.ilike Py.exact_ops 0 (base [])
  = Raise (UserError "Please load components first!").
Proof. reflexivity. Qed.

End MaterialProductionPlanningFacts.

(* ===================================================================== *)
(** * Properties of the work order creation wizard *)
(* ===================================================================== *)

Module WorkOrderCreationWizardFacts.

Import WorkOrderCreationWizard.

Section Facts.

Variable ilike : string -> string -> bool.
Variable like : string -> string -> bool.
Variable str_float : Q -> string.
Variable ops : Py.float_ops.

Lemma set_productions_twice ps qs d :
  set_productions ps (set_productions qs d) = set_productions ps d.
Proof. reflexivity. Qed.

Lemma component_orders_set_productions ps d name ratio comps :
  component_orders ops (set_productions ps d) name ratio comps
  = component_orders ops d name ratio comps.
Proof.
  induction comps as [|c rest IH]; simpl; [reflexivity|].
  destruct (Component.bom_id c); rewrite IH; reflexivity.
Qed.

Lemma first_excess_set_productions ps d name ratio prods comps :
  first_excess like ops (set_productions ps d) name ratio prods comps
  = first_excess like ops d name ratio prods comps.
Proof.
  revert prods. induction comps as [|c rest IH]; intros prods; simpl; [reflexivity|].
  destruct (Component.bom_id c); [|apply IH].
  destruct (exceeds like ops prods name ratio c); [reflexivity|apply IH].
Qed.

(** The loop either stops at the first component whose guard fails, or
    appends the orders of all BOM-linked components. *)
Lemma create_component_productions_run name ratio comps ids d :
  create_component_productions like str_float ops name ratio comps ids d
  = match first_excess like ops d name ratio (productions d) comps with
    | Some (comp, prods) =>
        Raise (UserError
                 (exceed_message str_float d comp
                    (total_existing like ops prods name (Component.component_id comp))
                    (Py.mul ops (Component.quantity comp) ratio)))
    | None =>
        Ok (ids ++ seq (length (productions d))
                       (length (component_orders ops d name ratio comps)),
            set_productions
              (productions d ++ component_orders ops d name ratio comps) d)
    end.
Proof.
  revert ids d. induction comps as [|comp rest IH]; intros ids d; simpl.
  - rewrite !app_nil_r. destruct d; reflexivity.
  - destruct (Component.bom_id comp) as [b|]; [|apply IH].
    unfold bind at 1, get. unfold exceeds.
    destruct (Py.gt _ _); [reflexivity|].
    unfold bind, production_create. rewrite IH. simpl.
    fold (component_order ops d name ratio comp b).
    rewrite first_excess_set_productions.
    destruct (first_excess like ops d name ratio
                (productions d ++ [component_order ops d name ratio comp b]) rest)
      as [[c prods]|]; [reflexivity|].
    rewrite component_orders_set_productions.
    rewrite <- !app_assoc, length_app. simpl.
    rewrite Nat.add_1_r. reflexivity.
Qed.

Lemma first_excess_Some d name ratio prods comps comp prods' :
  first_excess like ops d name ratio prods comps = Some (comp, prods') ->
  is_Some (Component.bom_id comp)
  /\ exceeds like ops prods' name ratio comp = true
  /\ exists pre post,
       comps = pre ++ comp :: post
       /\ prods' = prods ++ component_orders ops d name ratio pre.
Proof.
  revert prods. induction comps as [|c rest IH]; intros prods; simpl; [discriminate|].
  destruct (Component.bom_id c) as [b|] eqn:Eb.
  - destruct (exceeds like ops prods name ratio c) eqn:Ex.
    + intros [= <- <-]. rewrite Eb. split; [eauto|]. split; [assumption|].
      exists [], rest. simpl. rewrite app_nil_r. auto.
    + intros H. destruct (IH _ H) as (? & ? & pre & post & -> & ->).
      split; [assumption|]. split; [assumption|].
      exists (c :: pre), post. simpl. rewrite Eb, <- app_assoc. auto.
  - intros H. destruct (IH _ H) as (? & ? & pre & post & -> & ->).
    split; [assumption|]. split; [assumption|].
    exists (c :: pre), post. simpl. rewrite Eb. auto.
Qed.

(** No guard fails exactly when every BOM-linked component passes it
    against the orders present when it is reached. *)
Lemma first_excess_None d name ratio prods comps :
  first_excess like ops d name ratio prods comps = None <->
  (forall pre comp post, comps = pre ++ comp :: post ->
     is_Some (Component.bom_id comp) ->
     exceeds like ops (prods ++ component_orders ops d name ratio pre) name ratio comp
     = false).
Proof.
  revert prods. induction comps as [|c rest IH]; intros prods; simpl.
  - split; [|reflexivity]. intros _ [|] ? ? [=].
  - destruct (Component.bom_id c) as [b|] eqn:Eb.
    + destruct (exceeds like ops prods name ratio c) eqn:Ex.
      * split; [discriminate|]. intros H.
        specialize (H [] c rest eq_refl). rewrite Eb in H.
        simpl in H. rewrite app_nil_r, Ex in H.
        specialize (H (ltac:(eauto))). discriminate.
      * rewrite IH. split; intros H pre comp post Hc Hb.
        -- destruct pre as [|c' pre]; simpl in Hc.
           ++ injection Hc as <- <-. simpl. rewrite app_nil_r. exact Ex.
           ++ injection Hc as <- ->. simpl. rewrite Eb.
              specialize (H pre comp post eq_refl Hb).
              rewrite <- app_assoc in H. exact H.
        -- specialize (H (c :: pre) comp post). simpl in H.
           rewrite Eb in H. rewrite <- app_assoc. apply H; [congruence|assumption].
    + rewrite IH. split; intros H pre comp post Hc Hb.
      * destruct pre as [|c' pre]; simpl in Hc.
        -- injection Hc as <- <-. rewrite Eb in Hb. destruct Hb; discriminate.
        -- injection Hc as <- ->. simpl. rewrite Eb. apply (H pre comp post); auto.
      * specialize (H (c :: pre) comp post). simpl in H. rewrite Eb in H.
        apply H; [congruence|assumption].
Qed.

(** What the action does on a planning whose project exists. *)
Lemma action_create_orders_run self d r :
  plannings d !! planning_id self = Some r ->
  Planning.project_id r < length (projects d) ->
  Py.gt (quantity_to_produce self) (max_quantity self) = false ->
  let name := Planning.name r in
  let main := Production.Make (product_id self) (quantity_to_produce self)
                (Product.uom_id (product d (product_id self))) None (Some name)
                Production.draft in
  forall ids d2,
    (if create_component_orders self
     then create_component_productions like str_float ops name (ratio_of ops self r)
            (Planning.component_line_ids r) [length (productions d)]
     else ret [length (productions d)])
      (set_productions (productions d ++ [main]) d) = Ok (ids, d2) ->
    plannings d2 = plannings d -> projects d2 = projects d ->
    exists a d',
      action_create_orders ilike like str_float ops self d = Ok (a, d')
      /\ productions d' = productions d2
      /\ plannings d'
         = <[planning_id self :=
               MaterialProductionPlanning.apply_vals
                 (MaterialProductionPlanning.Vals None None (Some ids)
                    (Some Planning.work_orders_created)) r]> (plannings d).
Proof.
  intros Hr Hlt Hgt name main ids d2 Hloop Hpl Hpr.
  unfold action_create_orders. rewrite Hgt.
  unfold bind at 1, MaterialProductionPlanning.browse. rewrite Hr.
  unfold bind at 1, get. unfold bind at 1, production_create.
  unfold bind at 1. fold name. fold main. rewrite Hloop.
  destruct (MaterialProductionPlanningFacts.planning_write_run ilike (planning_id self)
              (MaterialProductionPlanning.Vals None None (Some ids)
                 (Some Planning.work_orders_created)) d2 r)
    as (d' & Hw & Hps & Hprods & _).
  { rewrite Hpl. exact Hr. }
  { rewrite Hpr. exact Hlt. }
  unfold bind. rewrite Hw. eexists _, d'. split; [reflexivity|].
  rewrite Hps, Hpl. auto.
Qed.

(** C3 (amended): a request above the maximum quantity is rejected with a
    user error.  Otherwise one order is created for the main product with
    the requested quantity and, when create_component_orders is set, the
    BOM-linked components are taken in order: the wizard sums the
    quantities of the orders present at that point for the component whose
    origin contains (like) the name of the planning, and raises a user
    error, the transaction then creating no order at all, when the sum plus
    the component quantity (planned quantity x ratio, the ratio being
    requested / planned quantity of the planning, or 1 when that is not
    positive) exceeds the planned quantity of the component; when no guard
    fails, one order per BOM-linked component is created with that
    quantity.  When create_component_orders is not set, the main order is
    the only one.  The sum, the product and the quotient are those of the
    floats, whatever their rounding. *)
Theorem create_orders_guarded self d r :
  plannings d !! planning_id self = Some r ->
  Planning.project_id r < length (projects d) ->
  let name := Planning.name r in
  let ratio := ratio_of ops self r in
  let comps := Planning.component_line_ids r in
  let main := Production.Make (product_id self) (quantity_to_produce self)
                (Product.uom_id (product d (product_id self))) None (Some name)
                Production.draft in
  let out := transaction (action_create_orders ilike like str_float ops self) d in
  (ratio = if Qlt_le_dec 0 (Planning.quantity r)
           then Py.div ops (quantity_to_produce self) (Planning.quantity r)
           else 1%Q)
  /\ (forall prods comp,
        total_existing like ops prods name (Component.component_id comp)
        = Py.fsum ops
            (map Production.product_qty
               (List.filter
                  (fun o => match Production.origin o with
                            | Some origin => like origin name
                            | None => false
                            end
                            && (Production.product_id o
                                =? Component.component_id comp))
                  prods)))
  /\
  if Py.gt (quantity_to_produce self) (max_quantity self)
  then exists msg, out = (d, Raise (UserError msg))
  else if create_component_orders self
  then match first_excess like ops d name ratio (productions d ++ [main]) comps with
       | Some (comp, prods) =>
           is_Some (Component.bom_id comp)
           /\ (exists pre post,
                 comps = pre ++ comp :: post
                 /\ prods = (productions d ++ [main])
                            ++ component_orders ops d name ratio pre)
           /\ Py.gt (Py.add ops
                       (total_existing like ops prods name
                          (Component.component_id comp))
                       (Py.mul ops (Component.quantity comp) ratio))
                    (Component.quantity comp) = true
           /\ out = (d, Raise (UserError
                      (exceed_message str_float d comp
                         (total_existing like ops prods name
                            (Component.component_id comp))
                         (Py.mul ops (Component.quantity comp) ratio))))
       | None =>
           (forall pre comp post, comps = pre ++ comp :: post ->
              is_Some (Component.bom_id comp) ->
              exceeds like ops ((productions d ++ [main])
                            ++ component_orders ops d name ratio pre)
                      name ratio comp = false)
           /\ exists a d' r',
                out = (d', Ok a)
                /\ productions d'
                   = productions d ++ main :: component_orders ops d name ratio comps
                /\ plannings d' !! planning_id self = Some r'
                /\ Planning.state r' = Planning.work_orders_created
       end
  else exists a d' r',
         out = (d', Ok a)
         /\ productions d' = productions d ++ [main]
         /\ plannings d' !! planning_id self = Some r'
         /\ Planning.state r' = Planning.work_orders_created.
Proof.
  intros Hr Hlt name ratio comps main out.
  split.
  { subst ratio. unfold ratio_of, Py.gt.
    destruct (Qlt_le_dec 0 (Planning.quantity r)) as [H|H].
    - destruct (Qle_bool (Planning.quantity r) 0) eqn:E; [|reflexivity].
      apply Qle_bool_iff in E. exfalso. apply (Qlt_not_le _ _ H). exact E.
    - apply Qle_bool_iff in H. rewrite H. reflexivity. }
  split; [reflexivity|].
  destruct (Py.gt (quantity_to_produce self) (max_quantity self)) eqn:Hgt.
  { subst out. unfold transaction, action_create_orders. rewrite Hgt.
    eexists; reflexivity. }
  pose proof (action_create_orders_run self d r Hr Hlt Hgt) as Hrun.
  simpl in Hrun. fold name main in Hrun.
  assert (Hlook : forall v, <[planning_id self := v]> (plannings d)
                            !! planning_id self = Some v).
  { intros v. apply list_lookup_insert_eq. eapply lookup_lt_Some; eauto. }
  destruct (create_component_orders self) eqn:Hc.
  - pose proof (create_component_productions_run name ratio comps
                  [length (productions d)]
                  (set_productions (productions d ++ [main]) d)) as Hloop.
    rewrite first_excess_set_productions in Hloop. simpl in Hloop.
    destruct (first_excess like ops d name ratio (productions d ++ [main]) comps)
      as [[comp prods]|] eqn:Ef.
    + destruct (first_excess_Some _ _ _ _ _ _ _ Ef) as (Hb & Hex & Hsplit).
      split; [assumption|]. split; [assumption|]. split; [exact Hex|].
      subst out. unfold transaction, action_create_orders. rewrite Hgt.
      unfold bind at 1, MaterialProductionPlanning.browse. rewrite Hr.
      unfold bind at 1, get. unfold bind at 1, production_create.
      unfold bind at 1. rewrite Hc. fold name main ratio comps. rewrite Hloop.
      reflexivity.
    + split; [apply first_excess_None; assumption|].
      destruct (Hrun _ _ Hloop eq_refl eq_refl) as (a & d' & Ha & Hps & Hpl).
      subst out. unfold transaction. rewrite Ha.
      eexists a, d', _. split; [reflexivity|]. split.
      * rewrite Hps. simpl. rewrite component_orders_set_productions.
        rewrite <- app_assoc. reflexivity.
      * rewrite Hpl. split; [apply Hlook|reflexivity].
  - destruct (Hrun [length (productions d)] _ eq_refl eq_refl eq_refl)
      as (a & d' & Ha & Hps & Hpl).
    subst out. unfold transaction. rewrite Ha.
    eexists a, d', _. split; [reflexivity|]. split; [rewrite Hps; reflexivity|].
    rewrite Hpl. split; [apply Hlook|reflexivity].
Qed.

End Facts.

Import PlanningScenario WizardScenario.

(** The numbers of the scenarios are small integers and their halves:
    the sums, products and quotients taken here are exact on the machine
    too. *)
Lemma create_orders_guarded_witness :
  transaction (action_create_orders ProjectScenario.ilike like
                 WizardScenario.str_float Py.exact_ops (wizard 5 true))
              with_frames
  = (with_frames,
     Raise (UserError
              (exceed_message WizardScenario.str_float with_frames frame 8
                 (Component.quantity frame * (5 / 10))))).
Proof.
  pose proof (create_orders_guarded ProjectScenario.ilike like
                WizardScenario.str_float Py.exact_ops (wizard 5 true)
                with_frames (planning [frame; paint]) eq_refl
                ltac:(simpl; lia)) as H.
  cbv zeta in H. destruct H as (_ & _ & H).
  vm_compute in H. destruct H as (_ & _ & _ & H).
  vm_compute. exact H.
Defined.

(** C3 as stated fails: with create_component_orders unset, the frame has
    a BOM and its guard would pass, yet the main order is the only order
    created. *)
Lemma component_orders_are_optional :
  let w := wizard 10 false in
  let d := base [frame; paint] in
  let main := Production.Make 7 10 1 None (Some "MPP/0001") Production.draft in
  Py.gt (quantity_to_produce w) (max_quantity w) = false
  /\ first_excess like Py.exact_ops d "MPP/0001"
       (ratio_of Py.exact_ops w (planning [frame; paint]))
       [main] [frame; paint] = None
  /\ is_Some (Component.bom_id frame)
  /\ exists a d',
       action_create_orders ProjectScenario.ilike like
         WizardScenario.str_float Py.exact_ops w d = Ok (a, d')
       /\ productions d' = [main].
Proof.
  split; [reflexivity|]. split; [reflexivity|]. split; [eexists; reflexivity|].
  eexists _, _. split; [vm_compute; reflexivity|reflexivity].
Qed.

(** With the flag set the same request creates the order of the frame. *)
Example component_orders_when_requested :
  match action_create_orders ProjectScenario.ilike like
          WizardScenario.str_float Py.exact_ops (wizard 10 true)
          (base [frame; paint]) with
  | Ok (_, d') => map Production.product_id (productions d')
  | Raise _ => []
  end = [7; 1].
Proof. vm_compute. reflexivity. Qed.

End WorkOrderCreationWizardFacts.

(* ===================================================================== *)
(** * Properties of the cost estimation import *)
(* ===================================================================== *)

Module ProjectEstimationImportWizardFacts.

Import ProjectEstimationImportWizard.

Lemma Qeq_dec_leibniz (a b : Q) : {a = b} + {a <> b}.
Proof. decide equality; [apply Pos.eq_dec|apply Z.eq_dec]. Qed.

(** ** Searching a recordset *)

Lemma first_of_filtered_from {A} (f : A -> bool) (rs : list A) (i : nat) :
  first_of (filtered_from i f rs) = (fun k => i + k) <$> first_match f rs.
Proof.
  revert i. induction rs as [|r rs IH]; intros i; simpl; [reflexivity|].
  destruct (f r).
  - simpl. rewrite Nat.add_0_r. destruct (filtered_from (S i) f rs); reflexivity.
  - rewrite IH. destruct (first_match f rs); simpl; [|reflexivity].
    f_equal. lia.
Qed.

Lemma first_of_filtered {A} (f : A -> bool) (rs : list A) :
  first_of (filtered f rs) = first_match f rs.
Proof.
  unfold filtered. rewrite first_of_filtered_from.
  destruct (first_match f rs); reflexivity.
Qed.

Lemma filtered_nil {A} (f : A -> bool) (rs : list A) :
  filtered f rs = [] <-> first_match f rs = None.
Proof.
  rewrite <- first_of_filtered.
  destruct (filtered f rs) as [|i [|j l]]; simpl; split; congruence.
Qed.

(** The result of a strategy: its first match, or what comes next. *)
Lemma strategy_spec {A} (f : A -> bool) (rs : list A) (next : option nat) :
  match filtered f rs with
  | [] => next
  | product_line => first_of product_line
  end
  = match first_match f rs with
    | Some i => Some i
    | None => next
    end.
Proof.
  rewrite <- first_of_filtered.
  destruct (filtered f rs) as [|i [|j l]]; reflexivity.
Qed.

Lemma first_match_Some {A} (f : A -> bool) (rs : list A) (i : nat) :
  first_match f rs = Some i <->
  (exists r, rs !! i = Some r /\ f r = true)
  /\ (forall j r, j < i -> rs !! j = Some r -> f r = false).
Proof.
  revert i. induction rs as [|r rs IH]; intros i; simpl.
  - split; [discriminate|]. intros [[r [Hr _]] _]. discriminate.
  - destruct (f r) eqn:Ef.
    + split.
      * intros [= <-]. split; [eauto|]. intros j r' Hj. lia.
      * intros [[r' [Hr Hf]] Hmin]. destruct i as [|i]; [reflexivity|].
        specialize (Hmin 0 r ltac:(lia) eq_refl). congruence.
    + destruct (first_match f rs) as [k|]; simpl.
      * split.
        -- intros [= <-]. destruct (proj1 (IH k) eq_refl) as [Hex Hmin].
           split; [exact Hex|].
           intros [|j] r' Hj Hr'; simpl in Hr'; [congruence|].
           apply (Hmin j); [lia|assumption].
        -- intros [[r' [Hr Hf]] Hmin]. destruct i as [|i]; simpl in Hr; [congruence|].
           assert (Hk : Some k = Some i); [|congruence].
           apply IH. split; [eauto|].
           intros j r'' Hj Hr''. apply (Hmin (S j)); [lia|assumption].
      * split; [discriminate|].
        intros [[r' [Hr Hf]] Hmin]. destruct i as [|i]; simpl in Hr; [congruence|].
        exfalso. assert (Hk : None = Some i); [|discriminate].
        apply IH. split; [eauto|].
        intros j r'' Hj Hr''. apply (Hmin (S j)); [lia|assumption].
Qed.

Lemma first_match_None {A} (f : A -> bool) (rs : list A) :
  first_match f rs = None <-> (forall r, In r rs -> f r = false).
Proof.
  induction rs as [|r rs IH]; simpl.
  - split; [intros _ ? []|reflexivity].
  - destruct (f r) eqn:Ef.
    + split; [discriminate|]. intros H. specialize (H r (or_introl eq_refl)). congruence.
    + destruct (first_match f rs) as [n|]; simpl.
      * split; [discriminate|]. intros H.
        exfalso. assert (Hn : Some n = None); [|discriminate].
        apply IH. intros r' Hr'. apply H. auto.
      * split; [|reflexivity]. intros _ r' [<-|Hr']; [assumption|].
        apply IH; auto.
Qed.

Lemma first_match_lt {A} (f : A -> bool) (rs : list A) (i : nat) :
  first_match f rs = Some i -> i < length rs.
Proof.
  intros H. apply first_match_Some in H as [[r [Hr _]] _].
  eapply lookup_lt_Some; eauto.
Qed.

Lemma first_match_map {A B} (h : A -> B) (g : B -> bool) (rs : list A) :
  first_match (fun r => g (h r)) rs = first_match g (map h rs).
Proof.
  induction rs as [|r rs IH]; simpl; [reflexivity|]. rewrite IH. reflexivity.
Qed.

Section Matching.

Variable py : Py.str_methods.

Local Abbreviation code_is := (code_is py).
Local Abbreviation name_is := (name_is py).
Local Abbreviation name_is_nocase := (name_is_nocase py).
Local Abbreviation _find_product_line := (_find_product_line py).

(** The order of the strategies of [_find_product_line]. *)
Lemma _find_product_line_spec products lines product_code product_name :
  _find_product_line products lines product_code product_name
  = if negb (Py.truthy product_code) && negb (Py.truthy product_name)
    then None
    else
      match (if Py.truthy product_code
             then first_match (code_is products product_code) lines else None) with
      | Some i => Some i
      | None =>
          match (if Py.truthy product_name
                 then first_match (name_is products product_name) lines else None) with
          | Some i => Some i
          | None =>
              if Py.truthy product_name
              then first_match (name_is_nocase products product_name) lines
              else None
          end
      end.
Proof.
  unfold _find_product_line.
  destruct (negb (Py.truthy product_code) && negb (Py.truthy product_name));
    [reflexivity|].
  rewrite !strategy_spec, !first_of_filtered.
  destruct (Py.truthy product_code), (Py.truthy product_name); reflexivity.
Qed.

Lemma _find_product_line_lt products lines product_code product_name i :
  _find_product_line products lines product_code product_name = Some i ->
  i < length lines.
Proof.
  rewrite _find_product_line_spec.
  destruct (negb _ && negb _); [discriminate|].
  destruct (Py.truthy product_code), (Py.truthy product_name);
    repeat match goal with
           | |- context [first_match ?f lines] =>
               let E := fresh "E" in
               destruct (first_match f lines) eqn:E;
               [apply first_match_lt in E|]
           end; intros [= <-]; assumption.
Qed.

(** The match depends on the products of the lines only. *)
Lemma _find_product_line_stable products lines lines' product_code product_name :
  map ProductLine.product_id lines = map ProductLine.product_id lines' ->
  _find_product_line products lines product_code product_name
  = _find_product_line products lines' product_code product_name.
Proof.
  intros Hm. rewrite !_find_product_line_spec.
  assert (Hc : forall code, first_match (code_is products code) lines
                            = first_match (code_is products code) lines').
  { intros code. unfold code_is.
    rewrite (first_match_map ProductLine.product_id
               (fun x => match Product.default_code (products x) with
                         | Some c => Py.truthy c && (Py.str_strip py c =? code)%string
                         | None => false
                         end) lines), Hm, <- first_match_map. reflexivity. }
  assert (Hn : forall n, first_match (name_is products n) lines
                         = first_match (name_is products n) lines').
  { intros n. unfold name_is.
    rewrite (first_match_map ProductLine.product_id
               (fun x => Py.truthy (Product.name (products x))
                         && (Py.str_strip py (Product.name (products x)) =? n)%string)
               lines), Hm, <- first_match_map. reflexivity. }
  assert (Hi : forall n, first_match (name_is_nocase products n) lines
                         = first_match (name_is_nocase products n) lines').
  { intros n. unfold name_is_nocase.
    rewrite (first_match_map ProductLine.product_id
               (fun x => Py.truthy (Product.name (products x))
                         && (Py.str_lower py (Py.str_strip py (Product.name (products x)))
                             =? Py.str_lower py n)%string) lines),
      Hm, <- first_match_map. reflexivity. }
  rewrite Hc, Hn, Hi. reflexivity.
Qed.

End Matching.

(** ** The loop over the rows *)

Lemma store_same self (d : db) p :
  projects d !! self = Some p ->
  set_projects
    (<[self := ProjectDefinition.set_product_line_ids
                 (Project.product_line_ids p) p]> (projects d)) d = d.
Proof.
  intros Hp.
  assert (E : ProjectDefinition.set_product_line_ids
                (Project.product_line_ids p) p = p) by (destruct p; reflexivity).
  rewrite E, list_insert_id by assumption. apply set_projects_same.
Qed.

Lemma set_prices_none l : set_prices None None l = l.
Proof. destruct l; reflexivity. Qed.

Lemma set_prices_product c s l :
  ProductLine.product_id (set_prices c s l) = ProductLine.product_id l.
Proof. reflexivity. Qed.

Lemma insert_keeps_products (lines : list ProductLine.t) i l c s :
  lines !! i = Some l ->
  map ProductLine.product_id (<[i := set_prices c s l]> lines)
  = map ProductLine.product_id lines.
Proof.
  intros Hl. rewrite list_fmap_insert. simpl.
  apply list_insert_id. rewrite list_lookup_fmap, Hl. reflexivity.
Qed.

Section Loop.

Variable py : Py.str_methods.
Variable str_float : Q -> string.
Variable float_of_string : string -> option Q.

Local Abbreviation _find_product_line := (_find_product_line py).
Local Abbreviation data_rows := (data_rows py str_float).
Local Abbreviation import_row := (import_row py str_float float_of_string).
Local Abbreviation row_target := (row_target py str_float).
Local Abbreviation row_errors := (row_errors py str_float).
Local Abbreviation row_error := (row_error py str_float).
Local Abbreviation import_rows := (import_rows py str_float float_of_string).
Local Abbreviation read_price := (read_price float_of_string).

Lemma import_row_products products lines r :
  map ProductLine.product_id (import_row products lines r)
  = map ProductLine.product_id lines.
Proof.
  unfold ProjectEstimationImportWizard.import_row.
  destruct (row_target products lines r) as [i|]; [|reflexivity].
  destruct (lines !! i) as [l|] eqn:El; [|reflexivity].
  apply insert_keeps_products; assumption.
Qed.

Lemma row_target_stable products lines lines' r :
  map ProductLine.product_id lines = map ProductLine.product_id lines' ->
  row_target products lines r = row_target products lines' r.
Proof. intros H. apply _find_product_line_stable; assumption. Qed.

Lemma row_errors_stable products lines lines' idx rows :
  map ProductLine.product_id lines = map ProductLine.product_id lines' ->
  row_errors products lines idx rows = row_errors products lines' idx rows.
Proof.
  intros H. revert idx. induction rows as [|r rows IH]; intros idx; simpl;
    [reflexivity|].
  unfold ProjectEstimationImportWizard.row_error.
  rewrite (row_target_stable products lines lines' r H), !IH. reflexivity.
Qed.

(** The loop, run on a project that exists, over rows whose data rows have
    a name column: it returns; the lines of the project are then those
    obtained by [import_row] from the data rows in order, and the errors
    collected are the error lines of the data rows in order. *)
Lemma import_rows_run self rows : forall idx st d p,
  projects d !! project_id self = Some p ->
  Forall (fun r => 2 <= length r) (data_rows rows) ->
  exists st',
    import_rows self idx rows st d
    = Ok (st',
          set_projects
            (<[project_id self :=
                 ProjectDefinition.set_product_line_ids
                   (fold_left (import_row (product d)) (data_rows rows)
                      (Project.product_line_ids p)) p]> (projects d)) d)
    /\ errors st'
       = errors st
         ++ row_errors (product d) (Project.product_line_ids p) idx
              (data_rows rows).
Proof.
  induction rows as [|r rest IH]; intros idx st d p Hp Hall.
  - exists st. simpl. rewrite (store_same _ _ _ Hp), app_nil_r. auto.
  - assert (Hstop : exists st',
               ret st d
               = Ok (st',
                     set_projects
                       (<[project_id self :=
                            ProjectDefinition.set_product_line_ids
                              (Project.product_line_ids p) p]> (projects d)) d)
               /\ errors st' = errors st ++ []).
    { exists st. rewrite (store_same _ _ _ Hp), app_nil_r. auto. }
    simpl. destruct r as [|a tl]; [exact Hstop|].
    unfold stops.
    destruct (cell_truthy a) eqn:Ea; simpl; [|exact Hstop].
    destruct (Py.str_upper py (stripped py str_float a) =? "TOTAL")%string eqn:Et;
      [exact Hstop|].
    simpl in Hall. unfold stops in Hall. rewrite Ea, Et in Hall. simpl in Hall.
    apply Forall_cons in Hall as [Hlen Hall].
    destruct tl as [|b tl]; [simpl in Hlen; lia|]. simpl.
    unfold ProjectEstimationImportWizard.import_row at 2.
    unfold ProjectEstimationImportWizard.row_error,
           ProjectEstimationImportWizard.row_target,
           blank, row_code, row_name. simpl.
    set (code := stripped py str_float a). set (nm := stripped py str_float b).
    destruct (negb (Py.truthy code) && negb (Py.truthy nm)) eqn:Eb.
    + (* a row without code and name is skipped *)
      assert (En : _find_product_line (product d) (Project.product_line_ids p)
                     code nm = None).
      { unfold _find_product_line. rewrite Eb. reflexivity. }
      rewrite En.
      destruct (IH (S idx) (Tally (updates st) (updated_count st) (errors st)
                                  (S (skipped_count st))) d p Hp Hall)
        as (st' & Hrun & Herr).
      exists st'. auto.
    + unfold bind at 1, get. unfold bind at 1, ProjectDefinition.browse.
      rewrite Hp.
      destruct (_find_product_line (product d) (Project.product_line_ids p)
                  code nm) as [i|] eqn:Ef.
      * (* matched *)
        destruct (lookup_lt_is_Some_2 _ _ (_find_product_line_lt _ _ _ _ _ _ Ef))
          as [l El].
        rewrite El.
        set (lines1 := <[i := set_prices (read_price (a :: b :: tl) 15)
                                  (read_price (a :: b :: tl) 16) l]>
                         (Project.product_line_ids p)).
        assert (Hwrite : forall st1,
                   read_price (a :: b :: tl) 15 <> None
                   \/ read_price (a :: b :: tl) 16 <> None ->
                   exists st',
                     (run product_line_write (project_id self) i
                            (read_price (a :: b :: tl) 15)
                            (read_price (a :: b :: tl) 16);
                      import_rows self (S idx) rest st1) d
                     = Ok (st',
                           set_projects
                             (<[project_id self :=
                                  ProjectDefinition.set_product_line_ids
                                    (fold_left (import_row (product d))
                                       (data_rows rest) lines1) p]>
                                (projects d)) d)
                     /\ errors st'
                        = errors st1
                          ++ row_errors (product d)
                               (Project.product_line_ids p) (S idx)
                               (data_rows rest)).
        { intros st1 _.
          unfold bind, product_line_write, bind, ProjectDefinition.browse.
          rewrite Hp, El.
          unfold ProjectDefinition.store, modify.
          set (p1 := ProjectDefinition.set_product_line_ids lines1 p).
          set (d1 := set_projects (<[project_id self := p1]> (projects d)) d).
          assert (Hp1 : projects d1 !! project_id self = Some p1).
          { simpl. apply list_lookup_insert_eq. eapply lookup_lt_Some; eauto. }
          destruct (IH (S idx) st1 d1 p1 Hp1 Hall) as (st' & Hrun & Herr).
          exists st'. split.
          - subst d1 p1. unfold lines1 in Hrun |- *. rewrite Hrun. simpl.
            rewrite list_insert_insert_eq. reflexivity.
          - rewrite Herr. simpl. f_equal.
            apply row_errors_stable. apply insert_keeps_products; assumption. }
        fold lines1.
        destruct (read_price (a :: b :: tl) 15) as [c|] eqn:Ec,
                 (read_price (a :: b :: tl) 16) as [s|] eqn:Es;
          try (apply (Hwrite (Tally _ _ _ _));
               (left; discriminate) || (right; discriminate)).
        (* no price in the row: nothing is written *)
        subst lines1.
        rewrite set_prices_none, (list_insert_id (Project.product_line_ids p) i l El).
        destruct (IH (S idx) st d p Hp Hall) as (st' & Hrun & Herr).
        exists st'. auto.
      * (* not matched: an error line *)
        destruct (IH (S idx)
                    (Tally (updates st) (updated_count st)
                           (errors st ++ [not_found_message idx code nm])
                           (skipped_count st)) d p Hp Hall)
          as (st' & Hrun & Herr).
        exists st'. split; [exact Hrun|].
        rewrite Herr. simpl. rewrite <- app_assoc. reflexivity.
Qed.

(** A data row without a name column stops the import with an
    IndexError. *)
Lemma import_rows_short self rows : forall idx st d p,
  projects d !! project_id self = Some p ->
  Exists (fun r => length r < 2) (data_rows rows) ->
  import_rows self idx rows st d = Raise IndexError.
Proof.
  induction rows as [|r rest IH]; intros idx st d p Hp Hex.
  - simpl in Hex. inversion Hex.
  - simpl in Hex |- *. destruct r as [|a tl]; [inversion Hex|].
    unfold stops in Hex.
    destruct (cell_truthy a) eqn:Ea; simpl in Hex |- *; [|inversion Hex].
    destruct (Py.str_upper py (stripped py str_float a) =? "TOTAL")%string eqn:Et;
      [inversion Hex|].
    destruct tl as [|b tl]; [reflexivity|].
    apply Exists_cons in Hex as [Hlen|Hex]; [simpl in Hlen; lia|]. simpl.
    destruct (negb _ && negb _); [eapply IH; eauto|].
    unfold bind at 1, get. unfold bind at 1, ProjectDefinition.browse.
    rewrite Hp.
    destruct (_find_product_line _ _ _ _) as [i|] eqn:Ef; [|eapply IH; eauto].
    destruct (lookup_lt_is_Some_2 _ _ (_find_product_line_lt _ _ _ _ _ _ Ef))
      as [l El].
    rewrite El.
    assert (Hwrite : forall c s st1,
               (run product_line_write (project_id self) i c s;
                import_rows self (S idx) rest st1) d = Raise IndexError).
    { intros c s st1.
      unfold bind, product_line_write, bind, ProjectDefinition.browse.
      rewrite Hp, El. unfold ProjectDefinition.store, modify.
      eapply IH; [|exact Hex].
      simpl. apply list_lookup_insert_eq. eapply lookup_lt_Some; eauto. }
    destruct (read_price (a :: b :: tl) 15), (read_price (a :: b :: tl) 16);
      try apply Hwrite.
    eapply IH; eauto.
Qed.

(** ** What one row, and the rows together, may change *)

Lemma import_row_frame products lines r i l l' :
  lines !! i = Some l ->
  import_row products lines r !! i = Some l' ->
  ProductLine.product_id l' = ProductLine.product_id l
  /\ ProductLine.quantity l' = ProductLine.quantity l
  /\ ProductLine.weight l' = ProductLine.weight l
  /\ ProductLine.sequence l' = ProductLine.sequence l
  /\ (ProductLine.cost_price l' <> ProductLine.cost_price l ->
      row_target products lines r = Some i /\ is_Some (read_price r 15))
  /\ (ProductLine.sale_price l' <> ProductLine.sale_price l ->
      row_target products lines r = Some i /\ is_Some (read_price r 16))
  /\ (row_target products lines r <> Some i -> l' = l).
Proof.
  intros Hl. unfold ProjectEstimationImportWizard.import_row.
  assert (Hsame : Some l = Some l' ->
            ProductLine.product_id l' = ProductLine.product_id l
            /\ ProductLine.quantity l' = ProductLine.quantity l
            /\ ProductLine.weight l' = ProductLine.weight l
            /\ ProductLine.sequence l' = ProductLine.sequence l
            /\ (ProductLine.cost_price l' <> ProductLine.cost_price l ->
                row_target products lines r = Some i /\ is_Some (read_price r 15))
            /\ (ProductLine.sale_price l' <> ProductLine.sale_price l ->
                row_target products lines r = Some i /\ is_Some (read_price r 16))
            /\ (row_target products lines r <> Some i -> l' = l)).
  { intros [= <-]. repeat split; congruence. }
  destruct (row_target products lines r) as [j|]; [|rewrite Hl; exact Hsame].
  destruct (lines !! j) as [lj|] eqn:Ej; [|rewrite Hl; exact Hsame].
  destruct (decide (j = i)) as [->|Hne].
  - rewrite list_lookup_insert_eq by (eapply lookup_lt_Some; eauto).
    assert (lj = l) as -> by congruence.
    intros [= <-]. simpl.
    repeat split; try reflexivity.
    + destruct (read_price r 15); [eauto|]. simpl in H. congruence.
    + destruct (read_price r 16); [eauto|]. simpl in H. congruence.
    + congruence.
  - rewrite list_lookup_insert_ne by assumption. rewrite Hl.
    intros [= <-]. repeat split; congruence.
Qed.

Lemma import_row_length products lines r :
  length (import_row products lines r) = length lines.
Proof.
  unfold ProjectEstimationImportWizard.import_row.
  destruct (row_target products lines r) as [j|]; [|reflexivity].
  destruct (lines !! j); [apply length_insert|reflexivity].
Qed.

(** The frame of the whole loop: a line keeps its product, quantity, weight
    and sequence; its cost price changes only by a row matched to it whose
    column P holds a number, its sale price only by a row matched to it
    whose column Q holds a number; a line no row is matched to is
    unchanged. *)
Lemma fold_import_frame products rows : forall lines,
  let lines' := fold_left (import_row products) rows lines in
  length lines' = length lines
  /\ forall i l l',
       lines !! i = Some l -> lines' !! i = Some l' ->
       ProductLine.product_id l' = ProductLine.product_id l
       /\ ProductLine.quantity l' = ProductLine.quantity l
       /\ ProductLine.weight l' = ProductLine.weight l
       /\ ProductLine.sequence l' = ProductLine.sequence l
       /\ (ProductLine.cost_price l' <> ProductLine.cost_price l ->
           exists r, In r rows /\ row_target products lines r = Some i
                     /\ is_Some (read_price r 15))
       /\ (ProductLine.sale_price l' <> ProductLine.sale_price l ->
           exists r, In r rows /\ row_target products lines r = Some i
                     /\ is_Some (read_price r 16))
       /\ ((forall r, In r rows -> row_target products lines r <> Some i) ->
           l' = l).
Proof.
  induction rows as [|r rows IH]; intros lines; simpl.
  - split; [reflexivity|]. intros i l l' Hl Hl'.
    assert (l' = l) as -> by congruence.
    repeat split; try congruence.
  - destruct (IH (import_row products lines r)) as [Hlen Hframe].
    split; [rewrite Hlen; apply import_row_length|].
    intros i l l' Hl Hl'.
    destruct (lookup_lt_is_Some_2 (import_row products lines r) i) as [m Hm].
    { rewrite import_row_length. eapply lookup_lt_Some; eauto. }
    destruct (import_row_frame products lines r i l m Hl Hm)
      as (A1 & A2 & A3 & A4 & A5 & A6 & A7).
    destruct (Hframe i m l' Hm Hl') as (B1 & B2 & B3 & B4 & B5 & B6 & B7).
    assert (Hst : forall r', row_target products (import_row products lines r) r'
                             = row_target products lines r').
    { intros r'. apply row_target_stable, import_row_products. }
    split; [congruence|]. split; [congruence|]. split; [congruence|].
    split; [congruence|]. split; [|split].
    + intros Hc.
      destruct (Qeq_dec_leibniz (ProductLine.cost_price m)
                  (ProductLine.cost_price l)) as [E|E].
      * rewrite <- E in Hc. destruct (B5 Hc) as (r' & Hin & Ht & Hp).
        exists r'. rewrite <- Hst. auto.
      * destruct (A5 E) as [Ht Hp]. exists r. auto.
    + intros Hc.
      destruct (Qeq_dec_leibniz (ProductLine.sale_price m)
                  (ProductLine.sale_price l)) as [E|E].
      * rewrite <- E in Hc. destruct (B6 Hc) as (r' & Hin & Ht & Hp).
        exists r'. rewrite <- Hst. auto.
      * destruct (A6 E) as [Ht Hp]. exists r. auto.
    + intros Hno. rewrite (B7 (fun r' Hin => ltac:(rewrite Hst; auto))).
      apply A7. auto.
Qed.

End Loop.

(** ** Text of the notification *)

Lemma append_nil_r (s : string) : (s ++ "")%string = s.
Proof. induction s as [|c s IH]; simpl; [reflexivity|rewrite IH; reflexivity]. Qed.

Lemma prefix_app (s t : string) : String.prefix s (s ++ t) = true.
Proof.
  induction s as [|c s IH]; simpl; [destruct t; reflexivity|].
  destruct (ascii_dec c c); [assumption|congruence].
Qed.

Lemma prefix_app_l (sub a b : string) :
  String.prefix sub a = true -> String.prefix sub (a ++ b) = true.
Proof.
  revert a. induction sub as [|c sub IH]; intros a; simpl.
  - intros _. destruct (a ++ b)%string; reflexivity.
  - destruct a as [|c' a]; simpl; [discriminate|].
    destruct (ascii_dec c c'); [apply IH|discriminate].
Qed.

Lemma contains_unfold (sub s : string) :
  Py.contains sub s
  = String.prefix sub s
    || match s with
       | EmptyString => false
       | String _ s' => Py.contains sub s'
       end.
Proof.
  destruct s; simpl;
    match goal with |- (if ?x then _ else _) = _ => destruct x; reflexivity end.
Qed.

Lemma contains_prefix (sub s : string) :
  String.prefix sub s = true -> Py.contains sub s = true.
Proof. intros H. rewrite contains_unfold, H. reflexivity. Qed.

Lemma contains_here (sub t : string) : Py.contains sub (sub ++ t) = true.
Proof. apply contains_prefix, prefix_app. Qed.

Lemma contains_app_r (sub a b : string) :
  Py.contains sub b = true -> Py.contains sub (a ++ b) = true.
Proof.
  intros H. induction a as [|c a IH]; [assumption|].
  change (String c a ++ b)%string with (String c (a ++ b)).
  rewrite contains_unfold, IH. apply orb_true_r.
Qed.

Lemma contains_app_l (sub a b : string) :
  Py.contains sub a = true -> Py.contains sub (a ++ b) = true.
Proof.
  induction a as [|c a IH]; rewrite contains_unfold; intros H.
  - rewrite orb_false_r in H. apply contains_prefix, prefix_app_l. assumption.
  - apply orb_true_iff in H as [H|H].
    + apply contains_prefix, prefix_app_l. assumption.
    + change (String c a ++ b)%string with (String c (a ++ b)).
      rewrite contains_unfold, (IH H). apply orb_true_r.
Qed.

Lemma contains_concat (sub : string) (l : list string) :
  In sub l -> Py.contains sub (String.concat "" l) = true.
Proof.
  induction l as [|x l IH]; [intros []|].
  intros [->|Hin].
  - destruct l; simpl; [|apply contains_here].
    rewrite <- (append_nil_r sub) at 2. apply contains_here.
  - destruct l as [|y l]; [destruct Hin|].
    change (String.concat "" (x :: y :: l))
      with (x ++ "" ++ String.concat "" (y :: l))%string.
    apply contains_app_r. simpl append. apply IH. assumption.
Qed.

Section Report.

Variable fmt_2f : Q -> string.

(** An error among the first five has its line in the summary. *)
Lemma summary_lists_error st e :
  In e (firstn 5 (errors st)) ->
  Py.contains (error_text e) (summary_of fmt_2f st) = true.
Proof.
  intros Hin. unfold summary_of.
  do 7 apply contains_app_r. apply contains_app_l.
  unfold errors_text.
  destruct (errors st) as [|e0 es] eqn:E; [destruct Hin|]. rewrite <- E in *.
  do 6 apply contains_app_r. apply contains_app_l.
  apply contains_concat. apply in_map. assumption.
Qed.

(** Past five errors the summary gives the number of the others. *)
Lemma summary_counts_errors st :
  5 < length (errors st) ->
  Py.contains ("... and " ++ Py.str_of_nat (length (errors st) - 5)
               ++ " more errors" ++ Py.nl)
              (summary_of fmt_2f st) = true.
Proof.
  intros Hlen. unfold summary_of.
  do 7 apply contains_app_r. apply contains_app_l.
  unfold errors_text.
  destruct (errors st) as [|e0 es] eqn:E; [simpl in Hlen; lia|]. rewrite <- E in *.
  do 7 apply contains_app_r.
  apply Nat.ltb_lt in Hlen. rewrite Hlen.
  rewrite <- (append_nil_r (_ ++ _ ++ _ ++ Py.nl)) at 2.
  apply contains_here.
Qed.

End Report.

(** ** The header and the whole import *)

Lemma rows_wide_or_short (rows : list row) :
  Forall (fun r => 2 <= length r) rows \/ Exists (fun r => length r < 2) rows.
Proof.
  induction rows as [|r rows [IH|IH]]; [left; constructor| |right; auto].
  destruct (le_lt_dec 2 (length r)); [left|right]; auto.
Qed.

Section Claims.

Variable py : Py.str_methods.
Variable str_float : Q -> string.
Variable float_of_string : string -> option Q.
Variable fmt_2f : Q -> string.
Variable load_workbook : string -> result workbook.
Variable openpyxl : bool.
Variable now : Z.

Local Abbreviation _find_product_line := (_find_product_line py).
Local Abbreviation data_rows := (data_rows py str_float).
Local Abbreviation import_row := (import_row py str_float float_of_string).
Local Abbreviation row_target := (row_target py str_float).
Local Abbreviation row_errors := (row_errors py str_float).
Local Abbreviation read_price := (read_price float_of_string).
Local Abbreviation find_header := (find_header py str_float).
Local Abbreviation is_header := (is_header py str_float).
Local Abbreviation _execute_import :=
  (_execute_import py str_float float_of_string fmt_2f now).
Local Abbreviation action_import_prices :=
  (action_import_prices py str_float float_of_string fmt_2f load_workbook
     openpyxl now).

(** The header found is the first row carrying the label. *)
Lemma find_header_spec rows : forall i,
  match find_header i rows with
  | Some h =>
      i <= h /\ h - i < length rows
      /\ (exists r, rows !! (h - i) = Some r /\ is_header r = true)
      /\ (forall k r, k < h - i -> rows !! k = Some r -> is_header r = false)
  | None => forall r, In r rows -> is_header r = false
  end.
Proof.
  induction rows as [|r rows IH]; intros i; simpl.
  - intros r [].
  - assert (Hnext : is_header r = false ->
              match find_header (S i) rows with
              | Some h =>
                  i <= h /\ h - i < S (length rows)
                  /\ (exists r0, (r :: rows) !! (h - i) = Some r0
                                 /\ is_header r0 = true)
                  /\ (forall k r0, k < h - i -> (r :: rows) !! k = Some r0 ->
                                   is_header r0 = false)
              | None => forall r0, r = r0 \/ In r0 rows -> is_header r0 = false
              end).
    { intros Hr. specialize (IH (S i)).
      destruct (find_header (S i) rows) as [h|].
      - destruct IH as (H1 & H2 & (r0 & H3 & H4) & H5).
        replace (h - i) with (S (h - S i)) by lia.
        split; [lia|]. split; [lia|]. split; [exists r0; auto|].
        intros [|k] r1 Hk Hr1; simpl in Hr1; [congruence|].
        apply (H5 k); [lia|assumption].
      - intros r0 [<-|Hin]; auto. }
    destruct r as [|a tl]; [apply Hnext; reflexivity|].
    destruct (stripped py str_float a =? "Product Code")%string eqn:Ea.
    + replace (i - i) with 0 by lia. split; [lia|]. split; [simpl; lia|].
      split; [exists (a :: tl); simpl; auto|]. intros k r Hk. lia.
    + apply Hnext. simpl. exact Ea.
Qed.

(** The end of the import on a project that exists. *)
Lemma finish_import_run self st d p :
  projects d !! project_id self = Some p ->
  match estimations d !! estimation_id self with
  | None => finish_import fmt_2f now self st d = Raise MissingError
  | Some _ =>
      exists d' m,
        finish_import fmt_2f now self st d = Ok (notification_of fmt_2f st, d')
        /\ projects d'
           = <[project_id self := ProjectDefinition.add_message m p]> (projects d)
  end.
Proof.
  intros Hp.
  destruct (estimations d !! estimation_id self) as [e|] eqn:Ee.
  - unfold finish_import, bind, estimation_write, estimation_name.
    rewrite Ee. simpl estimations.
    rewrite list_lookup_insert_eq by (eapply lookup_lt_Some; eauto).
    erewrite ProjectDefinitionFacts.message_post_run by exact Hp.
    eexists _, _. split; reflexivity.
  - unfold finish_import, bind, estimation_write. rewrite Ee. reflexivity.
Qed.

(** What [_execute_import] does on a project that exists: it raises, or
    it returns the notification of the tally of the loop, and the project
    has the lines obtained from the data rows and one more message. *)
Lemma _execute_import_cases self ws start d p :
  projects d !! project_id self = Some p ->
  let rows := data_rows (skipn (start - 1) ws) in
  let lines := Project.product_line_ids p in
  let lines' := fold_left (import_row (product d)) rows lines in
  (exists e, _execute_import self ws start d = Raise e)
  \/ (exists st d' m,
        _execute_import self ws start d = Ok (notification_of fmt_2f st, d')
        /\ projects d'
           = <[project_id self :=
                 ProjectDefinition.add_message m
                   (ProjectDefinition.set_product_line_ids lines' p)]>
               (projects d)
        /\ errors st = row_errors (product d) lines start rows
        /\ Forall (fun r => 2 <= length r) rows
        /\ is_Some (estimations d !! estimation_id self)).
Proof.
  intros Hp rows lines lines'.
  destruct (rows_wide_or_short rows) as [Hall|Hex].
  - destruct (import_rows_run py str_float float_of_string self
                (skipn (start - 1) ws) start (Tally [] 0 [] 0) d p Hp Hall)
      as (st & Hrun & Herr).
    fold rows lines lines' in Hrun, Herr.
    set (p1 := ProjectDefinition.set_product_line_ids lines' p) in *.
    set (d1 := set_projects (<[project_id self := p1]> (projects d)) d) in *.
    assert (Hp1 : projects d1 !! project_id self = Some p1).
    { simpl. apply list_lookup_insert_eq. eapply lookup_lt_Some; eauto. }
    assert (Hx : _execute_import self ws start d
                 = finish_import fmt_2f now self st d1).
    { unfold ProjectEstimationImportWizard._execute_import, bind.
      rewrite Hrun. reflexivity. }
    rewrite Hx.
    pose proof (finish_import_run self st d1 p1 Hp1) as Hfin.
    change (estimations d1) with (estimations d) in Hfin.
    destruct (estimations d !! estimation_id self) as [e|] eqn:Ee.
    + right. destruct Hfin as (d' & m & Hf & Hps).
      exists st, d', m. split; [exact Hf|].
      split; [rewrite Hps; simpl; apply list_insert_insert_eq|].
      split; [exact Herr|]. split; [exact Hall|eauto].
    + left. eexists; exact Hfin.
  - left. exists IndexError.
    unfold ProjectEstimationImportWizard._execute_import, bind.
    erewrite import_rows_short; [reflexivity|exact Hp|exact Hex].
Qed.

(** It returns when the estimation exists and every data row has a name
    column. *)
Lemma _execute_import_run self ws start d p e :
  projects d !! project_id self = Some p ->
  estimations d !! estimation_id self = Some e ->
  let rows := data_rows (skipn (start - 1) ws) in
  let lines := Project.product_line_ids p in
  let lines' := fold_left (import_row (product d)) rows lines in
  Forall (fun r => 2 <= length r) rows ->
  exists st d' m,
    _execute_import self ws start d = Ok (notification_of fmt_2f st, d')
    /\ projects d'
       = <[project_id self :=
             ProjectDefinition.add_message m
               (ProjectDefinition.set_product_line_ids lines' p)]>
           (projects d)
    /\ errors st = row_errors (product d) lines start rows.
Proof.
  intros Hp He rows lines lines' Hall.
  destruct (_execute_import_cases self ws start d p Hp)
    as [[x Hx]|(st & d' & m & H1 & H2 & H3 & _)].
  - exfalso. revert Hx.
    unfold ProjectEstimationImportWizard._execute_import, bind.
    destruct (import_rows_run py str_float float_of_string self
                (skipn (start - 1) ws) start (Tally [] 0 [] 0) d p Hp Hall)
      as (st & Hrun & _).
    rewrite Hrun.
    match goal with
    | |- finish_import _ _ _ _ ?d1 = _ -> _ =>
        pose proof (finish_import_run self st d1
                      (ProjectDefinition.set_product_line_ids lines' p)) as Hfin
    end.
    simpl estimations in Hfin. rewrite He in Hfin.
    destruct Hfin as (d' & m & Hf & _).
    { simpl. apply list_lookup_insert_eq. eapply lookup_lt_Some; eauto. }
    rewrite Hf. discriminate.
  - exists st, d', m. auto.
Qed.

Lemma row_errors_In products lines rows : forall idx k r e,
  rows !! k = Some r ->
  row_error py str_float products lines (idx + k) r = Some e ->
  In e (row_errors products lines idx rows).
Proof.
  induction rows as [|r0 rows IH]; intros idx k r e Hk He; [discriminate|].
  simpl. destruct k as [|k]; simpl in Hk.
  - injection Hk as ->. rewrite Nat.add_0_r in He. rewrite He. left; reflexivity.
  - replace (idx + S k) with (S idx + k) in He by lia.
    specialize (IH (S idx) k r e Hk He).
    destruct (row_error py str_float products lines idx r0); [right|]; assumption.
Qed.

(** C10: whatever the worksheet, and whether the import returns or
    raises, after the transaction every product line of the project has
    its product, quantity, weight and sequence as before; its cost price
    differs only if a data row matched to it has a number in column P, its
    sale price only if a data row matched to it has a number in column Q;
    a line no data row is matched to is unchanged, and so are the lines of
    the other projects. *)
Theorem import_writes_prices_only self ws start d p :
  projects d !! project_id self = Some p ->
  let rows := data_rows (skipn (start - 1) ws) in
  let lines := Project.product_line_ids p in
  let d' := (transaction (_execute_import self ws start) d).1 in
  (forall j, j <> project_id self -> projects d' !! j = projects d !! j)
  /\ exists p',
       projects d' !! project_id self = Some p'
       /\ length (Project.product_line_ids p') = length lines
       /\ forall i l l',
            lines !! i = Some l ->
            Project.product_line_ids p' !! i = Some l' ->
            ProductLine.product_id l' = ProductLine.product_id l
            /\ ProductLine.quantity l' = ProductLine.quantity l
            /\ ProductLine.weight l' = ProductLine.weight l
            /\ ProductLine.sequence l' = ProductLine.sequence l
            /\ (ProductLine.cost_price l' <> ProductLine.cost_price l ->
                exists r, In r rows /\ row_target (product d) lines r = Some i
                          /\ is_Some (read_price r 15))
            /\ (ProductLine.sale_price l' <> ProductLine.sale_price l ->
                exists r, In r rows /\ row_target (product d) lines r = Some i
                          /\ is_Some (read_price r 16))
            /\ ((forall r, In r rows ->
                           row_target (product d) lines r <> Some i) ->
                l' = l).
Proof.
  intros Hp rows lines d'. subst d'. unfold transaction.
  destruct (_execute_import_cases self ws start d p Hp)
    as [[x Hx]|(st & d1 & m & Hx & Hps & _)]; rewrite Hx; simpl.
  - split; [reflexivity|]. exists p. split; [assumption|]. split; [reflexivity|].
    intros i l l' Hl Hl'. assert (l' = l) as -> by (fold lines in Hl'; congruence).
    repeat split; congruence.
  - split.
    { intros j Hj. rewrite Hps. apply list_lookup_insert_ne. congruence. }
    eexists. split.
    { rewrite Hps. apply list_lookup_insert_eq. eapply lookup_lt_Some; eauto. }
    simpl.
    destruct (fold_import_frame py str_float float_of_string (product d)
                rows lines) as [Hlen Hframe].
    split; [exact Hlen|exact Hframe].
Qed.

(** The header test and the stop test, spelled out. *)
Lemma is_header_spec (r : row) :
  is_header r = true
  <-> exists a tl,
        r = a :: tl /\ cell_truthy a = true
        /\ Py.str_strip py (cell_str str_float a) = "Product Code"%string.
Proof.
  unfold ProjectEstimationImportWizard.is_header, stripped.
  destruct r as [|a tl].
  - split; [discriminate|]. intros (a & tl & H & _). discriminate.
  - rewrite String.eqb_eq. destruct (cell_truthy a) eqn:Ea.
    + split.
      * intros H. exists a, tl. auto.
      * intros (a' & tl' & [= <- <-] & _ & H). exact H.
    + split; [discriminate|].
      intros (a' & tl' & [= <- <-] & H & _). congruence.
Qed.

Lemma stops_spec (r : row) :
  stops py str_float r = true
  <-> r = []
      \/ exists a tl,
           r = a :: tl
           /\ (cell_truthy a = false
               \/ Py.str_upper py (Py.str_strip py (cell_str str_float a))
                  = "TOTAL"%string).
Proof.
  unfold stops, stripped. destruct r as [|a tl].
  - split; auto.
  - rewrite orb_true_iff, negb_true_iff, String.eqb_eq.
    destruct (cell_truthy a) eqn:Ea.
    + split.
      * intros [H|H]; [discriminate|]. right. exists a, tl. auto.
      * intros [H|(a' & tl' & [= <- <-] & [H|H])];
          [discriminate|congruence|auto].
    + split.
      * intros _. right. exists a, tl. auto.
      * intros _. auto.
Qed.

(** The rows processed are the rows before the first one that stops the
    loop. *)
Lemma data_rows_spec (rows : list row) :
  exists rest,
    rows = data_rows rows ++ rest
    /\ Forall (fun r => stops py str_float r = false) (data_rows rows)
    /\ match rest with
       | [] => True
       | r :: _ => stops py str_float r = true
       end.
Proof.
  induction rows as [|r rows (rest & H1 & H2 & H3)]; simpl.
  - exists []. auto.
  - destruct (stops py str_float r) eqn:Es.
    + exists (r :: rows). auto.
    + exists rest. simpl. split; [congruence|]. split; [|exact H3].
      constructor; assumption.
Qed.


End Claims.

Import ImportScenario.

Local Abbreviation str := WizardScenario.str_float.
Local Abbreviation execute :=
  (_execute_import Py.ascii_methods str float_of_string str now).
Local Abbreviation import_prices ws :=
  (action_import_prices Py.ascii_methods str float_of_string str (load ws) true now).

Lemma sheet_ok_rows_wide :
  Forall (fun r : row => 2 <= length r) (data_rows Py.ascii_methods str (skipn (3 - 1) sheet_ok)).
Proof. repeat constructor; simpl; lia. Qed.

Lemma import_writes_prices_only_witness :
  projects (transaction (execute wizard sheet_ok 3) start).1 !! 1
  = projects start !! 1
  /\ exists p',
       projects (transaction (execute wizard sheet_ok 3) start).1 !! 0
       = Some p'
       /\ length (Project.product_line_ids p')
          = length (Project.product_line_ids project).
Proof.
  pose proof (import_writes_prices_only Py.ascii_methods str float_of_string str now
                wizard sheet_ok 3 start project eq_refl) as H.
  cbv zeta in H. destruct H as [Hother (p' & Hp & Hlen & _)].
  split; [apply Hother; vm_compute; discriminate|].
  exists p'. split; assumption.
Defined.




(** The import of the first sheet, evaluated. *)
Example import_sheet_ok :
  match import_prices sheet_ok wizard start with
  | Ok (_, d') =>
      p' ← projects d' !! 0;
      Some (map (fun l => (ProductLine.cost_price l, ProductLine.sale_price l))
                (Project.product_line_ids p'))
  | Raise _ => None
  end = Some [(120, 361 # 2); (100, 90); (100, 150)]%Q.
Proof. vm_compute. reflexivity. Qed.

End ProjectEstimationImportWizardFacts.


(* ===================================================================== *)
(** * Properties of the automatic material issuing *)
(* ===================================================================== *)

Module WorkOrderExecutionFacts.

Import WorkOrderExecution.

Section Facts.

Variable World : Type.
Variable production_state : World -> nat -> Production.state_t.
Variable production_name : World -> nat -> string.
Variable move_raw_ids : World -> nat -> list nat.
Variable state_of_move : World -> nat -> move_state.
Variable product_name : World -> nat -> string.
Variable product_uom_qty : World -> nat -> Q.
Variable qty_available : World -> nat -> Q.
Variable move_line_ids : World -> nat -> list nat.
Variable quantity : World -> nat -> Q.
Variable qty_done : World -> nat -> Q.
Variable reserved_qty : World -> nat -> Q.
Variable has_quantity : bool.
Variable action_confirm : nat -> World -> option exn * World.
Variable action_assign : nat -> World -> option exn * World.
Variable _action_assign : nat -> World -> option exn * World.
Variable _action_done : nat -> World -> option exn * World.
Variable set_quantity : nat -> Q -> World -> option exn * World.
Variable set_qty_done : nat -> Q -> World -> option exn * World.

Local Abbreviation issue_assigned :=
  (issue_assigned World move_line_ids quantity qty_done reserved_qty
     has_quantity _action_assign _action_done set_quantity set_qty_done).
Local Abbreviation issue_forced :=
  (issue_forced World state_of_move move_line_ids quantity reserved_qty
     has_quantity _action_assign _action_done set_quantity set_qty_done).
Local Abbreviation issue_move :=
  (issue_move World state_of_move product_name product_uom_qty qty_available
     move_line_ids quantity qty_done reserved_qty has_quantity _action_assign
     _action_done set_quantity set_qty_done).
Local Abbreviation issue_moves :=
  (issue_moves World production_name state_of_move product_name
     product_uom_qty qty_available move_line_ids quantity qty_done
     reserved_qty has_quantity _action_assign _action_done set_quantity
     set_qty_done).
Local Abbreviation prepare :=
  (prepare World production_state production_name action_confirm
     action_assign).
Local Abbreviation pending_moves :=
  (pending_moves World move_raw_ids state_of_move).
Local Abbreviation _auto_issue_materials :=
  (_auto_issue_materials World production_state production_name move_raw_ids
     state_of_move product_name product_uom_qty qty_available move_line_ids
     quantity qty_done reserved_qty has_quantity action_confirm action_assign
     _action_assign _action_done set_quantity set_qty_done).

(** A computation that returns has run its two parts in turn. *)
Lemma wbind_Ok {A B} (m : W World A) (k : A -> W World B) s b s' :
  wbind World m k s = (Ok b, s') ->
  exists a s1, m s = (Ok a, s1) /\ k a s1 = (Ok b, s').
Proof.
  unfold wbind. destruct (m s) as [[a|e] s1]; [eauto|discriminate].
Qed.

Lemma read_Ok {A} (f : World -> A) s a s' :
  read World f s = (Ok a, s') -> a = f (world World s) /\ s' = s.
Proof. unfold read. intros [= <- <-]. auto. Qed.

(** A guarded block whose handler logs and gives back the count returns,
    with whatever count its body returned. *)
Lemma try_counts (m : W World nat) (line : exn -> string) (c : nat) s :
  (forall a s', m s = (Ok a, s') -> c <= a <= S c) ->
  exists n s',
    try_except World m
      (fun e => wbind World (log_line World (line e)) (fun _ => wret World c)) s
    = (Ok n, s')
    /\ c <= n <= S c.
Proof.
  intros Hm. unfold try_except.
  destruct (m s) as [[a|e] s1] eqn:E.
  - exists a, s1. split; [reflexivity|]. eapply Hm; reflexivity.
  - eexists c, _. split; [reflexivity|lia].
Qed.

Lemma issue_assigned_count move c s a s' :
  issue_assigned move c s = (Ok a, s') -> c <= a <= S c.
Proof.
  unfold WorkOrderExecution.issue_assigned. intros H.
  apply wbind_Ok in H as (lines & s1 & _ & H).
  apply wbind_Ok in H as (u & s2 & _ & H).
  apply wbind_Ok in H as (lines' & s3 & _ & H).
  destruct lines' as [|l ls]; [injection H as <- _; lia|].
  apply wbind_Ok in H as (total & s4 & _ & H).
  destruct (Py.gt total 0); [|injection H as <- _; lia].
  apply wbind_Ok in H as (u' & s5 & _ & H). injection H as <- _. lia.
Qed.

Lemma issue_forced_count move c s a s' :
  issue_forced move c s = (Ok a, s') -> c <= a <= S c.
Proof.
  unfold WorkOrderExecution.issue_forced. intros H.
  apply wbind_Ok in H as (u & s1 & _ & H).
  apply wbind_Ok in H as (ms & s2 & _ & H).
  apply wbind_Ok in H as (lines & s3 & _ & H).
  destruct lines as [|l ls]; [injection H as <- _; lia|].
  destruct (is_assigned ms); [|injection H as <- _; lia].
  apply wbind_Ok in H as (u1 & s4 & _ & H).
  apply wbind_Ok in H as (u2 & s5 & _ & H). injection H as <- _. lia.
Qed.

(** The reservation of a move that is not assigned returns, raise or
    not. *)
Lemma reserve_returns (b : bool) move (line : exn -> string) s :
  exists s',
    (if b
     then try_except World (call World (_action_assign move))
            (fun e => log_line World (line e))
     else wret World tt) s = (Ok tt, s').
Proof.
  destruct b; [|eexists; reflexivity].
  unfold try_except, call.
  destruct (_action_assign move (world World s)) as [[e|] w];
    eexists; reflexivity.
Qed.

(** One move: the body returns, and counts the move at most once. *)
Lemma issue_move_returns production move c s :
  exists n s', issue_move production move c s = (Ok n, s') /\ c <= n <= S c.
Proof.
  unfold WorkOrderExecution.issue_move, wbind at 1, read at 1.
  destruct (move_closed _); [exists c, s; split; [reflexivity|lia]|].
  unfold wbind at 1, read at 1. unfold wbind at 1, read at 1.
  unfold wbind at 1, read at 1. unfold wbind at 1.
  match goal with
  | |- context [(if negb ?b then try_except _ _ (fun e => log_line _ (@?l e))
                 else _) s] =>
      destruct (reserve_returns (negb b) move l s) as [s1 Hr]
  end.
  rewrite Hr. unfold wbind at 1, read at 1.
  destruct (is_assigned (state_of_move (world World s1) move)).
  - apply try_counts. apply issue_assigned_count.
  - destruct (Py.ge _ _).
    + apply try_counts. apply issue_forced_count.
    + exists c, s1. split; [reflexivity|lia].
Qed.

(** The loop returns, and counts no more than the moves it is given. *)
Lemma issue_moves_returns production moves : forall c s,
  exists n s',
    issue_moves production moves c s = (Ok n, s') /\ c <= n <= c + length moves.
Proof.
  induction moves as [|move rest IH]; intros c s; simpl.
  - exists c, s. split; [reflexivity|lia].
  - destruct (issue_move_returns production move c s) as (n1 & s1 & H1 & Hn1).
    unfold wbind at 1, try_except. rewrite H1.
    destruct (IH n1 s1) as (n & s' & H & Hn).
    exists n, s'. split; [exact H|lia].
Qed.

(** The preparation returns; it gives false exactly for a draft order whose
    confirmation raises, and then logs the failure. *)
Lemma prepare_returns production s :
  match production_state (world World s) production,
        action_confirm production (world World s) with
  | Production.draft, (Some e, w) =>
      prepare production s
      = (Ok false,
         St World w
            (log World s
             ++ [("Could not confirm production "
                  ++ production_name (world World s) production ++ ": "
                  ++ exn_str e)%string]))
  | _, _ => exists s1, prepare production s = (Ok true, s1)
  end.
Proof.
  unfold WorkOrderExecution.prepare, wbind, read, try_except, call, wret,
    log_line.
  destruct (production_state (world World s) production) eqn:Es; simpl;
    try rewrite Es;
    try (destruct (action_assign production (world World s)) as [[?|] ?];
         eexists; reflexivity);
    try (eexists; reflexivity).
  destruct (action_confirm production (world World s)) as [[e|] w]; simpl;
    [reflexivity|].
  destruct (production_state w production); simpl;
    try (eexists; reflexivity);
    destruct (action_assign production w) as [[?|] ?]; eexists; reflexivity.
Qed.


End Facts.

Import IssueScenario.


(** A draft order that can be confirmed: its two moves are reserved and
    validated. *)
Example auto_issue_scenario :
  fst (issue (World Production.draft [confirmed; confirmed] true)) = Ok (2, 2)
  /\ fst (issue (World Production.confirmed [assigned; done; cancel] true))
     = Ok (1, 1).
Proof. split; vm_compute; reflexivity. Qed.

End WorkOrderExecutionFacts.

(* ===================================================================== *)
(** * Further properties of the project lifecycle *)
(* ===================================================================== *)

Module ProjectLifecycleFacts.

Import Project ProjectDefinition ProjectLifecycle ProjectDefinitionFacts.

Section Run.

Variable ilike : string -> string -> bool.

(** The automatic update as one step: the move selected by the related
    records is carried out when it changes the state. *)
Lemma _auto_update_state_run self d p :
  projects d !! self = Some p ->
  _auto_update_state ilike self d
  = Ok (tt,
        if negb (auto_update_state p) then d
        else match state p with
             | done | cancelled => d
             | _ =>
                 let s := target (selected_move ilike d self (name p)) (state p) in
                 if state_eqb s (state p) then d
                 else set_projects
                        (<[self := moved s (note_of s) (subtype_of s) p]>
                           (projects d)) d
             end).
Proof.
  intros Hp. unfold _auto_update_state, bind at 1, browse. rewrite Hp.
  destruct (auto_update_state p); [|reflexivity].
  cbv beta iota zeta delta [negb].
  unfold selected_move.
  destruct (state p) eqn:Es; try reflexivity; unfold bind, get; cbv zeta;
    repeat match goal with
           | |- context [nonempty ?x && ?c] => destruct (nonempty x && c)
           end;
    cbv beta iota zeta delta [andb target];
    rewrite ?(_move_to_done_run _ _ _ Hp), ?(_move_to_processing_run _ _ _ Hp),
            ?(_move_to_planning_run _ _ _ Hp), ?(_move_to_pricing_run _ _ _ Hp),
            ?Es; reflexivity.
Qed.

(** The records the selection reads are those of four tables. *)
Lemma selected_move_set_projects ps d self name :
  selected_move ilike (set_projects ps d) self name
  = selected_move ilike d self name.
Proof. reflexivity. Qed.

Lemma target_idempotent m s : target m (target m s) = target m s.
Proof. destruct m, s; reflexivity. Qed.

Lemma state_eqb_refl s : state_eqb s s = true.
Proof. destruct s; reflexivity. Qed.

Lemma state_eqb_eq a b : state_eqb a b = true <-> a = b.
Proof. destruct a, b; simpl; split; congruence. Qed.

Lemma target_ahead m s :
  s <> done -> s <> cancelled -> target m s <> s -> ahead s (target m s).
Proof.
  intros Hd Hc Hne.
  destruct m, s; simpl in *; try congruence; unfold ahead; simpl; lia.
Qed.

Lemma lookup_insert_same self (d : db) p :
  projects d !! self = Some p ->
  set_projects (<[self := p]> (projects d)) d = d.
Proof.
  intros Hp. rewrite (list_insert_id _ _ _ Hp). apply set_projects_same.
Qed.

(** The state after an automatic update of a project that updates itself
    and is not cancelled. *)
Lemma _auto_update_state_target self d p :
  projects d !! self = Some p ->
  auto_update_state p = true ->
  state p <> cancelled ->
  exists d' p',
    _auto_update_state ilike self d = Ok (tt, d')
    /\ d' = set_projects (<[self := p']> (projects d)) d
    /\ projects d' !! self = Some p'
    /\ state p' = target (selected_move ilike d self (name p)) (state p).
Proof.
  intros Hp Ha Hc. rewrite (_auto_update_state_run _ _ _ Hp), Ha.
  cbv beta iota zeta delta [negb].
  set (m := selected_move ilike d self (name p)).
  assert (Hsame : exists d' p', Ok (tt, d) = Ok (tt, d')
                    /\ d' = set_projects (<[self := p']> (projects d)) d
                    /\ projects d' !! self = Some p'
                    /\ state p' = state p).
  { exists d, p. split; [reflexivity|]. split; [|auto].
    symmetry. apply lookup_insert_same. assumption. }
  assert (Hgo : forall s,
             s = target m (state p) ->
             exists d' p',
               Ok (tt, if state_eqb s (state p) then d
                       else set_projects
                              (<[self := moved s (note_of s) (subtype_of s) p]>
                                 (projects d)) d) = Ok (tt, d')
               /\ d' = set_projects (<[self := p']> (projects d)) d
               /\ projects d' !! self = Some p'
               /\ state p' = target m (state p)).
  { intros s ->. destruct (state_eqb (target m (state p)) (state p)) eqn:E.
    - apply state_eqb_eq in E. destruct Hsame as (d' & p' & H1 & H2 & H3 & H4).
      exists d', p'. rewrite E. auto.
    - set (s := target m (state p)).
      exists (set_projects
                (<[self := moved s (note_of s) (subtype_of s) p]> (projects d)) d),
             (moved s (note_of s) (subtype_of s) p).
      split; [reflexivity|]. split; [reflexivity|]. split; [|reflexivity].
      simpl. apply list_lookup_insert_eq. eapply lookup_lt_Some; eauto. }
  destruct (state p) eqn:Es; try congruence; try (apply Hgo; reflexivity).
  destruct Hsame as (d' & p' & H1 & H2 & H3 & H4). exists d', p'.
  split; [assumption|]. split; [assumption|]. split; [assumption|].
  rewrite H4. destruct m; reflexivity.
Qed.

(** A search that finds a record passing [f]. *)
Lemma search_any {A} (sel f : A -> bool) (l : list A) :
  (exists x, In x l /\ sel x = true /\ f x = true) ->
  nonempty (List.filter sel l) && existsb f (List.filter sel l) = true.
Proof.
  intros (x & Hx & Hs & Hf).
  assert (Hin : In x (List.filter sel l)) by (apply List.filter_In; auto).
  apply andb_true_intro; split.
  - destruct (List.filter sel l); [destruct Hin|reflexivity].
  - apply existsb_exists. exists x; auto.
Qed.

(** A search none of whose results passes [f]. *)
Lemma search_no {A} (sel f : A -> bool) (l : list A) :
  (forall x, In x l -> sel x = true -> f x = false) ->
  nonempty (List.filter sel l) && existsb f (List.filter sel l) = false.
Proof.
  intros H. apply andb_false_iff. right.
  apply not_true_is_false. intros E. apply existsb_exists in E as (x & Hx & Hf).
  apply List.filter_In in Hx as [Hx Hs]. rewrite (H x Hx Hs) in Hf. discriminate.
Qed.

Lemma search_not_all {A} (sel f : A -> bool) (l : list A) :
  (forall x, In x l -> sel x = true -> f x = false) ->
  nonempty (List.filter sel l) && forallb f (List.filter sel l) = false.
Proof.
  intros H.
  destruct (List.filter sel l) as [|x rest] eqn:E; [reflexivity|].
  assert (Hin : In x (List.filter sel l)) by (rewrite E; left; reflexivity).
  apply List.filter_In in Hin as [Hx Hs]. simpl. rewrite (H x Hx Hs). reflexivity.
Qed.

(** When everything is done the update completes the project. *)
Lemma _auto_update_state_done self d p :
  projects d !! self = Some p ->
  auto_update_state p = true ->
  state p <> done -> state p <> cancelled ->
  (exists e, In e (executions d) /\ Execution.project_id e = self) ->
  (forall e, In e (executions d) -> Execution.project_id e = self ->
             Execution.state e = Execution.done) ->
  (exists r, In r (plannings d) /\ Planning.project_id r = self) ->
  (forall r, In r (plannings d) -> Planning.project_id r = self ->
             Planning.state r = Planning.done) ->
  (exists r o, In r (productions d) /\ Production.origin r = Some o
               /\ ilike o (name p) = true) ->
  (forall r o, In r (productions d) -> Production.origin r = Some o ->
               ilike o (name p) = true ->
               Production.state r = Production.done) ->
  _auto_update_state ilike self d
  = Ok (tt, set_projects
              (<[self := moved done note_done "mail.mt_comment" p]>
                 (projects d)) d).
Proof.
  intros Hp Hauto Hnd Hnc [e [He1 He2]] Hex [r [Hr1 Hr2]] Hpl
         (q & o & Hq1 & Hq2 & Hq3) Hpr.
  rewrite (_auto_update_state_run _ _ _ Hp), Hauto.
  assert (E : selected_move ilike d self (name p) = to_done).
  { unfold selected_move, search_plannings, search_executions,
      search_productions.
    rewrite (search_all _ exe_done (executions d)).
    2:{ exists e; split; [assumption|]. apply Nat.eqb_eq; assumption. }
    2:{ intros x Hx Hs. apply Nat.eqb_eq in Hs. unfold exe_done.
        rewrite (Hex x Hx Hs). reflexivity. }
    rewrite (search_all _ plan_done (plannings d)).
    2:{ exists r; split; [assumption|]. apply Nat.eqb_eq; assumption. }
    2:{ intros x Hx Hs. apply Nat.eqb_eq in Hs. unfold plan_done.
        rewrite (Hpl x Hx Hs). reflexivity. }
    rewrite (search_all _ prod_done (productions d)).
    2:{ exists q; split; [assumption|]. rewrite Hq2. assumption. }
    2:{ intros x Hx Hs.
        destruct (Production.origin x) as [o'|] eqn:Eo; [|discriminate].
        unfold prod_done. rewrite (Hpr x o' Hx Eo Hs). reflexivity. }
    reflexivity. }
  rewrite E. destruct (state p); try congruence; reflexivity.
Qed.

(** X1: the automatic update of an existing project returns, and changes
    nothing but the state and the chatter of that project: either the
    database is as before, or the state is strictly further in the order
    of the stages and exactly one message, the note of the new stage, is
    appended to the chatter. *)
Theorem auto_update_posts_one_note self d p :
  projects d !! self = Some p ->
  exists d' p',
    _auto_update_state ilike self d = Ok (tt, d')
    /\ d' = set_projects (<[self := p']> (projects d)) d
    /\ p' = Make (name p) (project_name p) (partner_id p) (start_date p)
                 (end_date p) (state p') (product_line_ids p) (notes p)
                 (auto_update_state p) (message_ids p')
    /\ ((state p' = state p /\ message_ids p' = message_ids p)
        \/ (ahead (state p) (state p')
            /\ message_ids p'
               = message_ids p
                 ++ [Message.Make (note_of (state p')) None
                                  (Some (subtype_of (state p')))])).
Proof.
  intros Hp. rewrite (_auto_update_state_run _ _ _ Hp).
  assert (Hsame : exists d' p',
             Ok (tt, d) = Ok (tt, d')
             /\ d' = set_projects (<[self := p']> (projects d)) d
             /\ p' = Make (name p) (project_name p) (partner_id p) (start_date p)
                          (end_date p) (state p') (product_line_ids p) (notes p)
                          (auto_update_state p) (message_ids p')
             /\ ((state p' = state p /\ message_ids p' = message_ids p)
                 \/ (ahead (state p) (state p')
                     /\ message_ids p'
                        = message_ids p
                          ++ [Message.Make (note_of (state p')) None
                                           (Some (subtype_of (state p')))]))).
  { exists d, p. split; [reflexivity|]. split.
    - symmetry. apply lookup_insert_same. assumption.
    - split; [destruct p; reflexivity|]. left; auto. }
  destruct (negb (auto_update_state p)); [exact Hsame|].
  set (m := selected_move ilike d self (name p)).
  assert (Hgo : state p <> done -> state p <> cancelled ->
             exists d' p',
               Ok (tt, let s := target m (state p) in
                       if state_eqb s (state p) then d
                       else set_projects
                              (<[self := moved s (note_of s) (subtype_of s) p]>
                                 (projects d)) d) = Ok (tt, d')
               /\ d' = set_projects (<[self := p']> (projects d)) d
               /\ p' = Make (name p) (project_name p) (partner_id p)
                            (start_date p) (end_date p) (state p')
                            (product_line_ids p) (notes p)
                            (auto_update_state p) (message_ids p')
               /\ ((state p' = state p /\ message_ids p' = message_ids p)
                   \/ (ahead (state p) (state p')
                       /\ message_ids p'
                          = message_ids p
                            ++ [Message.Make (note_of (state p')) None
                                             (Some (subtype_of (state p')))]))).
  { intros Hd Hc. cbv zeta.
    destruct (state_eqb (target m (state p)) (state p)) eqn:E; [exact Hsame|].
    set (s := target m (state p)).
    exists (set_projects
              (<[self := moved s (note_of s) (subtype_of s) p]> (projects d)) d),
           (moved s (note_of s) (subtype_of s) p).
    split; [reflexivity|]. split; [reflexivity|]. split; [reflexivity|].
    right. split; [|reflexivity].
    simpl. apply target_ahead; try assumption.
    intros Heq. unfold s in Heq. rewrite Heq, state_eqb_refl in E. discriminate. }
  destruct (state p) eqn:Es; try exact Hsame; apply Hgo; congruence.
Qed.

(** X2: the automatic update is idempotent: run again right after itself,
    it returns with the database as the first run left it, so no second
    note is posted. *)
Theorem auto_update_idempotent self d p :
  projects d !! self = Some p ->
  exists d',
    _auto_update_state ilike self d = Ok (tt, d')
    /\ _auto_update_state ilike self d' = Ok (tt, d').
Proof.
  intros Hp. rewrite (_auto_update_state_run _ _ _ Hp).
  assert (Hsame : _auto_update_state ilike self d = Ok (tt, d) ->
                  exists d', Ok (tt, d) = Ok (tt, d')
                             /\ _auto_update_state ilike self d' = Ok (tt, d'))
    by (intros H; exists d; auto).
  pose proof (_auto_update_state_run _ _ _ Hp) as Hrun.
  destruct (negb (auto_update_state p)) eqn:Ea; [exact (Hsame Hrun)|].
  set (m := selected_move ilike d self (name p)) in *.
  assert (Hgo : state p <> done -> state p <> cancelled ->
             exists d',
               Ok (tt, let s := target m (state p) in
                       if state_eqb s (state p) then d
                       else set_projects
                              (<[self := moved s (note_of s) (subtype_of s) p]>
                                 (projects d)) d) = Ok (tt, d')
               /\ _auto_update_state ilike self d' = Ok (tt, d')).
  { intros Hd Hc. cbv zeta.
    destruct (state_eqb (target m (state p)) (state p)) eqn:E.
    - apply Hsame. rewrite Hrun.
      destruct (state p); try reflexivity; cbv zeta; rewrite E; reflexivity.
    - set (s := target m (state p)) in *.
      set (p' := moved s (note_of s) (subtype_of s) p).
      set (d' := set_projects (<[self := p']> (projects d)) d).
      exists d'. split; [reflexivity|].
      assert (Hp' : projects d' !! self = Some p').
      { simpl. apply list_lookup_insert_eq. eapply lookup_lt_Some; eauto. }
      rewrite (_auto_update_state_run _ _ _ Hp').
      change (auto_update_state p') with (auto_update_state p). rewrite Ea.
      change (state p') with s. change (name p') with (name p).
      unfold d'. rewrite selected_move_set_projects. fold m. fold d'.
      assert (Hs : target m s = s) by apply target_idempotent.
      destruct s eqn:Es'; try reflexivity; cbv zeta;
        rewrite Hs; reflexivity. }
  destruct (state p) eqn:Es; try exact (Hsame Hrun); apply Hgo; congruence.
Qed.

(** The stage the selected move reaches at least. *)
Lemma target_floor_pricing d self name s :
  s <> cancelled ->
  (exists r, In r (pricings d) /\ Pricing.project_id r = self
             /\ Pricing.state r <> Pricing.draft) ->
  at_least 1 (target (selected_move ilike d self name) s).
Proof.
  intros Hc (r & Hr & Hid & Hst). unfold selected_move.
  assert (E : nonempty (search_pricings d self)
              && existsb prc_not_draft (search_pricings d self) = true).
  { apply search_any. exists r. split; [assumption|]. split.
    - apply Nat.eqb_eq; assumption.
    - unfold prc_not_draft. destruct (Pricing.state r); congruence. }
  rewrite E.
  repeat match goal with
         | |- context [nonempty ?x && ?c] => destruct (nonempty x && c)
         end;
    cbv beta iota zeta delta [andb];
    destruct s; try congruence; unfold at_least; simpl; lia.
Qed.

Lemma target_floor_planning d self name s :
  s <> cancelled ->
  (exists r, In r (plannings d) /\ Planning.project_id r = self
             /\ Planning.state r <> Planning.draft) ->
  at_least 2 (target (selected_move ilike d self name) s).
Proof.
  intros Hc (r & Hr & Hid & Hst). unfold selected_move.
  assert (E : nonempty (search_plannings d self)
              && existsb plan_not_draft (search_plannings d self) = true).
  { apply search_any. exists r. split; [assumption|]. split.
    - apply Nat.eqb_eq; assumption.
    - unfold plan_not_draft. destruct (Planning.state r); congruence. }
  rewrite E.
  repeat match goal with
         | |- context [nonempty ?x && ?c] => destruct (nonempty x && c)
         end;
    cbv beta iota zeta delta [andb];
    destruct s; try congruence; unfold at_least; simpl; lia.
Qed.

Lemma target_floor_running d self name s :
  s <> cancelled ->
  (exists e, In e (executions d) /\ Execution.project_id e = self
             /\ exe_running e = true)
  \/ (exists r o, In r (productions d) /\ Production.origin r = Some o
                  /\ ilike o name = true /\ prod_running r = true) ->
  at_least 3 (target (selected_move ilike d self name) s).
Proof.
  intros Hc [(e & He & Hid & Hst)|(r & o & Hr & Ho & Hm & Hst)];
    unfold selected_move.
  - assert (E : nonempty (search_executions d self)
                && existsb exe_running (search_executions d self) = true).
    { apply search_any. exists e. split; [assumption|]. split.
      - apply Nat.eqb_eq; assumption.
      - assumption. }
    rewrite E.
    repeat match goal with
           | |- context [nonempty ?x && ?c] => destruct (nonempty x && c)
           end;
      cbv beta iota zeta delta [andb];
      destruct s; try congruence; unfold at_least; simpl; lia.
  - assert (E : nonempty (search_productions ilike d name)
                && existsb prod_running (search_productions ilike d name)
                = true).
    { apply search_any. exists r. split; [assumption|]. split.
      - rewrite Ho. assumption.
      - assumption. }
    rewrite E.
    repeat match goal with
           | |- context [nonempty ?x && ?c] => destruct (nonempty x && c)
           end;
      cbv beta iota zeta delta [andb];
      destruct s; try congruence; unfold at_least; simpl; lia.
Qed.

(** X3: after the automatic update of a project that updates itself and is
    not cancelled, the project is at least in pricing if one of its
    pricings is past draft, at least in planning if one of its plannings
    is past draft, and at least in processing if one of its executions is
    loaded or in progress or a production order matching its name is
    confirmed, in progress or to close. *)
Theorem auto_update_reaches_stage self d p :
  projects d !! self = Some p ->
  auto_update_state p = true ->
  state p <> cancelled ->
  exists d' p',
    _auto_update_state ilike self d = Ok (tt, d')
    /\ projects d' !! self = Some p'
    /\ ((exists r, In r (pricings d) /\ Pricing.project_id r = self
                   /\ Pricing.state r <> Pricing.draft) ->
        at_least 1 (state p'))
    /\ ((exists r, In r (plannings d) /\ Planning.project_id r = self
                   /\ Planning.state r <> Planning.draft) ->
        at_least 2 (state p'))
    /\ ((exists e, In e (executions d) /\ Execution.project_id e = self
                   /\ exe_running e = true)
        \/ (exists r o, In r (productions d) /\ Production.origin r = Some o
                        /\ ilike o (name p) = true /\ prod_running r = true) ->
        at_least 3 (state p')).
Proof.
  intros Hp Ha Hc.
  destruct (_auto_update_state_target _ _ _ Hp Ha Hc)
    as (d' & p' & Hrun & _ & Hp' & Hs).
  exists d', p'. split; [assumption|]. split; [assumption|]. rewrite Hs.
  split; [|split].
  - apply target_floor_pricing; assumption.
  - apply target_floor_planning; assumption.
  - apply target_floor_running; assumption.
Qed.

(** X4: records that are merely created do not move a project: when every
    pricing and every planning of the project is in draft, none of its
    executions is loaded or in progress and no production order matching
    its name is confirmed, in progress or to close, the automatic update
    returns with the database as it was. *)
Theorem auto_update_ignores_drafts self d p :
  projects d !! self = Some p ->
  (forall r, In r (pricings d) -> Pricing.project_id r = self ->
             Pricing.state r = Pricing.draft) ->
  (forall r, In r (plannings d) -> Planning.project_id r = self ->
             Planning.state r = Planning.draft) ->
  (forall e, In e (executions d) -> Execution.project_id e = self ->
             exe_running e = false) ->
  (forall r o, In r (productions d) -> Production.origin r = Some o ->
               ilike o (name p) = true -> prod_running r = false) ->
  _auto_update_state ilike self d = Ok (tt, d).
Proof.
  intros Hp Hprc Hpl Hex Hpr. rewrite (_auto_update_state_run _ _ _ Hp).
  destruct (negb (auto_update_state p)); [reflexivity|].
  assert (E : selected_move ilike d self (name p) = stay).
  { unfold selected_move, search_pricings, search_plannings, search_executions,
      search_productions.
    rewrite (search_not_all _ plan_done (plannings d)).
    2:{ intros x Hx Hs. apply Nat.eqb_eq in Hs. unfold plan_done.
        rewrite (Hpl x Hx Hs). reflexivity. }
    rewrite andb_false_r, andb_false_l.
    rewrite (search_no _ exe_running (executions d)).
    2:{ intros x Hx Hs. apply Nat.eqb_eq in Hs. auto. }
    rewrite (search_no _ prod_running (productions d)).
    2:{ intros x Hx Hs. destruct (Production.origin x) eqn:Eo; [|discriminate].
        eauto. }
    rewrite (search_no _ plan_has_orders (plannings d)).
    2:{ intros x Hx Hs. apply Nat.eqb_eq in Hs. unfold plan_has_orders.
        rewrite (Hpl x Hx Hs). reflexivity. }
    rewrite (search_no _ plan_not_draft (plannings d)).
    2:{ intros x Hx Hs. apply Nat.eqb_eq in Hs. unfold plan_not_draft.
        rewrite (Hpl x Hx Hs). reflexivity. }
    rewrite (search_no _ prc_settled (pricings d)).
    2:{ intros x Hx Hs. apply Nat.eqb_eq in Hs. unfold prc_settled.
        rewrite (Hprc x Hx Hs). reflexivity. }
    rewrite (search_no _ prc_not_draft (pricings d)).
    2:{ intros x Hx Hs. apply Nat.eqb_eq in Hs. unfold prc_not_draft.
        rewrite (Hprc x Hx Hs). reflexivity. }
    reflexivity. }
  rewrite E. destruct (state p); reflexivity.
Qed.

End Run.

Import ProjectScenario.

Lemma auto_update_posts_one_note_witness :
  exists d' p',
    _auto_update_state ProjectScenario.ilike 0 (all_done draft "MPP/0001")
    = Ok (tt, d')
    /\ projects d' !! 0 = Some p'
    /\ message_ids p'
       = [Message.Make note_planning None (Some "mail.mt_note")].
Proof.
  destruct (auto_update_posts_one_note ProjectScenario.ilike 0
              (all_done draft "MPP/0001") (project_in draft) eq_refl)
    as (d' & p' & Hrun & Hd & Hp & Hcase).
  exists d', p'. split; [exact Hrun|]. split; [rewrite Hd; reflexivity|].
  vm_compute in Hrun. injection Hrun as Hrun. rewrite Hd in Hrun.
  injection Hrun as Hrun. rewrite <- Hrun. reflexivity.
Defined.

Lemma auto_update_idempotent_witness :
  exists d',
    _auto_update_state ProjectScenario.ilike 0 (all_done draft "MPP/0001")
    = Ok (tt, d')
    /\ _auto_update_state ProjectScenario.ilike 0 d' = Ok (tt, d').
Proof.
  exact (auto_update_idempotent ProjectScenario.ilike 0
           (all_done draft "MPP/0001") (project_in draft) eq_refl).
Defined.

Lemma auto_update_reaches_stage_witness :
  exists d' p',
    _auto_update_state ProjectScenario.ilike 0 (all_done draft "MPP/0001")
    = Ok (tt, d')
    /\ projects d' !! 0 = Some p'
    /\ at_least 2 (state p').
Proof.
  destruct (auto_update_reaches_stage ProjectScenario.ilike 0
              (all_done draft "MPP/0001") (project_in draft) eq_refl eq_refl)
    as (d' & p' & Hrun & Hp & _ & Hpl & _); [discriminate|].
  exists d', p'. split; [exact Hrun|]. split; [exact Hp|].
  apply Hpl. exists (Planning.Make "MPP/0001" 0 7 10 Planning.done [] [] [0]).
  split; [left; reflexivity|]. split; [reflexivity|discriminate].
Defined.

Lemma auto_update_ignores_drafts_witness :
  _auto_update_state ProjectScenario.ilike 0 LifecycleScenario.started
  = Ok (tt, LifecycleScenario.started).
Proof.
  apply (auto_update_ignores_drafts ProjectScenario.ilike 0
           LifecycleScenario.started (project_in draft) eq_refl).
  - intros r [<-|[]] _. reflexivity.
  - intros r [<-|[]] _. reflexivity.
  - intros e [<-|[]] _. reflexivity.
  - intros r o [].
Defined.

(** ** The customer of a project *)

Lemma mark_customer_partners v d d1 u :
  mark_customer v d = Ok (u, d1) ->
  (forall pid c, partners d !! pid = Some c ->
     exists c', partners d1 !! pid = Some c'
                /\ (Partner.customer_rank c <> 0%Z ->
                    Partner.customer_rank c' <> 0%Z))
  /\ (forall pid, v_partner_id v = Some pid ->
        exists c, partners d1 !! pid = Some c
                  /\ Partner.customer_rank c <> 0%Z).
Proof.
  unfold mark_customer. destruct (v_partner_id v) as [pid|].
  - destruct (partners d !! pid) as [partner|] eqn:Ep; [|discriminate].
    destruct (Partner.customer_rank partner =? 0)%Z eqn:Er;
      intros H; injection H as _ <-.
    + split.
      * intros j c Hj. simpl. destruct (decide (j = pid)) as [->|Hne].
        -- eexists. split.
           ++ apply list_lookup_insert_eq. eapply lookup_lt_Some; eauto.
           ++ simpl. intros _. discriminate.
        -- exists c. split; [|auto].
           rewrite list_lookup_insert_ne by congruence. assumption.
      * intros j Hj. injection Hj as <-. simpl. eexists. split.
        -- apply list_lookup_insert_eq. eapply lookup_lt_Some; eauto.
        -- simpl. discriminate.
    + split.
      * intros j c Hj. exists c. auto.
      * intros j Hj. injection Hj as <-. exists partner. split; [assumption|].
        apply Z.eqb_neq. assumption.
  - intros H; injection H as _ <-. split.
    + intros j c Hj. exists c. auto.
    + intros j Hj. discriminate.
Qed.

Lemma orm_write_inv self v d d' :
  orm_write self v d = Ok (tt, d') ->
  exists p, projects d !! self = Some p
            /\ d' = set_projects (<[self := apply_vals v p]> (projects d)) d.
Proof.
  intros H. destruct (projects d !! self) as [p|] eqn:Hp.
  - rewrite (orm_write_run _ _ _ _ Hp) in H. exists p. split; [reflexivity|].
    destruct (if constrains_dates v then _check_dates (apply_vals v p) else Ok tt);
      [|discriminate].
    destruct (v_start_date v) as [[?|]|], (v_end_date v) as [[?|]|];
      try discriminate; injection H as <-; reflexivity.
  - unfold orm_write, bind at 1, browse in H. rewrite Hp in H. discriminate.
Qed.

Lemma customers_ok_step (d d1 d' : db) (p' : t) :
  customers_ok d ->
  projects d1 = projects d ->
  (forall pid c, partners d !! pid = Some c ->
     exists c', partners d1 !! pid = Some c'
                /\ (Partner.customer_rank c <> 0%Z ->
                    Partner.customer_rank c' <> 0%Z)) ->
  partners d' = partners d1 ->
  (forall i q, projects d' !! i = Some q ->
     projects d !! i = Some q \/ q = p') ->
  (exists c, partners d1 !! partner_id p' = Some c
             /\ Partner.customer_rank c <> 0%Z) ->
  customers_ok d'.
Proof.
  intros Hok Hps Hkeep Hpa Hcases Hnew i q Hq. rewrite Hpa.
  destruct (Hcases i q Hq) as [Hold| ->]; [|exact Hnew].
  destruct (Hok i q Hold) as (c & Hc & Hr).
  destruct (Hkeep _ _ Hc) as (c' & Hc' & Hr'). exists c'. auto.
Qed.

Section Customer.

Variable today : date.

(** X5: [write] and [create] keep every project's customer marked: if
    each project's partner exists with a customer rank other than zero,
    the same holds after the request of a [write] or of a [create],
    whether it returns or raises. *)
Theorem write_and_create_keep_customers self v d :
  customers_ok d ->
  customers_ok (transaction (write self v) d).1
  /\ customers_ok (transaction (create today v) d).1.
Proof.
  intros Hok. split.
  - unfold transaction. destruct (write self v d) as [[[] d']|e] eqn:Hw; [|exact Hok].
    simpl. unfold write, bind at 1 in Hw.
    destruct (mark_customer v d) as [[[] d1]|e] eqn:Hm; [|discriminate].
    destruct (mark_customer_partners _ _ _ _ Hm) as [Hkeep Hnew].
    pose proof (mark_customer_projects _ _ _ _ Hm) as Hps.
    destruct (orm_write_inv _ _ _ _ Hw) as (p & Hp & ->).
    rewrite Hps in Hp.
    apply (customers_ok_step d d1 _ (apply_vals v p) Hok Hps Hkeep).
    + reflexivity.
    + intros i q Hq. simpl in Hq. rewrite Hps in Hq.
      destruct (decide (i = self)) as [->|Hne].
      * right. rewrite list_lookup_insert_eq in Hq
          by (eapply lookup_lt_Some; eauto). congruence.
      * left. rewrite list_lookup_insert_ne in Hq by congruence. assumption.
    + simpl. destruct (v_partner_id v) as [pid|] eqn:Ev; simpl.
      * apply Hnew. reflexivity.
      * destruct (Hok self p Hp) as (c & Hc & Hr).
        destruct (Hkeep _ _ Hc) as (c' & Hc' & Hr'). exists c'. auto.
  - unfold transaction.
    destruct (create today v d) as [[id d']|e] eqn:Hc; [|exact Hok].
    simpl. unfold create, bind at 1 in Hc.
    destruct (assign_name_run v d)
      as (v1 & d0 & Ha & Hps0 & Hpa0 & _ & Hpid & _ & _).
    rewrite Ha in Hc. unfold bind at 1 in Hc.
    destruct (mark_customer v1 d0) as [[[] d1]|e] eqn:Hm; [|discriminate].
    destruct (mark_customer_partners _ _ _ _ Hm) as [Hkeep Hnew].
    pose proof (mark_customer_projects _ _ _ _ Hm) as Hps.
    unfold orm_create in Hc.
    destruct (v_project_name v1) as [pn|]; [|discriminate].
    destruct (v_partner_id v1) as [pa|] eqn:Epa; [|discriminate].
    destruct (v_end_date v1) as [[e|]|]; try discriminate.
    destruct (default (Some today) (v_start_date v1)) as [s|]; [|discriminate].
    match type of Hc with
    | (match _check_dates ?q with _ => _ end) = _ => set (p' := q) in *
    end.
    destruct (_check_dates p'); [|discriminate]. injection Hc as _ <-.
    apply (customers_ok_step d d1 _ p' Hok).
    + rewrite Hps. assumption.
    + intros pid c Hc. rewrite <- Hpa0 in Hc. apply (Hkeep _ _ Hc).
    + reflexivity.
    + intros i q Hq. simpl in Hq. rewrite Hps, Hps0 in Hq.
      apply lookup_app_Some in Hq as [Hq|[_ Hq]]; [left; assumption|right].
      destruct (i - length (projects d)) as [|k]; simpl in Hq; [|discriminate].
      congruence.
    + apply Hnew. reflexivity.
Qed.

(** X6: a [create] that returns appends one project to the table, which
    is otherwise as before, and returns its position; the name of the new
    record is the one of [vals] unless that is absent or 'New', in which
    case it is the next number of the sequence, or 'New' when there is no
    sequence; a name of [vals] other than 'New' leaves the sequence
    untouched.  The record starts in the state of [vals], draft by
    default, without product lines and without messages. *)
Theorem create_names_the_record v d id d' :
  create today v d = Ok (id, d') ->
  exists p',
    projects d' = projects d ++ [p']
    /\ id = length (projects d)
    /\ name p' = created_name d v
    /\ ((default "New" (v_name v) =? "New")%string = false ->
        ir_sequence d' = ir_sequence d)
    /\ state p' = default draft (v_state v)
    /\ product_line_ids p' = []
    /\ message_ids p' = [].
Proof.
  intros Hc. unfold create, bind at 1 in Hc.
  destruct (assign_name v d) as [[v1 d0]|e] eqn:Ha; [|discriminate].
  unfold bind at 1 in Hc.
  destruct (mark_customer v1 d0) as [[[] d1]|e] eqn:Hm; [|discriminate].
  pose proof (mark_customer_projects _ _ _ _ Hm) as Hps.
  assert (Hseq1 : ir_sequence d1 = ir_sequence d0).
  { unfold mark_customer in Hm.
    destruct (v_partner_id v1);
      [|unfold ret in Hm; injection Hm as <-; reflexivity].
    destruct (partners d0 !! n); [|discriminate].
    destruct (Partner.customer_rank t0 =? 0)%Z; injection Hm as <-; reflexivity. }
  assert (Hn : projects d0 = projects d
               /\ default "New" (v_name v1) = created_name d v
               /\ v_state v1 = v_state v
               /\ ((default "New" (v_name v) =? "New")%string = false ->
                   ir_sequence d0 = ir_sequence d)).
  { unfold assign_name, created_name in *.
    destruct (default "New" (v_name v) =? "New")%string eqn:En.
    - unfold bind, next_by_code, ret in Ha.
      destruct (ir_sequence d "project.definition") as [[prefix n]|];
        injection Ha as <- <-; repeat split; discriminate.
    - injection Ha as <- <-. auto. }
  destruct Hn as (Hps0 & Hname & Hst & Hseq0).
  unfold orm_create in Hc.
  destruct (v_project_name v1) as [pn|]; [|discriminate].
  destruct (v_partner_id v1) as [pa|]; [|discriminate].
  destruct (v_end_date v1) as [[e|]|]; try discriminate.
  destruct (default (Some today) (v_start_date v1)) as [s|]; [|discriminate].
  match type of Hc with
  | (match _check_dates ?q with _ => _ end) = _ => set (p' := q) in *
  end.
  destruct (_check_dates p'); [|discriminate]. injection Hc as <- <-.
  exists p'. simpl. rewrite Hps, Hps0, Hst. repeat split; try assumption.
  intros Hx. rewrite Hseq1. auto.
Qed.

End Customer.

Lemma customers_ok_scenario s o : customers_ok (all_done s o).
Proof.
  intros [|i] p Hp; [|discriminate]. injection Hp as <-.
  exists (Partner.Make "ACME" 1). split; [reflexivity|discriminate].
Qed.

Lemma write_and_create_keep_customers_witness :
  customers_ok
    (transaction (write 0 (vals_end (Date 2024 12 31)))
                 (all_done draft "PRJ/0001")).1
  /\ customers_ok
       (transaction (create today (vals_end (Date 2024 12 31)))
                    (all_done draft "PRJ/0001")).1.
Proof.
  exact (write_and_create_keep_customers today 0 (vals_end (Date 2024 12 31))
           (all_done draft "PRJ/0001") (customers_ok_scenario _ _)).
Defined.

Lemma create_names_the_record_witness :
  exists p',
    projects (transaction (create today (vals_end (Date 2024 12 31)))
                          (all_done draft "PRJ/0001")).1
    = projects (all_done draft "PRJ/0001") ++ [p']
    /\ name p' = "New".
Proof.
  destruct (create_names_the_record today (vals_end (Date 2024 12 31))
              (all_done draft "PRJ/0001") 1
              (transaction (create today (vals_end (Date 2024 12 31)))
                           (all_done draft "PRJ/0001")).1 eq_refl)
    as (p' & Hps & _ & Hn & _).
  exists p'. split; [exact Hps|exact Hn].
Defined.

End ProjectLifecycleFacts.

(* ===================================================================== *)
(** * Properties of the state changes that trigger the project update *)
(* ===================================================================== *)

Module StateTriggerFacts.

Import Project ProjectDefinition ProjectLifecycle ProjectLifecycleFacts.

Section Triggers.

Variable ilike : string -> string -> bool.

Lemma update_project_state_one pid d :
  update_project_state ilike [pid] d = _auto_update_state ilike pid d.
Proof.
  unfold update_project_state. simpl. unfold bind.
  destruct (_auto_update_state ilike pid d) as [[[] d']|e]; reflexivity.
Qed.

Lemma insert_In {A} (l : list A) i x y :
  l !! i = Some x -> In y (<[i := y]> l).
Proof.
  intros H. apply list_elem_of_In, list_elem_of_lookup. exists i.
  apply list_lookup_insert_eq. eapply lookup_lt_Some; eauto.
Qed.

Lemma In_insert {A} (l : list A) i y z :
  In z (<[i := y]> l) -> z = y \/ In z l.
Proof.
  intros H. apply list_elem_of_In, list_elem_of_lookup in H as [j Hj].
  destruct (decide (j = i)) as [->|Hne].
  - destruct (decide (i < length l)) as [Hlt|Hge].
    + rewrite list_lookup_insert_eq in Hj by assumption. left; congruence.
    + rewrite list_insert_ge in Hj by lia. right.
      apply list_elem_of_In, list_elem_of_lookup. eauto.
  - rewrite list_lookup_insert_ne in Hj by congruence. right.
    apply list_elem_of_In, list_elem_of_lookup. eauto.
Qed.

(** What [write] does on one pricing whose project exists. *)
Lemma pricing_write_run i v d r p :
  pricings d !! i = Some r ->
  projects d !! Pricing.project_id (ProjectProductPricing.apply_vals v r)
  = Some p ->
  ProjectProductPricing.write ilike [i] v d
  = let d1 := set_pricings
                (<[i := ProjectProductPricing.apply_vals v r]> (pricings d)) d in
    match ProjectProductPricing.v_state v with
    | Some _ =>
        if auto_update_state p
        then _auto_update_state ilike
               (Pricing.project_id (ProjectProductPricing.apply_vals v r)) d1
        else Ok (tt, d1)
    | None => Ok (tt, d1)
    end.
Proof.
  intros Hr Hp. cbv zeta.
  set (r' := ProjectProductPricing.apply_vals v r) in *.
  set (d1 := set_pricings (<[i := r']> (pricings d)) d).
  assert (Hw : ProjectProductPricing.orm_write [i] v d = Ok (tt, d1)).
  { unfold ProjectProductPricing.orm_write. simpl.
    unfold bind, ProjectProductPricing.browse. rewrite Hr. reflexivity. }
  unfold ProjectProductPricing.write, bind at 1. rewrite Hw.
  destruct (ProjectProductPricing.v_state v); [|reflexivity].
  assert (Hr1 : pricings d1 !! i = Some r').
  { simpl. apply list_lookup_insert_eq. eapply lookup_lt_Some; eauto. }
  cbn [for_each]. unfold bind at 1. unfold bind at 1.
  unfold ProjectProductPricing.browse at 1. rewrite Hr1.
  unfold bind at 1. unfold browse at 1.
  change (projects d1) with (projects d). rewrite Hp.
  destruct (auto_update_state p).
  - rewrite update_project_state_one.
    destruct (_auto_update_state ilike (Pricing.project_id r') d1)
      as [[[] d']|e]; reflexivity.
  - reflexivity.
Qed.

(** What [write] does on one execution whose project exists. *)
Lemma execution_write_run i v d r p :
  executions d !! i = Some r ->
  projects d !! Execution.project_id (WorkOrderExecutionState.apply_vals v r)
  = Some p ->
  WorkOrderExecutionState.write ilike [i] v d
  = let d1 := set_executions
                (<[i := WorkOrderExecutionState.apply_vals v r]> (executions d))
                d in
    match WorkOrderExecutionState.v_state v with
    | Some _ =>
        if auto_update_state p
        then _auto_update_state ilike
               (Execution.project_id (WorkOrderExecutionState.apply_vals v r)) d1
        else Ok (tt, d1)
    | None => Ok (tt, d1)
    end.
Proof.
  intros Hr Hp. cbv zeta.
  set (r' := WorkOrderExecutionState.apply_vals v r) in *.
  set (d1 := set_executions (<[i := r']> (executions d)) d).
  assert (Hw : WorkOrderExecutionState.orm_write [i] v d = Ok (tt, d1)).
  { unfold WorkOrderExecutionState.orm_write. simpl.
    unfold bind, WorkOrderExecutionState.browse. rewrite Hr. reflexivity. }
  unfold WorkOrderExecutionState.write, bind at 1. rewrite Hw.
  destruct (WorkOrderExecutionState.v_state v); [|reflexivity].
  assert (Hr1 : executions d1 !! i = Some r').
  { simpl. apply list_lookup_insert_eq. eapply lookup_lt_Some; eauto. }
  cbn [for_each]. unfold bind at 1. unfold bind at 1.
  unfold WorkOrderExecutionState.browse at 1. rewrite Hr1.
  unfold bind at 1. unfold browse at 1.
  change (projects d1) with (projects d). rewrite Hp.
  destruct (auto_update_state p).
  - rewrite update_project_state_one.
    destruct (_auto_update_state ilike (Execution.project_id r') d1)
      as [[[] d']|e]; reflexivity.
  - reflexivity.
Qed.

(** What [write] does on a planning whose project exists. *)
Lemma planning_write_eq i v d r p :
  plannings d !! i = Some r ->
  projects d !! Planning.project_id r = Some p ->
  MaterialProductionPlanning.write ilike i v d
  = let d1 := set_plannings
                (<[i := MaterialProductionPlanning.apply_vals v r]> (plannings d))
                d in
    match MaterialProductionPlanning.v_state v with
    | Some _ =>
        if auto_update_state p
        then _auto_update_state ilike (Planning.project_id r) d1
        else Ok (tt, d1)
    | None => Ok (tt, d1)
    end.
Proof.
  intros Hr Hp. cbv zeta.
  set (r' := MaterialProductionPlanning.apply_vals v r) in *.
  set (d1 := set_plannings (<[i := r']> (plannings d)) d).
  assert (Hw : MaterialProductionPlanning.orm_write i v d = Ok (tt, d1)).
  { unfold MaterialProductionPlanning.orm_write.
    unfold bind, MaterialProductionPlanning.browse. rewrite Hr. reflexivity. }
  unfold MaterialProductionPlanning.write, bind at 1. rewrite Hw.
  destruct (MaterialProductionPlanning.v_state v); [|reflexivity].
  assert (Hr1 : plannings d1 !! i = Some r').
  { simpl. apply list_lookup_insert_eq. eapply lookup_lt_Some; eauto. }
  unfold bind at 1, MaterialProductionPlanning.browse at 1. rewrite Hr1.
  unfold bind at 1. unfold browse at 1.
  change (projects d1) with (projects d).
  change (Planning.project_id r') with (Planning.project_id r). rewrite Hp.
  destruct (auto_update_state p); [|reflexivity].
  rewrite update_project_state_one. reflexivity.
Qed.

Lemma In_insert_other {A} (l : list A) i y z :
  In z (<[i := y]> l) -> z = y \/ exists j, j <> i /\ l !! j = Some z.
Proof.
  intros H. apply list_elem_of_In, list_elem_of_lookup in H as [j Hj].
  destruct (decide (j = i)) as [->|Hne].
  - destruct (decide (i < length l)) as [Hlt|Hge].
    + rewrite list_lookup_insert_eq in Hj by assumption. left; congruence.
    + apply lookup_lt_Some in Hj. rewrite length_insert in Hj. lia.
  - rewrite list_lookup_insert_ne in Hj by congruence. right. eauto.
Qed.

(** X7: writing a state other than draft to a pricing, as action_confirm,
    action_approve and action_cancel do, brings the project of the
    pricing, if it updates itself and is not cancelled, at least to the
    pricing stage: the call returns, the pricing holds the state written,
    and the project is in pricing or further. *)
Theorem pricing_past_draft_starts_project i s d r p :
  pricings d !! i = Some r ->
  projects d !! Pricing.project_id r = Some p ->
  auto_update_state p = true ->
  state p <> cancelled ->
  s <> Pricing.draft ->
  exists d' p',
    ProjectProductPricing.write ilike [i]
      (ProjectProductPricing.Vals None (Some s)) d = Ok (tt, d')
    /\ pricings d' !! i = Some (Pricing.Make (Pricing.project_id r) s)
    /\ projects d' !! Pricing.project_id r = Some p'
    /\ at_least 1 (state p').
Proof.
  intros Hr Hp Ha Hc Hs.
  rewrite (pricing_write_run i (ProjectProductPricing.Vals None (Some s))
             d r p Hr Hp). cbv zeta.
  set (r' := ProjectProductPricing.apply_vals
               (ProjectProductPricing.Vals None (Some s)) r).
  set (d1 := set_pricings (<[i := r']> (pricings d)) d).
  cbn [ProjectProductPricing.v_state]. rewrite Ha.
  change (Pricing.project_id r') with (Pricing.project_id r).
  assert (Hp1 : projects d1 !! Pricing.project_id r = Some p) by exact Hp.
  destruct (_auto_update_state_target ilike _ _ _ Hp1 Ha Hc)
    as (d' & p' & Hrun & Hd & Hp' & Hst).
  exists d', p'. split; [assumption|]. split; [|split; [assumption|]].
  - rewrite Hd. simpl. apply list_lookup_insert_eq. eapply lookup_lt_Some; eauto.
  - rewrite Hst. apply target_floor_pricing; [assumption|].
    exists r'. split; [|split; [reflexivity|exact Hs]].
    simpl. eapply insert_In; eauto.
Qed.

(** X8: writing the state loaded or in progress to an execution, as
    action_load_work_orders and action_start_selected do, brings the
    project of the execution, if it updates itself and is not cancelled,
    to processing: a project in draft, pricing or planning moves to
    processing, and a project further on stays where it is. *)
Theorem started_execution_moves_project_to_processing i s d r p :
  executions d !! i = Some r ->
  projects d !! Execution.project_id r = Some p ->
  auto_update_state p = true ->
  state p <> cancelled ->
  s = Execution.loaded \/ s = Execution.in_progress ->
  exists d' p',
    WorkOrderExecutionState.write ilike [i]
      (WorkOrderExecutionState.Vals None (Some s)) d = Ok (tt, d')
    /\ executions d' !! i = Some (Execution.Make (Execution.project_id r) s)
    /\ projects d' !! Execution.project_id r = Some p'
    /\ at_least 3 (state p')
    /\ (state p <> done -> state p' = processing).
Proof.
  intros Hr Hp Ha Hc Hs.
  rewrite (execution_write_run i (WorkOrderExecutionState.Vals None (Some s))
             d r p Hr Hp). cbv zeta.
  set (r' := WorkOrderExecutionState.apply_vals
               (WorkOrderExecutionState.Vals None (Some s)) r).
  set (d1 := set_executions (<[i := r']> (executions d)) d).
  cbn [WorkOrderExecutionState.v_state]. rewrite Ha.
  change (Execution.project_id r') with (Execution.project_id r).
  assert (Hp1 : projects d1 !! Execution.project_id r = Some p) by exact Hp.
  destruct (_auto_update_state_target ilike _ _ _ Hp1 Ha Hc)
    as (d' & p' & Hrun & Hd & Hp' & Hst).
  assert (Hrunning : exists e, In e (executions d1)
                       /\ Execution.project_id e = Execution.project_id r
                       /\ exe_running e = true).
  { exists r'. split; [|split; [reflexivity|]].
    - simpl. eapply insert_In; eauto.
    - destruct Hs as [-> | ->]; reflexivity. }
  exists d', p'. split; [assumption|]. split; [|split; [assumption|]].
  - rewrite Hd. simpl. apply list_lookup_insert_eq. eapply lookup_lt_Some; eauto.
  - assert (H3 : at_least 3 (state p')).
    { rewrite Hst. apply target_floor_running; [assumption|]. left; assumption. }
    split; [assumption|]. intros Hd'.
    assert (Hm : selected_move ilike d1 (Execution.project_id r) (name p)
                 = to_processing).
    { destruct Hrunning as (e & He & Hid & Hrun').
      unfold selected_move, search_executions.
      assert (E1 : nonempty (List.filter
                     (fun x => Execution.project_id x =? Execution.project_id r)
                     (executions d1))
                   && forallb exe_done (List.filter
                     (fun x => Execution.project_id x =? Execution.project_id r)
                     (executions d1)) = false).
      { apply andb_false_iff. right. apply not_true_is_false. intros E.
        rewrite forallb_forall in E.
        assert (Hin : In e (List.filter
                     (fun x => Execution.project_id x =? Execution.project_id r)
                     (executions d1))).
        { apply List.filter_In. split; [assumption|].
          apply Nat.eqb_eq. assumption. }
        specialize (E e Hin). unfold exe_done, exe_running in *.
        destruct (Execution.state e); discriminate. }
      rewrite E1, !andb_false_l.
      rewrite (search_any _ exe_running (executions d1)); [reflexivity|].
      exists e. split; [assumption|]. split; [|assumption].
      apply Nat.eqb_eq. assumption. }
    rewrite Hst, Hm. destruct (state p); try congruence; reflexivity.
Qed.

(** X9: marking done the last execution of a project that is still open
    completes the project: when the project updates itself, is neither
    done nor cancelled, its other executions are done, it has plannings,
    all done, and production orders matching its name, all done, then
    action_done on the execution returns, the execution is done, and the
    project is done with the completion note posted. *)
Theorem closing_last_execution_completes_project i d r p :
  executions d !! i = Some r ->
  projects d !! Execution.project_id r = Some p ->
  auto_update_state p = true ->
  state p <> done -> state p <> cancelled ->
  (forall j e, executions d !! j = Some e -> j <> i ->
               Execution.project_id e = Execution.project_id r ->
               Execution.state e = Execution.done) ->
  (exists q, In q (plannings d)
             /\ Planning.project_id q = Execution.project_id r) ->
  (forall q, In q (plannings d) ->
             Planning.project_id q = Execution.project_id r ->
             Planning.state q = Planning.done) ->
  (exists q o, In q (productions d) /\ Production.origin q = Some o
               /\ ilike o (name p) = true) ->
  (forall q o, In q (productions d) -> Production.origin q = Some o ->
               ilike o (name p) = true ->
               Production.state q = Production.done) ->
  exists d',
    WorkOrderExecutionState.action_done ilike [i] d = Ok (tt, d')
    /\ executions d' !! i
       = Some (Execution.Make (Execution.project_id r) Execution.done)
    /\ projects d' !! Execution.project_id r
       = Some (moved done note_done "mail.mt_comment" p).
Proof.
  intros Hr Hp Ha Hnd Hnc Hothers Hpl1 Hpl2 Hpr1 Hpr2.
  unfold WorkOrderExecutionState.action_done.
  rewrite (execution_write_run i
             (WorkOrderExecutionState.Vals None (Some Execution.done))
             d r p Hr Hp). cbv zeta.
  set (r' := WorkOrderExecutionState.apply_vals
               (WorkOrderExecutionState.Vals None (Some Execution.done)) r).
  set (d1 := set_executions (<[i := r']> (executions d)) d).
  cbn [WorkOrderExecutionState.v_state]. rewrite Ha.
  change (Execution.project_id r') with (Execution.project_id r).
  assert (Hp1 : projects d1 !! Execution.project_id r = Some p) by exact Hp.
  rewrite (_auto_update_state_done ilike _ _ _ Hp1 Ha Hnd Hnc).
  - eexists. split; [reflexivity|]. split.
    + simpl. apply list_lookup_insert_eq. eapply lookup_lt_Some; eauto.
    + simpl. apply list_lookup_insert_eq. eapply lookup_lt_Some; eauto.
  - exists r'. split; [|reflexivity]. simpl. eapply insert_In; eauto.
  - intros e He Hid. simpl in He.
    apply In_insert_other in He as [->|(j & Hj & He)]; [reflexivity|].
    eapply Hothers; eauto.
  - exact Hpl1.
  - exact Hpl2.
  - exact Hpr1.
  - exact Hpr2.
Qed.

(** X10: writing a state other than draft to a planning, as
    action_load_components, action_material_planning, the creation of
    work orders, action_done and action_cancel do, brings the project of
    the planning, if it updates itself and is not cancelled, at least to
    the planning stage; this includes the cancellation of the planning. *)
Theorem planning_past_draft_moves_project i s d r p :
  plannings d !! i = Some r ->
  projects d !! Planning.project_id r = Some p ->
  auto_update_state p = true ->
  state p <> cancelled ->
  s <> Planning.draft ->
  exists d' p' r',
    MaterialProductionPlanning.write ilike i
      (MaterialProductionPlanning.Vals None None None (Some s)) d = Ok (tt, d')
    /\ plannings d' !! i = Some r'
    /\ Planning.state r' = s
    /\ projects d' !! Planning.project_id r = Some p'
    /\ at_least 2 (state p').
Proof.
  intros Hr Hp Ha Hc Hs.
  rewrite (planning_write_eq i
             (MaterialProductionPlanning.Vals None None None (Some s))
             d r p Hr Hp). cbv zeta.
  set (r' := MaterialProductionPlanning.apply_vals
               (MaterialProductionPlanning.Vals None None None (Some s)) r).
  set (d1 := set_plannings (<[i := r']> (plannings d)) d).
  cbn [MaterialProductionPlanning.v_state]. rewrite Ha.
  assert (Hp1 : projects d1 !! Planning.project_id r = Some p) by exact Hp.
  destruct (_auto_update_state_target ilike _ _ _ Hp1 Ha Hc)
    as (d' & p' & Hrun & Hd & Hp' & Hst).
  exists d', p', r'. split; [assumption|]. split; [|split; [reflexivity|]].
  - rewrite Hd. simpl. apply list_lookup_insert_eq. eapply lookup_lt_Some; eauto.
  - split; [assumption|]. rewrite Hst.
    apply target_floor_planning; [assumption|].
    exists r'. split; [|split; [reflexivity|exact Hs]].
    simpl. eapply insert_In; eauto.
Qed.

End Triggers.

Import ProjectScenario LifecycleScenario.

Lemma pricing_past_draft_starts_project_witness :
  exists d' p',
    ProjectProductPricing.action_confirm ProjectScenario.ilike [0] started
    = Ok (tt, d')
    /\ projects d' !! 0 = Some p'
    /\ at_least 1 (state p').
Proof.
  destruct (pricing_past_draft_starts_project ProjectScenario.ilike 0
              Pricing.confirmed started (Pricing.Make 0 Pricing.draft)
              (project_in draft) eq_refl eq_refl eq_refl)
    as (d' & p' & Hrun & _ & Hp & Hs); [discriminate|discriminate|].
  exists d', p'. split; [exact Hrun|]. split; [exact Hp|exact Hs].
Defined.

Lemma started_execution_moves_project_to_processing_witness :
  exists d' p',
    WorkOrderExecutionState.write ProjectScenario.ilike [0]
      (WorkOrderExecutionState.Vals None (Some Execution.loaded)) started
    = Ok (tt, d')
    /\ projects d' !! 0 = Some p'
    /\ state p' = processing.
Proof.
  destruct (started_execution_moves_project_to_processing
              ProjectScenario.ilike 0 Execution.loaded started
              (Execution.Make 0 Execution.draft) (project_in draft)
              eq_refl eq_refl eq_refl)
    as (d' & p' & Hrun & _ & Hp & _ & Hs);
    [discriminate|left; reflexivity|].
  exists d', p'. split; [exact Hrun|]. split; [exact Hp|].
  apply Hs. discriminate.
Defined.

Lemma closing_last_execution_completes_project_witness :
  exists d',
    WorkOrderExecutionState.action_done ProjectScenario.ilike [0] closing
    = Ok (tt, d')
    /\ state <$> projects d' !! 0 = Some done.
Proof.
  destruct (closing_last_execution_completes_project ProjectScenario.ilike 0
              closing (Execution.Make 0 Execution.in_progress)
              (project_in processing) eq_refl eq_refl eq_refl)
    as (d' & Hrun & _ & Hp).
  - discriminate.
  - discriminate.
  - intros [|j] e He Hj; [congruence|discriminate].
  - eexists. split; [left; reflexivity|reflexivity].
  - intros q [<-|[]] _. reflexivity.
  - eexists _, _. split; [left; reflexivity|]. split; reflexivity.
  - intros q o [<-|[]] _ _. reflexivity.
  - exists d'. split; [exact Hrun|]. simpl in Hp. rewrite Hp. reflexivity.
Defined.

Lemma planning_past_draft_moves_project_witness :
  exists d' p',
    PlanningActions.action_cancel ProjectScenario.ilike 0 started = Ok (tt, d')
    /\ projects d' !! 0 = Some p'
    /\ at_least 2 (state p').
Proof.
  destruct (planning_past_draft_moves_project ProjectScenario.ilike 0
              Planning.cancelled started
              (Planning.Make "MPP/0001" 0 7 10 Planning.draft [] [] [])
              (project_in draft) eq_refl eq_refl eq_refl)
    as (d' & p' & r' & Hrun & _ & _ & Hp & Hs); [discriminate|discriminate|].
  exists d', p'. split; [exact Hrun|]. split; [exact Hp|exact Hs].
Defined.

End StateTriggerFacts.

(* ===================================================================== *)
(** * Further properties of the cost estimation import *)
(* ===================================================================== *)

Module ImportAccountingFacts.

Import ProjectEstimationImportWizard ImportAccounting.
Import ProjectEstimationImportWizardFacts.

Lemma set_prices_twice a b a' b' l :
  set_prices a' b' (set_prices a b l)
  = set_prices (match a' with Some q => Some q | None => a end)
               (match b' with Some q => Some q | None => b end) l.
Proof. destruct a, b, a', b', l; reflexivity. Qed.

Section Rows.

Variable py : Py.str_methods.
Variable str_float : Q -> string.
Variable float_of_string : string -> option Q.

Local Abbreviation _find_product_line := (_find_product_line py).
Local Abbreviation data_rows := (data_rows py str_float).
Local Abbreviation import_row := (import_row py str_float float_of_string).
Local Abbreviation row_target := (row_target py str_float).
Local Abbreviation read_price := (read_price float_of_string).
Local Abbreviation last_price := (last_price py str_float float_of_string).
Local Abbreviation writes := (writes py str_float float_of_string).
Local Abbreviation unmatched := (unmatched py str_float).
Local Abbreviation import_rows := (import_rows py str_float float_of_string).

Lemma last_price_stable products lines lines' idx i rows :
  map ProductLine.product_id lines = map ProductLine.product_id lines' ->
  last_price products lines idx i rows = last_price products lines' idx i rows.
Proof.
  intros H. induction rows as [|r rows IH]; simpl; [reflexivity|].
  rewrite IH, (row_target_stable py str_float products lines lines' r H).
  reflexivity.
Qed.

(** One row at line [i]. *)
Lemma import_row_lookup products lines r i l :
  lines !! i = Some l ->
  import_row products lines r !! i
  = Some (match row_target products lines r with
          | Some j => if j =? i
                      then set_prices (read_price r 15) (read_price r 16) l
                      else l
          | None => l
          end).
Proof.
  intros Hl. unfold ProjectEstimationImportWizard.import_row.
  destruct (row_target products lines r) as [j|] eqn:Et; [|assumption].
  destruct (lines !! j) as [lj|] eqn:Ej.
  - destruct (j =? i) eqn:E.
    + apply Nat.eqb_eq in E. subst j.
      rewrite list_lookup_insert_eq by (eapply lookup_lt_Some; eauto). congruence.
    + apply Nat.eqb_neq in E. rewrite list_lookup_insert_ne by assumption.
      assumption.
  - destruct (j =? i) eqn:E; [|assumption].
    apply Nat.eqb_eq in E. congruence.
Qed.

(** The rows together at line [i]: the last number of each column wins. *)
Lemma fold_import_lookup products rows : forall lines i l,
  lines !! i = Some l ->
  fold_left (import_row products) rows lines !! i
  = Some (set_prices (last_price products lines 15 i rows)
                     (last_price products lines 16 i rows) l).
Proof.
  induction rows as [|r rows IH]; intros lines i l Hl; simpl.
  - rewrite set_prices_none. assumption.
  - pose proof (import_row_lookup products lines r i l Hl) as H1.
    rewrite (IH _ i _ H1).
    rewrite <- !(last_price_stable products lines
                   (import_row products lines r)) by
      (symmetry; apply import_row_products).
    f_equal.
    destruct (row_target products lines r) as [j|];
      [destruct (j =? i)|]; rewrite ?set_prices_twice;
      destruct (last_price products lines 15 i rows),
               (last_price products lines 16 i rows); reflexivity.
Qed.

Lemma writes_stable products lines lines' r :
  map ProductLine.product_id lines = map ProductLine.product_id lines' ->
  writes products lines r = writes products lines' r.
Proof.
  intros H. unfold ImportAccounting.writes.
  rewrite (row_target_stable py str_float products lines lines' r H). reflexivity.
Qed.

Lemma filter_writes_stable products lines lines' rows :
  map ProductLine.product_id lines = map ProductLine.product_id lines' ->
  List.filter (writes products lines) rows
  = List.filter (writes products lines') rows.
Proof.
  intros H. induction rows as [|r rows IH]; simpl; [reflexivity|].
  rewrite IH, (writes_stable products lines lines' r H). reflexivity.
Qed.

(** The counters of the loop: a row that is written counts as an update,
    a row without code and name as skipped. *)
Lemma import_rows_counts self rows : forall idx st d p st' d',
  projects d !! project_id self = Some p ->
  import_rows self idx rows st d = Ok (st', d') ->
  let lines := Project.product_line_ids p in
  updated_count st'
  = updated_count st
    + length (List.filter (writes (product d) lines) (data_rows rows))
  /\ length (updates st')
     = length (updates st)
       + length (List.filter (writes (product d) lines) (data_rows rows))
  /\ skipped_count st'
     = skipped_count st
       + length (List.filter (blank py str_float) (data_rows rows)).
Proof.
  induction rows as [|r rest IH]; intros idx st d p st' d' Hp Hrun; cbv zeta.
  - injection Hrun as <- <-. simpl. lia.
  - destruct (stops py str_float r) eqn:Hs.
    + (* the loop stops at this row *)
      cbn [ProjectEstimationImportWizard.data_rows]. rewrite Hs.
      assert (Hret : import_rows self idx (r :: rest) st d = ret st d).
      { simpl. destruct r as [|a tl]; [reflexivity|]. unfold stops in Hs.
        destruct (cell_truthy a); simpl in Hs |- *; [|reflexivity].
        rewrite Hs. reflexivity. }
      rewrite Hret in Hrun. injection Hrun as <- <-. simpl. lia.
    + cbn [ProjectEstimationImportWizard.data_rows]. rewrite Hs.
      cbn [List.filter].
      destruct r as [|a tl]; [discriminate|]. unfold stops in Hs.
      destruct (cell_truthy a) eqn:Ea; [|discriminate]. simpl in Hs.
      simpl in Hrun. rewrite Ea, Hs in Hrun. simpl in Hrun.
      destruct tl as [|b tl]; [discriminate|]. simpl in Hrun.
      set (r := a :: b :: tl) in *.
      set (code := stripped py str_float a) in *.
      set (nm := stripped py str_float b) in *.
      assert (Hb : blank py str_float r
                   = negb (Py.truthy code) && negb (Py.truthy nm))
        by reflexivity.
      assert (Hw : writes (product d) (Project.product_line_ids p) r
                   = match _find_product_line (product d)
                             (Project.product_line_ids p) code nm with
                     | Some _ =>
                         match read_price r 15, read_price r 16 with
                         | None, None => false
                         | _, _ => true
                         end
                     | None => false
                     end) by reflexivity.
      rewrite Hb, Hw.
      destruct (negb (Py.truthy code) && negb (Py.truthy nm)) eqn:Eb.
      * assert (En : _find_product_line (product d)
                       (Project.product_line_ids p) code nm = None).
        { unfold _find_product_line. rewrite Eb. reflexivity. }
        rewrite En.
        destruct (IH _ _ _ _ _ _ Hp Hrun) as (H1 & H2 & H3).
        cbn [updated_count updates skipped_count] in H1, H2, H3.
        cbn [length]. lia.
      * unfold bind at 1, get in Hrun.
        unfold bind at 1, ProjectDefinition.browse in Hrun. rewrite Hp in Hrun.
        destruct (_find_product_line (product d) (Project.product_line_ids p)
                    code nm) as [i|] eqn:Ef.
        -- destruct (lookup_lt_is_Some_2 _ _
                       (_find_product_line_lt _ _ _ _ _ _ Ef)) as [l El].
           rewrite El in Hrun.
           assert (Hwrite : forall c s st1,
                      (run product_line_write (project_id self) i c s;
                       import_rows self (S idx) rest st1) d = Ok (st', d') ->
                      updated_count st'
                      = updated_count st1
                        + length (List.filter
                                    (writes (product d)
                                       (Project.product_line_ids p))
                                    (data_rows rest))
                      /\ length (updates st')
                         = length (updates st1)
                           + length (List.filter
                                       (writes (product d)
                                          (Project.product_line_ids p))
                                       (data_rows rest))
                      /\ skipped_count st'
                         = skipped_count st1
                           + length (List.filter (blank py str_float)
                                       (data_rows rest))).
           { intros c s st1 H.
             unfold bind, product_line_write, bind, ProjectDefinition.browse in H.
             rewrite Hp, El in H. unfold ProjectDefinition.store, modify in H.
             match type of H with
             | ProjectEstimationImportWizard.import_rows _ _ _ _ _ _ _ ?dd = _ =>
                 set (d1 := dd) in *
             end.
             assert (Hp1 : projects d1 !! project_id self
                           = Some (ProjectDefinition.set_product_line_ids
                                     (<[i := set_prices c s l]>
                                        (Project.product_line_ids p)) p)).
             { simpl. apply list_lookup_insert_eq. eapply lookup_lt_Some; eauto. }
             destruct (IH _ _ _ _ _ _ Hp1 H) as (H1 & H2 & H3).
             cbn [Project.product_line_ids
                    ProjectDefinition.set_product_line_ids] in H1, H2.
             change (product d1) with (product d) in H1, H2.
             rewrite (filter_writes_stable (product d) _
                        (Project.product_line_ids p)) in H1, H2
               by (apply insert_keeps_products; assumption).
             auto. }
           destruct (read_price r 15) as [c|] eqn:Ec,
                    (read_price r 16) as [s|] eqn:Es;
             try (destruct (Hwrite _ _ _ Hrun) as (H1 & H2 & H3);
                  cbn [updated_count updates skipped_count] in H1, H2, H3;
                  rewrite length_app in H2; cbn [length] in H2 |- *; lia).
           destruct (IH _ _ _ _ _ _ Hp Hrun) as (H1 & H2 & H3). lia.
        -- destruct (IH _ _ _ _ _ _ Hp Hrun) as (H1 & H2 & H3).
           cbn [updated_count updates skipped_count] in H1, H2, H3. lia.
Qed.

Lemma row_errors_length products lines rows : forall idx,
  length (row_errors py str_float products lines idx rows)
  = length (List.filter (unmatched products lines) rows).
Proof.
  induction rows as [|r rows IH]; intros idx; simpl; [reflexivity|].
  unfold ProjectEstimationImportWizard.row_error, ImportAccounting.unmatched.
  destruct (blank py str_float r); simpl; [apply IH|].
  destruct (row_target products lines r); simpl; rewrite IH; reflexivity.
Qed.

(** A row is written, unmatched or blank, or none of these. *)
Lemma row_counted_once products lines r :
  (writes products lines r = true -> unmatched products lines r = false
                                     /\ blank py str_float r = false)
  /\ (unmatched products lines r = true -> blank py str_float r = false).
Proof.
  unfold ImportAccounting.writes, ImportAccounting.unmatched.
  destruct (blank py str_float r) eqn:Eb.
  - assert (E : row_target products lines r = None).
    { unfold ProjectEstimationImportWizard.row_target, _find_product_line.
      unfold blank in Eb. rewrite Eb. reflexivity. }
    rewrite E. split; discriminate.
  - destruct (row_target products lines r); simpl; split; auto; discriminate.
Qed.

Lemma rows_counted_once products lines rows :
  length (List.filter (writes products lines) rows)
  + length (List.filter (unmatched products lines) rows)
  + length (List.filter (blank py str_float) rows)
  <= length rows.
Proof.
  induction rows as [|r rows IH]; [simpl; lia|].
  cbn [List.filter].
  destruct (row_counted_once products lines r) as [Hw Hu].
  destruct (writes products lines r).
  - destruct (Hw eq_refl) as [-> ->]. cbn [length]. lia.
  - destruct (unmatched products lines r).
    + rewrite (Hu eq_refl). cbn [length]. lia.
    + destruct (blank py str_float r); cbn [length]; lia.
Qed.

Lemma fold_import_products products rows : forall lines,
  map ProductLine.product_id (fold_left (import_row products) rows lines)
  = map ProductLine.product_id lines.
Proof.
  induction rows as [|r rows IH]; intros lines; simpl; [reflexivity|].
  rewrite IH. apply import_row_products.
Qed.

Lemma fold_import_length products rows : forall lines,
  length (fold_left (import_row products) rows lines) = length lines.
Proof.
  intros lines.
  rewrite <- (length_map ProductLine.product_id), fold_import_products.
  apply length_map.
Qed.

(** The rows applied a second time change nothing. *)
Lemma fold_import_idempotent products rows lines :
  fold_left (import_row products) rows
    (fold_left (import_row products) rows lines)
  = fold_left (import_row products) rows lines.
Proof.
  set (lines1 := fold_left (import_row products) rows lines).
  apply list_eq. intros i.
  destruct (lines !! i) as [l|] eqn:El.
  - pose proof (fold_import_lookup products rows lines i l El) as H1.
    fold lines1 in H1.
    rewrite (fold_import_lookup products rows lines1 i _ H1), H1. f_equal.
    rewrite <- !(last_price_stable products lines lines1)
      by (symmetry; apply fold_import_products).
    rewrite set_prices_twice.
    destruct (last_price products lines 15 i rows),
             (last_price products lines 16 i rows); reflexivity.
  - assert (Hlen : length lines <= i) by (apply lookup_ge_None; assumption).
    assert (H1 : lines1 !! i = None).
    { apply lookup_ge_None. unfold lines1. rewrite fold_import_length.
      assumption. }
    assert (H2 : fold_left (import_row products) rows lines1 !! i = None).
    { apply lookup_ge_None. rewrite fold_import_length. unfold lines1.
      rewrite fold_import_length. assumption. }
    rewrite H1, H2. reflexivity.
Qed.

Variable fmt_2f : Q -> string.
Variable now : Z.

Local Abbreviation _execute_import :=
  (_execute_import py str_float float_of_string fmt_2f now).

(** The import on a project and an estimation that exist, over data rows
    that have a name column: it returns, and the database and the tally
    are as follows. *)
Lemma _execute_import_full self ws start d p e :
  projects d !! project_id self = Some p ->
  estimations d !! estimation_id self = Some e ->
  let rows := data_rows (skipn (start - 1) ws) in
  let lines := Project.product_line_ids p in
  Forall (fun r => 2 <= length r) rows ->
  exists st d' m,
    _execute_import self ws start d = Ok (notification_of fmt_2f st, d')
    /\ projects d'
       = <[project_id self :=
             ProjectDefinition.add_message m
               (ProjectDefinition.set_product_line_ids
                  (fold_left (import_row (product d)) rows lines) p)]>
           (projects d)
    /\ estimations d'
       = <[estimation_id self := completed now self e]> (estimations d)
    /\ product d' = product d
    /\ updated_count st = length (List.filter (writes (product d) lines) rows)
    /\ length (updates st) = updated_count st
    /\ skipped_count st = length (List.filter (blank py str_float) rows)
    /\ length (errors st) = length (List.filter (unmatched (product d) lines) rows)
    /\ errors st
       = ProjectEstimationImportWizard.row_errors py str_float (product d)
           lines start rows.
Proof.
  intros Hp He rows lines Hwide.
  destruct (import_rows_run py str_float float_of_string self
              (skipn (start - 1) ws) start (Tally [] 0 [] 0) d p Hp Hwide)
    as (st & Hrun & Herr).
  destruct (import_rows_counts self _ _ _ _ _ _ _ Hp Hrun) as (H1 & H2 & H3).
  fold rows lines in Hrun, Herr, H1, H2, H3.
  cbn [updated_count updates skipped_count errors length] in H1, H2, H3, Herr.
  set (p1 := ProjectDefinition.set_product_line_ids
               (fold_left (import_row (product d)) rows lines) p) in *.
  set (d1 := set_projects (<[project_id self := p1]> (projects d)) d) in *.
  assert (Hp1 : projects d1 !! project_id self = Some p1).
  { simpl. apply list_lookup_insert_eq. eapply lookup_lt_Some; eauto. }
  unfold ProjectEstimationImportWizard._execute_import, bind at 1.
  rewrite Hrun.
  unfold finish_import, bind at 1, estimation_write.
  change (estimations d1) with (estimations d). rewrite He.
  set (d2 := set_estimations
               (<[estimation_id self :=
                    Estimation.Make (Estimation.name e) (Estimation.project_id e)
                      (excel_file self) (filename self) (Some now)
                      Estimation.completed]> (estimations d)) d1).
  unfold bind at 1, estimation_name.
  assert (He2 : estimations d2 !! estimation_id self
                = Some (completed now self e)).
  { simpl. apply list_lookup_insert_eq. eapply lookup_lt_Some; eauto. }
  rewrite He2.
  unfold bind at 1.
  assert (Hp2 : projects d2 !! project_id self = Some p1) by exact Hp1.
  rewrite (ProjectDefinitionFacts.message_post_run _ _ _ _ _ _ Hp2).
  eexists st, _, _. split; [reflexivity|]. simpl.
  rewrite list_insert_insert_eq.
  split; [reflexivity|]. split; [reflexivity|]. split; [reflexivity|].
  split; [assumption|]. split; [lia|]. split; [assumption|].
  split; [rewrite Herr; apply row_errors_length|exact Herr].
Qed.

(** ** The matching, against its specification *)

Lemma truthy_true (s : string) : Py.truthy s = true <-> s <> ""%string.
Proof.
  unfold Py.truthy. rewrite negb_true_iff. split.
  - intros H ->. discriminate.
  - intros H. apply String.eqb_neq. exact H.
Qed.

Lemma truthy_false (s : string) : Py.truthy s = false <-> s = ""%string.
Proof.
  unfold Py.truthy. rewrite negb_false_iff. apply String.eqb_eq.
Qed.

Lemma code_is_spec products code l :
  code_is py products code l = true
  <-> ImportMatching.has_code py products code l.
Proof.
  unfold code_is, ImportMatching.has_code.
  destruct (Product.default_code (products (ProductLine.product_id l)))
    as [c|].
  - rewrite andb_true_iff, truthy_true, String.eqb_eq. split.
    + intros [H1 H2]. exists c. auto.
    + intros (c' & [= <-] & H1 & H2). auto.
  - split; [discriminate|]. intros (c & H & _). discriminate.
Qed.

Lemma name_is_spec products name l :
  name_is py products name l = true
  <-> ImportMatching.has_name py products name l.
Proof.
  unfold name_is, ImportMatching.has_name.
  rewrite andb_true_iff, truthy_true, String.eqb_eq. reflexivity.
Qed.

Lemma name_is_nocase_spec products name l :
  name_is_nocase py products name l = true
  <-> ImportMatching.has_name_nocase py products name l.
Proof.
  unfold name_is_nocase, ImportMatching.has_name_nocase.
  rewrite andb_true_iff, truthy_true, String.eqb_eq. reflexivity.
Qed.

Lemma first_match_first_line (f : ProductLine.t -> bool)
    (P : ProductLine.t -> Prop) (lines : list ProductLine.t) (i : nat) :
  (forall l, f l = true <-> P l) ->
  first_match f lines = Some i <-> ImportMatching.first_line P lines i.
Proof.
  intros Hf. rewrite first_match_Some. unfold ImportMatching.first_line.
  split; intros [(l & Hl & Hp) Hmin].
  - split; [exists l; split; [exact Hl|apply Hf; exact Hp]|].
    intros j l' Hj Hl' HP. apply Hf in HP.
    rewrite (Hmin j l' Hj Hl') in HP. discriminate.
  - split; [exists l; split; [exact Hl|apply Hf; exact Hp]|].
    intros j l' Hj Hl'. destruct (f l') eqn:E; [|reflexivity].
    exfalso. apply (Hmin j l' Hj Hl'). apply Hf. exact E.
Qed.

Lemma first_match_no_line (f : ProductLine.t -> bool)
    (P : ProductLine.t -> Prop) (lines : list ProductLine.t) :
  (forall l, f l = true <-> P l) ->
  first_match f lines = None <-> ImportMatching.no_line P lines.
Proof.
  intros Hf. rewrite first_match_None. unfold ImportMatching.no_line.
  split; intros H l Hl.
  - intros HP. apply Hf in HP. rewrite (H l Hl) in HP. discriminate.
  - destruct (f l) eqn:E; [|reflexivity].
    exfalso. apply (H l Hl). apply Hf. exact E.
Qed.

Lemma first_line_not_none (P : ProductLine.t -> Prop) lines i :
  ImportMatching.first_line P lines i -> ImportMatching.no_line P lines ->
  False.
Proof.
  intros [(l & Hl & HP) _] Hno. apply (Hno l); [|exact HP].
  apply list_elem_of_In, list_elem_of_lookup. exists i. exact Hl.
Qed.

Lemma first_line_unique (P : ProductLine.t -> Prop) lines i j :
  ImportMatching.first_line P lines i -> ImportMatching.first_line P lines j ->
  i = j.
Proof.
  intros [(l & Hl & HP) Hi] [(l' & Hl' & HP') Hj].
  destruct (lt_eq_lt_dec i j) as [[H|H]|H]; [|exact H|].
  - exfalso. exact (Hj i l H Hl HP).
  - exfalso. exact (Hi j l' H Hl' HP').
Qed.

(** The search of [_find_product_line] is the matching of the
    specification. *)
Lemma _find_product_line_matched products lines code name :
  (forall i, _find_product_line products lines code name = Some i
             <-> ImportMatching.matched py products lines code name i)
  /\ (_find_product_line products lines code name = None
      <-> ImportMatching.not_matched py products lines code name).
Proof.
  rewrite _find_product_line_spec.
  unfold ImportMatching.matched, ImportMatching.not_matched,
    ImportMatching.no_code_match, ImportMatching.no_name_match.
  destruct (Py.truthy code) eqn:Tc, (Py.truthy name) eqn:Tn;
    cbn [negb andb];
    try apply truthy_true in Tc; try apply truthy_false in Tc;
    try apply truthy_true in Tn; try apply truthy_false in Tn.
  - (* code and name *)
    destruct (first_match (code_is py products code) lines) as [kc|] eqn:Ec.
    + apply (first_match_first_line _ _ _ _ (code_is_spec products code)) in Ec. split.
      * intros i. split.
        -- intros [= <-]. left. auto.
        -- intros [[_ H]|[([H|H] & _)|([H|H] & _)]];
             try contradiction;
             try (exfalso; exact (first_line_not_none _ _ _ Ec H)).
           f_equal. exact (first_line_unique _ _ _ _ Ec H).
      * split; [discriminate|]. intros [[H|H] _]; [contradiction|].
        exfalso. exact (first_line_not_none _ _ _ Ec H).
    + apply (first_match_no_line _ _ _ (code_is_spec products code)) in Ec.
      destruct (first_match (name_is py products name) lines) as [kn|] eqn:En.
      * apply (first_match_first_line _ _ _ _ (name_is_spec products name)) in En. split.
        -- intros i. split.
           ++ intros [= <-]. right. left. auto.
           ++ intros [[_ H]|[(_ & _ & H)|(_ & _ & H & _)]].
              ** exfalso. exact (first_line_not_none _ _ _ H Ec).
              ** f_equal. exact (first_line_unique _ _ _ _ En H).
              ** exfalso. exact (first_line_not_none _ _ _ En H).
        -- split; [discriminate|]. intros [_ [H|[H _]]]; [contradiction|].
           exfalso. exact (first_line_not_none _ _ _ En H).
      * apply (first_match_no_line _ _ _ (name_is_spec products name)) in En.
        destruct (first_match (name_is_nocase py products name) lines)
          as [ki|] eqn:Ei.
        -- apply (first_match_first_line _ _ _ _ (name_is_nocase_spec products name)) in Ei. split.
           ++ intros i. split.
              ** intros [= <-]. right. right. auto.
              ** intros [[_ H]|[(_ & _ & H)|(_ & _ & _ & H)]].
                 --- exfalso. exact (first_line_not_none _ _ _ H Ec).
                 --- exfalso. exact (first_line_not_none _ _ _ H En).
                 --- f_equal. exact (first_line_unique _ _ _ _ Ei H).
           ++ split; [discriminate|]. intros [_ [H|[_ H]]]; [contradiction|].
              exfalso. exact (first_line_not_none _ _ _ Ei H).
        -- apply (first_match_no_line _ _ _ (name_is_nocase_spec products name)) in Ei. split.
           ++ intros i. split; [discriminate|].
              intros [[_ H]|[(_ & _ & H)|(_ & _ & _ & H)]].
              ** exfalso. exact (first_line_not_none _ _ _ H Ec).
              ** exfalso. exact (first_line_not_none _ _ _ H En).
              ** exfalso. exact (first_line_not_none _ _ _ H Ei).
           ++ split; [intros _|reflexivity]. auto.
  - (* code only *)
    destruct (first_match (code_is py products code) lines) as [kc|] eqn:Ec.
    + apply (first_match_first_line _ _ _ _ (code_is_spec products code)) in Ec. split.
      * intros i. split.
        -- intros [= <-]. left. auto.
        -- intros [[_ H]|[(_ & H & _)|(_ & H & _)]]; try contradiction.
           f_equal. exact (first_line_unique _ _ _ _ Ec H).
      * split; [discriminate|]. intros [[H|H] _]; [contradiction|].
        exfalso. exact (first_line_not_none _ _ _ Ec H).
    + apply (first_match_no_line _ _ _ (code_is_spec products code)) in Ec. split.
      * intros i. split; [discriminate|].
        intros [[_ H]|[(_ & H & _)|(_ & H & _)]]; try contradiction.
        exfalso. exact (first_line_not_none _ _ _ H Ec).
      * split; [intros _|reflexivity]. auto.
  - (* name only *)
    destruct (first_match (name_is py products name) lines) as [kn|] eqn:En.
    + apply (first_match_first_line _ _ _ _ (name_is_spec products name)) in En. split.
      * intros i. split.
        -- intros [= <-]. right. left. auto.
        -- intros [[H _]|[(_ & _ & H)|(_ & _ & H & _)]].
           ++ contradiction.
           ++ f_equal. exact (first_line_unique _ _ _ _ En H).
           ++ exfalso. exact (first_line_not_none _ _ _ En H).
      * split; [discriminate|]. intros [_ [H|[H _]]]; [contradiction|].
        exfalso. exact (first_line_not_none _ _ _ En H).
    + apply (first_match_no_line _ _ _ (name_is_spec products name)) in En.
      destruct (first_match (name_is_nocase py products name) lines)
        as [ki|] eqn:Ei.
      * apply (first_match_first_line _ _ _ _ (name_is_nocase_spec products name)) in Ei. split.
        -- intros i. split.
           ++ intros [= <-]. right. right. auto.
           ++ intros [[H _]|[(_ & _ & H)|(_ & _ & _ & H)]].
              ** contradiction.
              ** exfalso. exact (first_line_not_none _ _ _ H En).
              ** f_equal. exact (first_line_unique _ _ _ _ Ei H).
        -- split; [discriminate|]. intros [_ [H|[_ H]]]; [contradiction|].
           exfalso. exact (first_line_not_none _ _ _ Ei H).
      * apply (first_match_no_line _ _ _ (name_is_nocase_spec products name)) in Ei. split.
        -- intros i. split; [discriminate|].
           intros [[H _]|[(_ & _ & H)|(_ & _ & _ & H)]].
           ++ contradiction.
           ++ exfalso. exact (first_line_not_none _ _ _ H En).
           ++ exfalso. exact (first_line_not_none _ _ _ H Ei).
        -- split; [intros _|reflexivity]. auto.
  - (* neither *)
    split.
    + intros i. split; [discriminate|].
      intros [[H _]|[(_ & H & _)|(_ & H & _)]]; contradiction.
    + split; [intros _|reflexivity]. auto.
Qed.

Lemma row_errors_In_inv products lines rows : forall idx err,
  In err (ProjectEstimationImportWizard.row_errors py str_float products lines
            idx rows) ->
  exists k r,
    rows !! k = Some r
    /\ ProjectEstimationImportWizard.row_error py str_float products lines
         (idx + k) r = Some err.
Proof.
  induction rows as [|r0 rows IH]; intros idx err Hin; [destruct Hin|].
  simpl in Hin.
  destruct (ProjectEstimationImportWizard.row_error py str_float products
              lines idx r0) as [e0|] eqn:E0.
  - destruct Hin as [<-|Hin].
    + exists 0, r0. rewrite Nat.add_0_r. auto.
    + destruct (IH _ _ Hin) as (k & r & Hk & Hr).
      exists (S k), r. replace (idx + S k) with (S idx + k) by lia. auto.
  - destruct (IH _ _ Hin) as (k & r & Hk & Hr).
    exists (S k), r. replace (idx + S k) with (S idx + k) by lia. auto.
Qed.

(** The part of the summary on the errors rests on the first five of them
    and on their number. *)
Lemma errors_text_cut (es es' : list string) :
  firstn 5 es = firstn 5 es' -> length es = length es' ->
  errors_text es = errors_text es'.
Proof.
  intros Hf Hl. unfold errors_text.
  destruct es as [|e es], es' as [|e' es']; try discriminate; [reflexivity|].
  rewrite Hf, Hl. reflexivity.
Qed.

Lemma notification_of_cut st st' :
  updates st' = updates st -> updated_count st' = updated_count st ->
  skipped_count st' = skipped_count st ->
  firstn 5 (errors st') = firstn 5 (errors st) ->
  length (errors st') = length (errors st) ->
  notification_of fmt_2f st' = notification_of fmt_2f st.
Proof.
  intros Hu Hc Hs Hf Hl. unfold notification_of, summary_of.
  rewrite Hu, Hc, Hs, (errors_text_cut _ _ Hf Hl).
  assert (Hn : ProjectDefinition.nonempty (errors st')
               = ProjectDefinition.nonempty (errors st)).
  { destruct (errors st'), (errors st); try discriminate; reflexivity. }
  rewrite Hn. reflexivity.
Qed.






End Rows.

Import ImportScenario RepeatedRows.

Local Abbreviation str := WizardScenario.str_float.
Local Abbreviation execute :=
  (_execute_import Py.ascii_methods str float_of_string str now).

Lemma sheet_twice_rows_wide :
  Forall (fun r : row => 2 <= length r) (data_rows Py.ascii_methods str (skipn (2 - 1) sheet_twice)).
Proof. repeat constructor; simpl; lia. Qed.

Lemma sheet_unknown_rows_wide :
  Forall (fun r : row => 2 <= length r)
         (data_rows Py.ascii_methods str (skipn (2 - 1) sheet_unknown)).
Proof. repeat constructor; simpl; lia. Qed.






End ImportAccountingFacts.

(* ===================================================================== *)
(** * Properties of the quantity left to produce *)
(* ===================================================================== *)

Module PlanningQuantitiesFacts.

Import Planning PlanningQuantities WorkOrderCreationWizard.
Import WorkOrderCreationWizardFacts.

Lemma gt_false_le a b : Py.gt a b = false <-> (a <= b)%Q.
Proof.
  unfold Py.gt. rewrite negb_false_iff. apply Qle_bool_iff.
Qed.

Lemma le_false_lt a b : Py.le a b = false <-> (b < a)%Q.
Proof.
  unfold Py.le. rewrite <- not_true_iff_false, Qle_bool_iff.
  split; [apply Qnot_le_lt|apply Qlt_not_le].
Qed.

(** Linking fresh ids appends them. *)
Lemma link_fresh m : forall n old,
  Forall (fun id => id < n) old ->
  fold_left MaterialProductionPlanning.link (seq n m) old = old ++ seq n m.
Proof.
  induction m as [|m IH]; intros n old Hold; simpl.
  - rewrite app_nil_r. reflexivity.
  - assert (E : MaterialProductionPlanning.link old n = old ++ [n]).
    { unfold MaterialProductionPlanning.link.
      destruct (existsb (Nat.eqb n) old) eqn:Ex; [|reflexivity].
      apply existsb_exists in Ex as (x & Hx & Hn). apply Nat.eqb_eq in Hn.
      subst x. rewrite Forall_forall in Hold.
      apply list_elem_of_In in Hx. specialize (Hold n Hx). lia. }
    rewrite E, IH.
    + rewrite <- app_assoc. reflexivity.
    + apply Forall_app. split.
      * eapply Forall_impl; [exact Hold|]. simpl. intros; lia.
      * repeat constructor.
Qed.

Lemma omap_lookup_old {A} (l1 l2 : list A) (ids : list nat) :
  Forall (fun id => id < length l1) ids ->
  omap (fun id => (l1 ++ l2) !! id) ids = omap (fun id => l1 !! id) ids.
Proof.
  induction 1 as [|id ids Hid _ IH]; csimpl; [reflexivity|].
  rewrite lookup_app_l by assumption. rewrite IH. reflexivity.
Qed.

Lemma omap_lookup_new {A} (l2 : list A) : forall (l1 : list A),
  omap (fun id => (l1 ++ l2) !! id) (seq (length l1) (length l2)) = l2.
Proof.
  induction l2 as [|x l2 IH]; intros l1; csimpl; [reflexivity|].
  rewrite list_lookup_middle by reflexivity.
  specialize (IH (l1 ++ [x])). rewrite length_app, <- app_assoc in IH.
  simpl in IH. rewrite Nat.add_1_r in IH. rewrite IH. reflexivity.
Qed.

Section Wizard.

Variable ilike : string -> string -> bool.
Variable like : string -> string -> bool.
Variable str_float : Q -> string.
Variable ops : Py.float_ops.

Local Abbreviation _check_quantity := (_check_quantity str_float).
Local Abbreviation action_create_work_orders :=
  (action_create_work_orders ops str_float).
Local Abbreviation action_create_orders :=
  (action_create_orders ilike like str_float ops).
Local Abbreviation remaining_qty := (remaining_qty ops).
Local Abbreviation no_more_message := (no_more_message ops str_float).
Local Abbreviation wizard_create := (wizard_create str_float).

Lemma _check_quantity_ok w :
  _check_quantity w = Ok tt <->
  (0 < quantity_to_produce w)%Q /\ (quantity_to_produce w <= max_quantity w)%Q.
Proof.
  unfold PlanningQuantities._check_quantity.
  destruct (Py.le (quantity_to_produce w) 0) eqn:E1.
  - split; [discriminate|]. intros [H _]. apply le_false_lt in H. congruence.
  - apply le_false_lt in E1.
    destruct (Py.gt (quantity_to_produce w) (max_quantity w)) eqn:E2.
    + split; [discriminate|]. intros [_ H]. apply gt_false_le in H. congruence.
    + apply gt_false_le in E2. split; auto.
Qed.

(** X15: action_create_work_orders raises a user error when the planning
    has no component line, and another one when nothing is left to
    produce; otherwise it returns, the database unchanged, a wizard for the
    planning and its product whose maximum and proposed quantities are
    both the quantity left, positive; this wizard passes its own
    constraint _check_quantity, so its creation raises no validation
    error, and it passes the first guard of action_create_orders.  The
    quantity left is the greater of 0 and the planned quantity minus the
    sum of the quantities of the linked orders for the product of the
    planning, the difference and the sum being those of the floats,
    whatever their rounding. *)
Theorem create_work_orders_opens_valid_wizard self d r :
  plannings d !! self = Some r ->
  remaining_qty d r
  = Qmax 0 (Py.sub ops (Planning.quantity r)
              (Py.fsum ops
                 (map Production.product_qty
                    (List.filter
                       (fun o => Production.product_id o
                                 =? Planning.product_id r)
                       (omap (fun id => productions d !! id)
                             (production_order_ids r))))))
  /\
  match component_line_ids r with
  | [] => action_create_work_orders self d
          = Raise (UserError "Please load components first!")
  | _ =>
      if Py.le (remaining_qty d r) 0
      then action_create_work_orders self d
           = Raise (UserError (no_more_message d r))
      else
        let w := Make self (Planning.product_id r) (remaining_qty d r)
                      (remaining_qty d r) true in
        action_create_work_orders self d = Ok (w, d)
        /\ (0 < quantity_to_produce w)%Q
        /\ _check_quantity w = Ok tt
        /\ Py.gt (quantity_to_produce w) (max_quantity w) = false
  end.
Proof.
  intros Hr.
  split.
  { unfold PlanningQuantities.remaining_qty.
    rewrite MaterialProductionPlanningFacts.max0_Qmax. reflexivity. }
  assert (Hrun : action_create_work_orders self d
                 = match component_line_ids r with
                   | [] => Raise (UserError "Please load components first!")
                   | _ =>
                       if Py.le (remaining_qty d r) 0
                       then Raise (UserError (no_more_message d r))
                       else wizard_create self (Planning.product_id r)
                              (remaining_qty d r) (remaining_qty d r) d
                   end).
  { unfold PlanningQuantities.action_create_work_orders, bind at 1,
      MaterialProductionPlanning.browse. rewrite Hr.
    destruct (component_line_ids r); [reflexivity|].
    unfold bind, get. destruct (Py.le (remaining_qty d r) 0); reflexivity. }
  rewrite Hrun. clear Hrun.
  destruct (component_line_ids r) as [|c comps]; [reflexivity|].
  destruct (Py.le (remaining_qty d r) 0) eqn:E; [reflexivity|].
  cbv zeta.
  assert (Hpos : (0 < remaining_qty d r)%Q) by (apply le_false_lt; assumption).
  assert (Hok : _check_quantity (Make self (Planning.product_id r) (remaining_qty d r)
                                      (remaining_qty d r) true) = Ok tt).
  { apply _check_quantity_ok. simpl. split; [assumption|apply Qle_refl]. }
  unfold wizard_create. rewrite Hok. split; [reflexivity|].
  split; [exact Hpos|]. split; [reflexivity|].
  apply gt_false_le. apply Qle_refl.
Qed.

(** What a returning [action_create_orders] has done. *)
Lemma action_create_orders_inv self d r a d' :
  plannings d !! planning_id self = Some r ->
  Planning.project_id r < length (projects d) ->
  action_create_orders self d = Ok (a, d') ->
  let main := Production.Make (product_id self) (quantity_to_produce self)
                (Product.uom_id (product d (product_id self))) None
                (Some (Planning.name r)) Production.draft in
  let extra := if create_component_orders self
               then component_orders ops d (Planning.name r) (ratio_of ops self r)
                      (component_line_ids r)
               else [] in
  productions d' = productions d ++ main :: extra
  /\ plannings d'
     = <[planning_id self :=
           MaterialProductionPlanning.apply_vals
             (MaterialProductionPlanning.Vals None None
                (Some (seq (length (productions d)) (S (length extra))))
                (Some work_orders_created)) r]> (plannings d).
Proof.
  intros Hr Hlt Hrun main extra.
  destruct (Py.gt (quantity_to_produce self) (max_quantity self)) eqn:Hgt.
  { unfold WorkOrderCreationWizard.action_create_orders in Hrun.
    rewrite Hgt in Hrun. discriminate. }
  set (d0 := set_productions (productions d ++ [main]) d).
  destruct ((if create_component_orders self
             then create_component_productions like str_float ops (Planning.name r)
                    (ratio_of ops self r) (component_line_ids r)
                    [length (productions d)]
             else ret [length (productions d)]) d0)
    as [[ids d2]|e] eqn:Hloop.
  - assert (Hshape : ids = seq (length (productions d)) (S (length extra))
                     /\ d2 = set_productions (productions d ++ main :: extra) d).
    { subst extra. destruct (create_component_orders self).
      - rewrite create_component_productions_run in Hloop.
        destruct (first_excess like ops d0 (Planning.name r) (ratio_of ops self r)
                    (productions d0) (component_line_ids r))
          as [[comp prods]|]; [discriminate|].
        injection Hloop as <- <-. unfold d0.
        rewrite component_orders_set_productions. simpl.
        rewrite length_app, Nat.add_1_r, <- app_assoc. auto.
      - injection Hloop as <- <-. auto. }
    destruct Hshape as [-> ->].
    destruct (action_create_orders_run ilike like str_float ops self d r Hr Hlt Hgt
                _ _ Hloop eq_refl eq_refl) as (a0 & d0' & Hrun0 & Hprods & Hpl).
    rewrite Hrun0 in Hrun. injection Hrun as _ <-. auto.
  - unfold WorkOrderCreationWizard.action_create_orders in Hrun.
    rewrite Hgt in Hrun.
    unfold bind at 1, MaterialProductionPlanning.browse in Hrun.
    rewrite Hr in Hrun.
    unfold bind at 1, get in Hrun. unfold bind at 1, production_create in Hrun.
    unfold bind at 1 in Hrun. fold main in Hrun. fold d0 in Hrun.
    rewrite Hloop in Hrun. discriminate.
Qed.

Lemma component_orders_other_products d name ratio comps P :
  Forall (fun comp => match Component.bom_id comp with
                      | Some _ => Component.component_id comp <> P
                      | None => True
                      end) comps ->
  List.filter (fun p => Production.product_id p =? P)
              (component_orders ops d name ratio comps) = [].
Proof.
  induction 1 as [|comp comps Hc _ IH]; simpl; [reflexivity|].
  destruct (Component.bom_id comp); [|assumption].
  simpl. apply Nat.eqb_neq in Hc. rewrite Hc. assumption.
Qed.

(** The orders counted as produced after a returning
    [action_create_orders] of a wizard for the product of its planning. *)
Lemma main_productions_after_orders self d r a d' :
  plannings d !! planning_id self = Some r ->
  Planning.project_id r < length (projects d) ->
  orders_exist d r ->
  create_component_orders self = false \/ components_differ r ->
  product_id self = Planning.product_id r ->
  action_create_orders self d = Ok (a, d') ->
  exists r',
    plannings d' !! planning_id self = Some r'
    /\ Planning.quantity r' = Planning.quantity r
    /\ map Production.product_qty (main_productions d' r')
       = map Production.product_qty (main_productions d r)
         ++ [quantity_to_produce self].
Proof.
  intros Hr Hlt Hold Hdiff Hprod Hrun.
  destruct (action_create_orders_inv self d r a d' Hr Hlt Hrun) as [Hps Hpl].
  set (main := Production.Make (product_id self) (quantity_to_produce self)
                 (Product.uom_id (product d (product_id self))) None
                 (Some (Planning.name r)) Production.draft) in *.
  set (extra := if create_component_orders self
                then component_orders ops d (Planning.name r) (ratio_of ops self r)
                       (component_line_ids r)
                else []) in *.
  eexists. split.
  { rewrite Hpl. apply list_lookup_insert_eq. eapply lookup_lt_Some; eauto. }
  split; [reflexivity|].
  unfold main_productions, production_orders.
  cbn [MaterialProductionPlanning.apply_vals Planning.production_order_ids
       Planning.product_id MaterialProductionPlanning.v_production_order_ids
       default from_option id].
  rewrite (link_fresh _ _ _ Hold), Hps, omap_app.
  rewrite (omap_lookup_old _ _ _ Hold).
  replace (S (length extra)) with (length (main :: extra)) by reflexivity.
  rewrite omap_lookup_new, List.filter_app.
  assert (Hextra : List.filter
                     (fun p => Production.product_id p =? Planning.product_id r)
                     extra = []).
  { subst extra. destruct Hdiff as [-> | Hd]; [reflexivity|].
    destruct (create_component_orders self); [|reflexivity].
    apply component_orders_other_products. exact Hd. }
  cbn [List.filter]. rewrite Hextra.
  cbn [Production.product_id main]. unfold main at 1.
  cbn [Production.product_id]. rewrite Hprod, Nat.eqb_refl.
  rewrite map_app. reflexivity.
Qed.

(** X16: the order of the wizard is what counts against the plan.  For a
    wizard on a planning whose project exists and whose linked production
    orders exist, made for the product of the planning, and provided no
    order of a component is an order of the product of the planning
    itself: when action_create_orders returns, the quantities that
    _compute_produced_quantities adds up are those it added up before,
    followed by the quantity of the wizard, the orders of the components
    not being counted, and the planned quantity is as before; when it
    raises, the database is as before. *)
Theorem wizard_order_counts_as_produced w d r :
  plannings d !! planning_id w = Some r ->
  Planning.project_id r < length (projects d) ->
  orders_exist d r ->
  create_component_orders w = false \/ components_differ r ->
  product_id w = Planning.product_id r ->
  let out := transaction (action_create_orders w) d in
  match out.2 with
  | Ok _ =>
      exists r',
        plannings out.1 !! planning_id w = Some r'
        /\ Planning.quantity r' = Planning.quantity r
        /\ map Production.product_qty (main_productions out.1 r')
           = map Production.product_qty (main_productions d r)
             ++ [quantity_to_produce w]
        /\ total_produced_qty ops out.1 r'
           = Py.fsum ops (map Production.product_qty (main_productions d r)
                          ++ [quantity_to_produce w])
  | Raise _ => out.1 = d
  end.
Proof.
  intros Hr Hlt Hold Hdiff Hprod out. subst out.
  unfold transaction.
  destruct (action_create_orders w d) as [[a d']|e] eqn:Hrun; simpl;
    [|reflexivity].
  destruct (main_productions_after_orders w d r a d' Hr Hlt Hold Hdiff Hprod Hrun)
    as (r' & Hr' & Hq & Hmain).
  exists r'. split; [assumption|]. split; [assumption|].
  split; [assumption|].
  unfold total_produced_qty. rewrite Hmain. reflexivity.
Qed.

End Wizard.

Import PlanningScenario WizardScenario.

Lemma create_work_orders_opens_valid_wizard_witness :
  action_create_work_orders Py.exact_ops WizardScenario.str_float 0
    (base [frame; paint])
  = Ok (Make 0 7 10 10 true, base [frame; paint]).
Proof.
  exact (proj1 (proj2 (create_work_orders_opens_valid_wizard
                         WizardScenario.str_float Py.exact_ops 0
                         (base [frame; paint]) (planning [frame; paint])
                         eq_refl))).
Defined.

Lemma wizard_order_counts_as_produced_witness :
  exists r',
    plannings
      (transaction (action_create_orders ProjectScenario.ilike like
                      WizardScenario.str_float Py.exact_ops (wizard 10 true))
                   (base [frame; paint])).1 !! 0 = Some r'
    /\ map Production.product_qty
         (main_productions
            (transaction (action_create_orders ProjectScenario.ilike like
                            WizardScenario.str_float Py.exact_ops
                            (wizard 10 true))
                         (base [frame; paint])).1 r')
       = [10%Q].
Proof.
  pose proof (wizard_order_counts_as_produced ProjectScenario.ilike like
                WizardScenario.str_float Py.exact_ops (wizard 10 true)
                (base [frame; paint]) (planning [frame; paint]) eq_refl
                ltac:(simpl; lia) ltac:(constructor)
                ltac:(right; repeat constructor; simpl; discriminate)
                eq_refl) as H.
  cbv zeta in H.
  destruct (transaction (action_create_orders ProjectScenario.ilike like
                           WizardScenario.str_float Py.exact_ops
                           (wizard 10 true)) (base [frame; paint]))
    as [d' [a|e]] eqn:E; [|vm_compute in E; discriminate].
  simpl in H. destruct H as (r' & Hr & _ & Hmain & _).
  exists r'. split; [exact Hr|exact Hmain].
Defined.

End PlanningQuantitiesFacts.

(* ===================================================================== *)
(** * Properties of the issuing of materials on request *)
(* ===================================================================== *)

Module MaterialIssueFacts.

Import WorkOrderExecution MaterialIssue.

Section Facts.

Variable World : Type.
Variable production_state : World -> nat -> Production.state_t.
Variable production_name : World -> nat -> string.
Variable move_raw_ids : World -> nat -> list nat.
Variable state_of_move : World -> nat -> move_state.
Variable product_name : World -> nat -> string.
Variable product_uom_qty : World -> nat -> Q.
Variable qty_available : World -> nat -> Q.
Variable move_line_ids : World -> nat -> list nat.
Variable quantity : World -> nat -> Q.
Variable qty_done : World -> nat -> Q.
Variable reserved_qty : World -> nat -> Q.
Variable has_quantity : bool.
Variable action_confirm : nat -> World -> option exn * World.
Variable action_assign : nat -> World -> option exn * World.
Variable _action_assign : nat -> World -> option exn * World.
Variable _action_done : nat -> World -> option exn * World.
Variable set_quantity : nat -> Q -> World -> option exn * World.
Variable set_qty_done : nat -> Q -> World -> option exn * World.
Variable selected_productions : World -> nat -> list nat.
Variable fmt_2f : Q -> string.

Local Abbreviation prepare :=
  (prepare World production_state production_name action_confirm
     action_assign).
Local Abbreviation pending_moves :=
  (pending_moves World move_raw_ids state_of_move).
Local Abbreviation issue_moves :=
  (issue_moves World production_name state_of_move product_name
     product_uom_qty qty_available move_line_ids quantity qty_done
     reserved_qty has_quantity _action_assign _action_done set_quantity
     set_qty_done).
Local Abbreviation _auto_issue_materials :=
  (_auto_issue_materials World production_state production_name move_raw_ids
     state_of_move product_name product_uom_qty qty_available move_line_ids
     quantity qty_done reserved_qty has_quantity action_confirm action_assign
     _action_assign _action_done set_quantity set_qty_done).
Local Abbreviation check_state :=
  (check_state World production_state production_name action_confirm).
Local Abbreviation issue_line :=
  (issue_line World production_state production_name move_raw_ids
     state_of_move product_name product_uom_qty qty_available move_line_ids
     quantity qty_done reserved_qty has_quantity action_confirm action_assign
     _action_assign _action_done set_quantity set_qty_done fmt_2f).
Local Abbreviation issue_lines :=
  (issue_lines World production_state production_name move_raw_ids
     state_of_move product_name product_uom_qty qty_available move_line_ids
     quantity qty_done reserved_qty has_quantity action_confirm action_assign
     _action_assign _action_done set_quantity set_qty_done fmt_2f).
Local Abbreviation action_issue_materials_for_selected :=
  (action_issue_materials_for_selected World production_state production_name
     move_raw_ids state_of_move product_name product_uom_qty qty_available
     move_line_ids quantity qty_done reserved_qty has_quantity action_confirm
     action_assign _action_assign _action_done set_quantity set_qty_done
     selected_productions fmt_2f).

(** The preparation returns. *)
Lemma prepare_total production s :
  exists b s1, prepare production s = (Ok b, s1).
Proof.
  pose proof (WorkOrderExecutionFacts.prepare_returns World production_state
                production_name action_confirm action_assign production s) as H.
  destruct (production_state (world World s) production);
    try (destruct H as [s1 H]; eauto).
  destruct (action_confirm production (world World s)) as [[e|] w].
  - eauto.
  - destruct H as [s1 H]. eauto.
Qed.

(** The automatic issuing returns a pair of counts, the first at most the
    second. *)
Lemma _auto_issue_materials_total production s :
  exists issued total s',
    _auto_issue_materials production s = (Ok (issued, total), s')
    /\ issued <= total.
Proof.
  destruct (prepare_total production s) as (b & s1 & Hp).
  unfold WorkOrderExecution._auto_issue_materials, wbind at 1. rewrite Hp.
  destruct b; simpl; [|exists 0, 0, s1; split; [reflexivity|lia]].
  unfold wbind at 1, read.
  destruct (length (pending_moves (world World s1) production) =? 0) eqn:E0.
  - exists 0, 0, s1. split; [reflexivity|lia].
  - destruct (WorkOrderExecutionFacts.issue_moves_returns World production_name
                state_of_move product_name product_uom_qty qty_available
                move_line_ids quantity qty_done reserved_qty has_quantity
                _action_assign _action_done set_quantity set_qty_done
                production (pending_moves (world World s1) production) 0 s1)
      as (n & s' & Hrun & Hn).
    unfold wbind. rewrite Hrun.
    eexists n, _, s'. split; [reflexivity|lia].
Qed.

Lemma grows_refl t : grows 0 t t.
Proof. exists 0, 0. repeat split; lia. Qed.

Lemma grows_message n t t' m : grows n t t' -> grows (S n) t (add_message t' m).
Proof.
  intros (i & k & H1 & H2 & H3 & H4). exists i, k. simpl.
  rewrite length_app. simpl. repeat split; lia.
Qed.

Lemma grows_stock n t t' m : grows n t t' -> grows n t (add_stock_issue t' m).
Proof.
  intros (i & k & H1 & H2 & H3 & H4). exists i, k. simpl. repeat split; lia.
Qed.

Lemma grows_weaken n m t t' : m <= n -> grows n t t' -> grows m t t'.
Proof.
  intros Hle (i & k & H1 & H2 & H3 & H4). exists i, k. repeat split; lia.
Qed.

Lemma grows_trans n m t t' t'' :
  grows n t t' -> grows m t' t'' -> grows (n + m) t t''.
Proof.
  intros (i & k & H1 & H2 & H3 & H4) (i' & k' & H1' & H2' & H3' & H4').
  exists (i + i'), (k + k'). repeat split; lia.
Qed.

(** The state test returns; when the loop is not to go on with the order,
    a message has been added. *)
Lemma check_state_returns production t s :
  exists t' go s',
    check_state production t s = (Ok (t', go), s')
    /\ grows (if go then 0 else 1) t t'.
Proof.
  unfold MaterialIssue.check_state, wbind at 1, read at 1.
  destruct (production_state (world World s) production).
  - unfold try_except, wbind at 1, call.
    destruct (action_confirm production (world World s)) as [[e|] w].
    + eexists _, false, _. split; [reflexivity|].
      apply grows_message, grows_refl.
    + eexists _, true, _. split; [reflexivity|].
      apply (grows_weaken 1); [lia|]. apply grows_message, grows_refl.
  - eexists t, true, s. split; [reflexivity|apply grows_refl].
  - eexists t, true, s. split; [reflexivity|apply grows_refl].
  - eexists t, true, s. split; [reflexivity|apply grows_refl].
  - eexists _, false, _. split; [reflexivity|].
    apply grows_message, grows_refl.
  - eexists _, false, _. split; [reflexivity|].
    apply grows_message, grows_refl.
Qed.

(** One line: the body returns, and adds at least one message. *)
Lemma issue_line_returns self production t s :
  exists t' s', issue_line self production t s = (Ok t', s') /\ grows 1 t t'.
Proof.
  destruct (check_state_returns production t s) as (t1 & go & s1 & Hc & Hg).
  unfold MaterialIssue.issue_line, wbind at 1. rewrite Hc.
  destruct go; cbn [snd fst negb]; [|exists t1, s1; split; [reflexivity|exact Hg]].
  unfold wbind at 1, read at 1.
  destruct (pending_moves (world World s1) production) as [|mv mvs] eqn:Em.
  - eexists _, _. split; [reflexivity|].
    apply (grows_message 0). exact Hg.
  - unfold wbind at 1, read at 1. unfold wbind at 1.
    assert (Ha : exists s2,
               try_except World (call World (action_assign production))
                 (fun e =>
                    wbind World
                      (read World (fun w => production_name w production))
                      (fun name =>
                         log_line World
                           ("Could not assign production " ++ name ++ ": "
                            ++ exn_str e)%string)) s1 = (Ok tt, s2)).
    { unfold try_except, call.
      destruct (action_assign production (world World s1)) as [[e|] w];
        eexists; reflexivity. }
    destruct Ha as [s2 Ha]. rewrite Ha.
    destruct (_auto_issue_materials_total production s2)
      as (issued & total & s3 & Hi & Hle).
    unfold wbind at 1. rewrite Hi. cbn [fst snd].
    unfold wbind at 1, read at 1.
    set (t2 := Tally (total_issued t1 + issued) (total_moves t1 + total)
                     (messages t1) (stock_issues t1)).
    assert (Hg2 : grows 0 t t2).
    { destruct Hg as (i & k & H1 & H2 & H3 & H4).
      exists (i + issued), (k + total). simpl. repeat split; lia. }
    destruct (0 <? issued).
    + eexists _, _. split; [reflexivity|]. apply grows_message. exact Hg2.
    + destruct (0 <? total).
      * destruct (missing_materials World product_name product_uom_qty
                    qty_available (world World s1) (mv :: mvs));
          eexists _, _; (split; [reflexivity|]).
        -- apply grows_message. exact Hg2.
        -- apply grows_stock, grows_message. exact Hg2.
      * eexists _, _. split; [reflexivity|]. apply grows_message. exact Hg2.
Qed.

(** The loop returns, and adds at least one message per line. *)
Lemma issue_lines_returns self selected : forall t s,
  exists t' s',
    issue_lines self selected t s = (Ok t', s')
    /\ grows (length selected) t t'.
Proof.
  induction selected as [|production rest IH]; intros t s; simpl.
  - exists t, s. split; [reflexivity|apply grows_refl].
  - destruct (issue_line_returns self production t s) as (t1 & s1 & H1 & Hg1).
    unfold wbind at 1. rewrite H1.
    destruct (IH t1 s1) as (t' & s' & H & Hg).
    exists t', s'. split; [exact H|].
    exact (grows_trans 1 (length rest) t t1 t' Hg1 Hg).
Qed.

(** X17: issuing materials for the selected work orders raises the user
    error of an empty selection when no line is selected, the world
    unchanged; otherwise it never raises, whatever the methods of the stock
    and manufacturing records do: it returns the notification built from a
    tally in which the number of moves issued is at most the number of
    moves counted and which holds at least one message per selected line;
    the notification is of type success when a move was issued, warning
    when moves were counted and none issued, info otherwise. *)
Theorem issue_for_selected_always_reports self s :
  match selected_productions (world World s) self with
  | [] =>
      action_issue_materials_for_selected self s
      = (Raise (UserError "Please select at least one work order first!"), s)
  | selected =>
      exists t s',
        action_issue_materials_for_selected self s
        = (Ok (notification_of t), s')
        /\ total_issued t <= total_moves t
        /\ length selected <= length (messages t)
        /\ exists title message,
             notification_of t
             = display_notification title message
                 (if 0 <? total_issued t then "success"
                  else if 0 <? total_moves t then "warning" else "info")
                 true
  end.
Proof.
  destruct (selected_productions (world World s) self) as [|p ps] eqn:Es.
  - unfold MaterialIssue.action_issue_materials_for_selected, wbind, read.
    rewrite Es. reflexivity.
  - destruct (issue_lines_returns self (p :: ps) (Tally 0 0 [] []) s)
      as (t & s' & Hrun & (i & k & H1 & H2 & H3 & H4)).
    exists t, s'.
    split.
    { unfold MaterialIssue.action_issue_materials_for_selected.
      unfold wbind at 1. unfold read. rewrite Es.
      unfold wbind. rewrite Hrun. reflexivity. }
    simpl in H1, H2, H4.
    split; [lia|]. split; [simpl; lia|].
    unfold MaterialIssue.notification_of.
    destruct (0 <? total_issued t); [eexists _, _; reflexivity|].
    destruct (0 <? total_moves t); eexists _, _; reflexivity.
Qed.

End Facts.

End MaterialIssueFacts.

(* ================================================================== *)
(** * Properties of the computed fields of the execution *)

Module ExecutionTotalsFacts.

Import ExecutionTotals.

Lemma filter_length_le {A} (f : A -> bool) (l : list A) :
  length (List.filter f l) <= length l.
Proof.
  induction l as [|x l IH]; simpl; [lia|]. destruct (f x); simpl; lia.
Qed.

Lemma filter_length_all {A} (f : A -> bool) (l : list A) :
  (length (List.filter f l) =? length l) = forallb f l.
Proof.
  induction l as [|x l IH]; simpl; [reflexivity|].
  destruct (f x); simpl; [exact IH|].
  pose proof (filter_length_le f l). apply Nat.eqb_neq. lia.
Qed.

Lemma counts_split (l : list Production.state_t) :
  length (List.filter is_done l) + length (List.filter is_running l)
  = length (List.filter released l).
Proof.
  induction l as [|s l IH]; simpl; [reflexivity|].
  destruct s; simpl; lia.
Qed.

(** X18: in the counts of an execution no line is counted both as
    completed and as in progress: the two counts together never exceed
    the number of lines, and they reach it exactly when no line's
    production order is in draft or cancelled. *)
Theorem execution_counts_partition (lines : list Production.state_t) :
  let t := _compute_totals lines in
  completed_components t + in_progress_components t <= total_components t
  /\ (completed_components t + in_progress_components t =? total_components t)
     = forallb released lines.
Proof.
  cbv zeta. unfold _compute_totals. cbn [total_components completed_components
                                         in_progress_components].
  rewrite counts_split. split.
  - apply filter_length_le.
  - apply filter_length_all.
Qed.

End ExecutionTotalsFacts.

Module ExecutionLineFacts.

Import ExecutionLine.

Lemma ratio_bounds (d t : nat) :
  0 < t -> d <= t ->
  (0 <= inject_Z (Z.of_nat d) / inject_Z (Z.of_nat t) * 100)%Q
  /\ (inject_Z (Z.of_nat d) / inject_Z (Z.of_nat t) * 100 <= 100)%Q
  /\ ((inject_Z (Z.of_nat d) / inject_Z (Z.of_nat t) * 100 == 100)%Q
      <-> d = t).
Proof.
  intros Ht Hd.
  assert (Htq : (0 < inject_Z (Z.of_nat t))%Q).
  { change 0%Q with (inject_Z 0). rewrite <- Zlt_Qlt. lia. }
  assert (Hdq : (0 <= inject_Z (Z.of_nat d))%Q).
  { change 0%Q with (inject_Z 0). rewrite <- Zle_Qle. lia. }
  assert (Hle : (inject_Z (Z.of_nat d) <= inject_Z (Z.of_nat t))%Q).
  { rewrite <- Zle_Qle. lia. }
  set (x := inject_Z (Z.of_nat d)) in *.
  set (y := inject_Z (Z.of_nat t)) in *.
  assert (Hr0 : (0 <= x / y)%Q).
  { apply Qle_shift_div_l; [exact Htq|]. lra. }
  assert (Hr1 : (x / y <= 1)%Q).
  { apply Qle_shift_div_r; [exact Htq|]. lra. }
  split; [lra|]. split; [lra|].
  split.
  - intros H.
    assert (H1 : (x / y == 1)%Q) by lra.
    assert (Hy : ~ (y == 0)%Q) by (intros Hy; lra).
    assert (H2 : (x == y)%Q).
    { transitivity (y * (x / y))%Q.
      - symmetry. apply Qmult_div_r. exact Hy.
      - rewrite H1. ring. }
    unfold x, y in H2.
    apply Nat2Z.inj. exact (proj1 (inject_Z_injective _ _) H2).
  - intros Heq.
    assert (Hxy : (x == y)%Q) by (unfold x, y; rewrite Heq; reflexivity).
    assert (H1 : (x / y == 1)%Q).
    { rewrite Hxy. unfold Qdiv. apply Qmult_inv_r. intros Hy. lra. }
    lra.
Qed.

(** X19: the progress of a line lies between 0 and 100; it is 100 exactly
    when the production order has work orders and each of them is done,
    and then the current operation reads as complete; the current
    operation reads as complete in no other case, unless that text is the
    name of the first work order that is ready or in progress (floats
    taken as exact numbers). *)
Theorem progress_full_iff_all_done (production : option (list workorder)) :
  (0 <= _compute_progress production)%Q
  /\ (_compute_progress production <= 100)%Q
  /\ ((_compute_progress production == 100)%Q
      <-> all_done production = true)
  /\ (all_done production = true ->
      _compute_current_operation production = "All Operations Complete")
  /\ (_compute_current_operation production = "All Operations Complete" ->
      all_done production = true
      \/ current_name production = Some "All Operations Complete").
Proof.
  destruct production as [[|w ws]|].
  1,3: simpl; repeat split; try lra; try discriminate;
       intros H; compute in H; discriminate.
  set (l := w :: ws).
  assert (Hlen : 0 < length l) by (simpl; lia).
  pose proof (ExecutionTotalsFacts.filter_length_le is_done l) as Hd.
  destruct (ratio_bounds _ _ Hlen Hd) as (H0 & H1 & H2).
  assert (Hp : _compute_progress (Some l)
               = (inject_Z (Z.of_nat (length (List.filter is_done l)))
                  / inject_Z (Z.of_nat (length l)) * 100)%Q).
  { unfold _compute_progress, l.
    replace (0 <? length (w :: ws)) with true; [reflexivity|].
    symmetry. apply Nat.ltb_lt. simpl. lia. }
  assert (Ha : all_done (Some l) = forallb is_done l) by reflexivity.
  assert (Hall : length (List.filter is_done l) = length l
                 <-> forallb is_done l = true).
  { rewrite <- ExecutionTotalsFacts.filter_length_all. symmetry.
    apply Nat.eqb_eq. }
  assert (Ho : _compute_current_operation (Some l)
               = match List.filter is_current l with
                 | current_wo :: _ => name current_wo
                 | [] =>
                     if length (List.filter is_done l) =? length l
                     then "All Operations Complete" else "Not Started"
                 end) by reflexivity.
  assert (Hn : current_name (Some l)
               = match List.filter is_current l with
                 | current_wo :: _ => Some (name current_wo)
                 | [] => None
                 end) by reflexivity.
  rewrite Hp, Ha, Ho, Hn. clearbody l. clear Hp Ha Ho Hn.
  split; [exact H0|]. split; [exact H1|].
  split; [rewrite H2; exact Hall|].
  split.
  - intros Hf.
    assert (Hc : List.filter is_current l = []).
    { clear -Hf. induction l as [|x l IH]; [reflexivity|].
      simpl in Hf. apply andb_prop in Hf as [Hx Hl]. simpl.
      unfold is_current. unfold is_done in Hx.
      destruct (state x); try discriminate. apply IH, Hl. }
    rewrite Hc. apply Hall in Hf. rewrite Hf, Nat.eqb_refl. reflexivity.
  - destruct (List.filter is_current l) as [|c cs].
    + destruct (length (List.filter is_done l) =? length l) eqn:E.
      * intros _. left. apply Hall, Nat.eqb_eq, E.
      * discriminate.
    + intros ->. right. reflexivity.
Qed.

End ExecutionLineFacts.

Module MaterialDataFacts.

Import MaterialData.

Lemma max0_nonneg (x : Q) : (0 <= Py.max0 x)%Q.
Proof.
  unfold Py.max0, Py.gt. destruct (Qle_bool x 0) eqn:E; simpl; [lra|].
  destruct (Qlt_le_dec 0 x) as [H|H]; [lra|].
  apply Qle_bool_iff in H. congruence.
Qed.

Lemma max0_zero (x : Q) : (Py.max0 x == 0)%Q <-> (x <= 0)%Q.
Proof.
  unfold Py.max0, Py.gt. destruct (Qle_bool x 0) eqn:E; simpl.
  - apply Qle_bool_iff in E. split; [intros _; exact E|reflexivity].
  - split; intros H.
    + lra.
    + apply Qle_bool_iff in H. congruence.
Qed.

(** X21: in the figures exported for a material the shortage is never
    negative; the status is sufficient exactly when the shortage is zero;
    and the status is shortage only when there is no free stock, nothing
    was ordered or received, and the shortage is positive. *)
Theorem material_status_matches_shortage (f : found) (required_qty : Q) :
  let d := _get_material_data f required_qty in
  (0 <= d_shortage_qty d)%Q
  /\ (d_status d = sufficient <-> (d_shortage_qty d == 0)%Q)
  /\ (d_status d = shortage ->
      (d_free_stock d <= 0)%Q /\ (d_in_po_qty d <= 0)%Q
      /\ (d_received_qty d <= 0)%Q /\ (0 < d_shortage_qty d)%Q).
Proof.
  cbv zeta. unfold _get_material_data.
  cbn [d_shortage_qty d_status d_free_stock d_in_po_qty d_received_qty].
  set (free := (qty_available f - outgoing_qty f)%Q).
  set (rem := Py.max0 (required_qty - _)%Q).
  set (po := snd (fst (count_lines (po_lines f)))).
  set (rc := snd (count_lines (po_lines f))).
  split; [apply max0_nonneg|].
  unfold Py.ge.
  destruct (Qle_bool rem free) eqn:E.
  - apply Qle_bool_iff in E. split.
    + split; [intros _|reflexivity]. apply max0_zero. lra.
    + discriminate.
  - assert (Hlt : (free < rem)%Q).
    { destruct (Qlt_le_dec free rem) as [H|H]; [exact H|].
      apply Qle_bool_iff in H. congruence. }
    assert (Hpos : (0 < Py.max0 (rem - free))%Q).
    { pose proof (max0_nonneg (rem - free)) as H0.
      destruct (Qlt_le_dec 0 (Py.max0 (rem - free))) as [H|H]; [exact H|].
      assert (Hz : (Py.max0 (rem - free) == 0)%Q) by lra.
      apply max0_zero in Hz. lra. }
    split.
    + split.
      * destruct (Py.gt po 0 || Py.gt rc 0); [discriminate|].
        destruct (Py.gt free 0); discriminate.
      * intros Hz. lra.
    + unfold Py.gt.
      destruct (Qle_bool po 0) eqn:Ep; [|discriminate].
      destruct (Qle_bool rc 0) eqn:Er; [|discriminate].
      destruct (Qle_bool free 0) eqn:Ef; [|discriminate].
      intros _. apply Qle_bool_iff in Ep, Er, Ef. repeat split; assumption.
Qed.

End MaterialDataFacts.
